(** * AI Storyboard Creator: a shallow embedding of [app.py]

    The pipeline of [app.py] turns a story idea into a narrated slideshow:
    a story document is requested from a text service and rewritten for
    visual consistency, one image and one narration are produced per scene
    and recorded in the global [files] registry, and the clips are joined
    into a video.

    Python values are modelled as follows.
    - [str] is the [string] of the bytes of its UTF-8 encoding, a lone
      surrogate (which [json.loads] can produce) being written as the three
      bytes that scheme gives it. [len], slicing, [strip] and [split()]
      count and cut code points; [in], [split(sep)] and
      [urllib.parse.quote] work on the bytes, which is the same thing for
      such encodings; [str.lower], which needs the Unicode tables, is left
      to the [World].
    - [int] is [Z]; [float] is the primitive binary64 [float].
    - A JSON object with a known schema is a record whose fields are
      [option]s ([None]: the key is absent); values that are present have
      the type the schema of [generate_consistent_story] asks for, except
      the title, which the enhancement pass never looks at and which can
      reach the video stage with any JSON value.
    - [dict]s keyed by scene number are [gmap Z string].
    - The services and libraries the program calls (text completion, HTTP,
      PIL, edge-tts, moviepy, the file system) are the fields of a [World];
      a call that can raise returns an outcome saying so.
    - Functions that touch the registry, the disk or the network live in a
      state-and-exception monad [M].
    - Printing is not modelled: standard output is taken to accept every
      line the program prints. *)

From Stdlib Require Import ZArith String Ascii List Bool Lia PrimFloat.
From stdpp Require Import base option list list_numbers gmap strings pretty.

Local Open Scope Z_scope.

(** ** Text *)

Module Str.

(** The lowering of the letters A to Z, every other byte kept: what
    [str.lower] does on ASCII text. The example worlds use it. *)
Definition ascii_lower_char (c : ascii) : ascii :=
  let n := nat_of_ascii c in
  if (65 <=? n)%nat && (n <=? 90)%nat then ascii_of_nat (n + 32) else c.

Fixpoint ascii_lower (s : string) : string :=
  match s with
  | EmptyString => EmptyString
  | String c s' => String (ascii_lower_char c) (ascii_lower s')
  end.

(** A continuation byte of a multi-byte code point. *)
Definition is_cont (c : ascii) : bool :=
  let n := nat_of_ascii c in (128 <=? n)%nat && (n <? 192)%nat.

(** The code points of a [str], each as the bytes that encode it: a byte
    that is not a continuation byte, with the continuation bytes that
    follow it. *)
Fixpoint chars (s : string) : list string :=
  match s with
  | EmptyString => []
  | String c s' =>
      match chars s' with
      | String c' rest :: more =>
          if is_cont c' then String c (String c' rest) :: more
          else String c EmptyString :: String c' rest :: more
      | EmptyString :: more => String c EmptyString :: more
      | [] => [String c EmptyString]
      end
  end.

(** The number a code point stands for. *)
Definition lead_bits (n : N) : N :=
  if (n <? 128)%N then n
  else if (n <? 192)%N then (n - 128)%N
  else if (n <? 224)%N then (n - 192)%N
  else if (n <? 240)%N then (n - 224)%N
  else (n - 240)%N.

Fixpoint cont_bits (acc : N) (s : string) : N :=
  match s with
  | EmptyString => acc
  | String c s' => cont_bits (acc * 64 + N_of_ascii c mod 64)%N s'
  end.

Definition codepoint (ch : string) : N :=
  match ch with
  | EmptyString => 0%N
  | String c rest => cont_bits (lead_bits (N_of_ascii c)) rest
  end.

(** [len(s)] *)
Definition len (s : string) : nat := length (chars s).

(** [s.startswith(p)] *)
Fixpoint startswith (p s : string) : bool :=
  match p, s with
  | EmptyString, _ => true
  | String a p', String b s' => if decide (a = b) then startswith p' s' else false
  | String _ _, EmptyString => false
  end.

(** [sub in s] *)
Fixpoint contains (sub s : string) : bool :=
  startswith sub s ||
  match s with
  | EmptyString => false
  | String _ s' => contains sub s'
  end.

(** [s.endswith(suf)] *)
Definition endswith (suf s : string) : bool :=
  startswith (String.rev suf) (String.rev s).

(** [s[:n]] *)
Definition take (n : nat) (s : string) : string :=
  String.concat EmptyString (List.firstn n (chars s)).

(** [s.split(sep)] for a non-empty [sep]: [skip] counts the characters of
    a separator still to be passed over, [cur] is the current part,
    reversed. *)
Fixpoint split_go (sep : string) (skip : nat) (cur s : string) : list string :=
  match s with
  | EmptyString => [String.rev cur]
  | String c s' =>
      match skip with
      | S k => split_go sep k cur s'
      | O =>
          if startswith sep s
          then String.rev cur :: split_go sep (String.length sep - 1) EmptyString s'
          else split_go sep 0 (String c cur) s'
      end
  end.
Definition split (sep s : string) : list string := split_go sep 0 EmptyString s.

(** The code points [str.strip()] and [str.split()] treat as white
    space: U+0009 to U+000D, U+001C to U+0020, U+0085, U+00A0, U+1680,
    U+2000 to U+200A, U+2028, U+2029, U+202F, U+205F and U+3000. *)
Definition isspace (cp : N) : bool :=
  ((9 <=? cp) && (cp <=? 13) || (28 <=? cp) && (cp <=? 32) ||
   (cp =? 133) || (cp =? 160) || (cp =? 5760) ||
   (8192 <=? cp) && (cp <=? 8202) || (cp =? 8232) || (cp =? 8233) ||
   (cp =? 8239) || (cp =? 8287) || (cp =? 12288))%N.

Definition space_char (ch : string) : bool := isspace (codepoint ch).

Fixpoint drop_spaces (l : list string) : list string :=
  match l with
  | ch :: l' => if space_char ch then drop_spaces l' else l
  | [] => []
  end.

(** [s.strip()] *)
Definition strip (s : string) : string :=
  String.concat EmptyString
    (List.rev (drop_spaces (List.rev (drop_spaces (chars s))))).

(** [s.split()]: the maximal runs of code points that are not white
    space. *)
Fixpoint words_go (cur : option string) (l : list string) : list string :=
  match l with
  | [] => option_list cur
  | ch :: l' =>
      if space_char ch
      then option_list cur ++ words_go None l'
      else words_go (Some (default EmptyString cur +:+ ch)) l'
  end.
Definition words (s : string) : list string := words_go None (chars s).

(** Whether [s.encode("utf-8")] returns: it raises on a lone surrogate,
    U+D800 to U+DFFF. *)
Definition surrogate (cp : N) : bool := ((55296 <=? cp) && (cp <=? 57343))%N.

Definition encodable (s : string) : bool :=
  forallb (λ ch, negb (surrogate (codepoint ch))) (chars s).

(** [sep.join(l)] *)
Fixpoint join (sep : string) (l : list string) : string :=
  match l with
  | [] => EmptyString
  | [x] => x
  | x :: l' => x +:+ sep +:+ join sep l'
  end.

(** Truthiness of a [str]. *)
Definition truthy (s : string) : bool :=
  match s with EmptyString => false | _ => true end.

(** [urllib.parse.quote(s)] on a text that can be encoded: letters, digits
    and [_.-~/] are kept, every other byte becomes [%XX]. *)
Definition unreserved (c : ascii) : bool :=
  let n := nat_of_ascii c in
  ((48 <=? n)%nat && (n <=? 57)%nat) || ((65 <=? n)%nat && (n <=? 90)%nat) ||
  ((97 <=? n)%nat && (n <=? 122)%nat) ||
  bool_decide (c = "_"%char) || bool_decide (c = "."%char) ||
  bool_decide (c = "-"%char) || bool_decide (c = "~"%char) ||
  bool_decide (c = "/"%char).

Definition hex_digit (n : nat) : ascii :=
  if (n <? 10)%nat then ascii_of_nat (48 + n) else ascii_of_nat (55 + n).

Fixpoint quote (s : string) : string :=
  match s with
  | EmptyString => EmptyString
  | String c s' =>
      if unreserved c then String c (quote s')
      else
        let n := nat_of_ascii c in
        String "%" (String (hex_digit (n / 16)) (String (hex_digit (n mod 16)) (quote s')))
  end.

End Str.

(** [f"{n}"] for an [int]. *)
Definition str_of_int (n : Z) : string := pretty n.

(** ** Data model *)

(** The [visual_bible] object of a story document; [bible_extra_keys] are
    the keys the program never reads (they only matter for the truthiness
    of the [dict]). *)
Record VisualBible := mkVisualBible {
  art_style : option string;
  color_palette : option string;
  main_character : option string;
  secondary_characters : option string;
  world_setting : option string;
  bible_extra_keys : list string
}.

(** The value under [title]: a string, an array, or any other JSON value
    (null, a number, a boolean, an object); [shown] is what [str()] makes of
    a value that is not a string. *)
Inductive Title :=
  | TitleStr (s : string)
  | TitleArray (shown : string)
  | TitleOther (shown : string).

(** [f"{title}"] *)
Definition title_str (t : Title) : string :=
  match t with
  | TitleStr s => s
  | TitleArray shown => shown
  | TitleOther shown => shown
  end.

(** One element of [scenes]. *)
Record Scene := mkScene {
  scene_number : option Z;
  description : option string;
  visual_prompt : option string;
  narration : option string;
  camera_angle : option string;
  mood : option string;
  style_reference : option string
}.

(** The object [json.loads] returns; [extra_keys] are the keys the program
    never reads (they only matter for the truthiness of the [dict]). *)
Record StoryData := mkStoryData {
  title : option Title;
  visual_bible : option VisualBible;
  scenes : option (list Scene);
  extra_keys : list string
}.

(** [bool(story_data)]: a [dict] is falsy exactly when it has no key. *)
Definition story_truthy (d : StoryData) : bool :=
  bool_decide (is_Some (title d)) || bool_decide (is_Some (visual_bible d)) ||
  bool_decide (is_Some (scenes d)) || bool_decide (extra_keys d ≠ []).

Definition empty_bible : VisualBible := mkVisualBible None None None None None [].

(** [story_data.get("visual_bible", {})] *)
Definition get_visual_bible (d : StoryData) : VisualBible :=
  default empty_bible (visual_bible d).

(** [story_data.get("scenes", [])] *)
Definition get_scenes (d : StoryData) : list Scene := default [] (scenes d).

(** ** The file registry: class [StoryboardFiles] *)

Record StoryboardFiles := mkFiles {
  files_images : gmap Z string;
  files_audio : gmap Z string;
  files_title_card : option string;
  files_end_card : option string
}.

Module StoryboardFiles.

Definition reset (self : StoryboardFiles) : StoryboardFiles :=
  mkFiles ∅ ∅ None None.

Definition add_image (self : StoryboardFiles) (scene_number : Z) (path : string)
  : StoryboardFiles :=
  mkFiles (<[scene_number := path]> (files_images self)) (files_audio self)
          (files_title_card self) (files_end_card self).

Definition add_audio (self : StoryboardFiles) (scene_number : Z) (path : string)
  : StoryboardFiles :=
  mkFiles (files_images self) (<[scene_number := path]> (files_audio self))
          (files_title_card self) (files_end_card self).

Definition get_image (self : StoryboardFiles) (scene_number : Z) : option string :=
  files_images self !! scene_number.

Definition get_audio (self : StoryboardFiles) (scene_number : Z) : option string :=
  files_audio self !! scene_number.

(** [StoryboardFiles()]: [__init__] calls [reset]. *)
Definition init : StoryboardFiles := mkFiles ∅ ∅ None None.

End StoryboardFiles.

(** ** Consistency enhancement: [enhance_visual_prompts] *)

(** [visual_bible.get("art_style", "digital art, cinematic")] and the two
    other reads of the visual bible. *)
Definition get_art_style (visual_bible : VisualBible) : string :=
  default "digital art, cinematic" (art_style visual_bible).
Definition get_color_palette (visual_bible : VisualBible) : string :=
  default "vibrant colors" (color_palette visual_bible).
Definition get_main_character (visual_bible : VisualBible) : string :=
  default "" (main_character visual_bible).

Definition consistency_prefix (visual_bible : VisualBible) : string :=
  get_art_style visual_bible +:+ ", " +:+ get_color_palette visual_bible.

(** The body of the [for scene in ...] loop; [lower] is [str.lower]. *)
Definition enhance_scene (lower : string → string) (visual_bible : VisualBible)
    (scene : Scene) : Scene :=
  let main_character := get_main_character visual_bible in
  let original_prompt := default "" (visual_prompt scene) in
  let enhanced_prompt :=
    if Str.truthy main_character &&
       negb (Str.contains (lower main_character) (lower original_prompt))
    then main_character +:+ ", " +:+ original_prompt
    else original_prompt in
  mkScene (scene_number scene) (description scene)
    (Some (enhanced_prompt +:+ ", " +:+ consistency_prefix visual_bible
             +:+ ", consistent character design"))
    (narration scene) (camera_angle scene) (mood scene)
    (Some (consistency_prefix visual_bible)).

(** The loop runs over [story_data.get("scenes", [])]: when the key is
    absent there is nothing to rewrite and the key stays absent. *)
Definition enhance_visual_prompts (lower : string → string) (story_data : StoryData)
  : StoryData :=
  let bible := get_visual_bible story_data in
  mkStoryData (title story_data) (visual_bible story_data)
    (match scenes story_data with
     | Some l => Some (map (enhance_scene lower bible) l)
     | None => None
     end)
    (extra_keys story_data).

(** ** The outside world *)

(** What a card shows on one line: a text, or, when the title of the
    document is an array, the first forty items of the array that [str()]
    shows as [shown]. *)
Inductive CardText :=
  | Text (s : string)
  | Items (shown : string).

(** What PIL is asked to draw and write: the decoded response with its
    scene badge, a placeholder, or a title or end card. Pixels are not
    modelled. *)
Inductive Picture :=
  | Labelled (content label : string)
  | PlaceholderPic (heading : string) (lines : list string)
  | CardPic (text_lines : list (CardText * bool)).

(** A moviepy clip: a still image, how long it is shown, and the narration
    attached to it. [ImageClip(path)] has no duration until [set_duration]. *)
Record Clip := mkClip {
  clip_source : string;
  clip_duration : option float;
  clip_audio : option string
}.

(** The files on disk: absolute path to size in bytes. *)
Abbreviation Disk := (gmap string N).

(** The collaborators of the program. A [bool] result says whether the
    call returned ([true]) or raised ([false]); an [option] result is [None]
    when the call raised.
    - [cwd]: the components of the working directory;
    - [py_hash]: the built-in [hash] on [str];
    - [str_lower]: the method [str.lower];
    - [chat_completion]: the text service, from the user message to the
      content of the first choice;
    - [json_loads]: [json.loads]; [None] also stands for a parsed value that
      is not an object of the schema, on which the enhancement pass raises
      (the reply is no object, or its bible, its scenes or a prompt the
      pass lowers have another type than the schema's);
    - [requests_get]: [requests.get], given the requests issued so far, to
      the status code and the body;
    - [Image_open]: whether the body decodes as an image;
    - [pil_save]: drawing the picture and [Image.save] at an absolute
      path;
    - [tts_save]: [edge_tts.Communicate(text, voice).save(path)];
    - [ImageClip_ok]: whether [ImageClip(path)] loads;
    - [AudioFileClip]: the duration of the loaded narration;
    - [set_audio_ok]: whether [clip.set_audio(audio)] returns;
    - [write_videofile]: [concatenate_videoclips] followed by
      [write_videofile]. *)
Record World := mkWorld {
  cwd : list string;
  py_hash : string → Z;
  str_lower : string → string;
  chat_completion : string → option string;
  json_loads : string → option StoryData;
  requests_get : list string → string → option (Z * string);
  Image_open : string → bool;
  pil_save : Picture → string → Disk → Disk * bool;
  tts_save : string → string → string → Disk → Disk * bool;
  ImageClip_ok : string → Disk → bool;
  AudioFileClip : string → Disk → option float;
  set_audio_ok : string → string → bool;
  write_videofile : list Clip → string → Disk → Disk * bool
}.

(** The mutable state of a process: the global [files], the disk, and the
    URLs requested so far. *)
Record State := mkState {
  files : StoryboardFiles;
  disk : Disk;
  requests : list string
}.

(** ** The monad of effectful functions *)

Inductive Outcome (A : Type) :=
  | Ok (a : A)
  | Raise.
Arguments Ok {A} a.
Arguments Raise {A}.

Definition M (A : Type) : Type := State → State * Outcome A.

Definition ret {A} (a : A) : M A := λ s, (s, Ok a).

Definition bind {A B} (m : M A) (k : A → M B) : M B :=
  λ s, match m s with
       | (s', Ok a) => k a s'
       | (s', Raise) => (s', Raise)
       end.

Definition raise {A} : M A := λ s, (s, Raise).

(** [try: body / except Exception: handler] *)
Definition try_except {A} (body handler : M A) : M A :=
  λ s, match body s with
       | (s', Ok a) => (s', Ok a)
       | (s', Raise) => handler s'
       end.

Declare Scope M_scope.
Delimit Scope M_scope with M.
Notation "x ← y ; z" := (bind y (λ x, z))
  (at level 20, y at level 100, z at level 200, only parsing) : M_scope.
Notation "' x ← y ; z" := (bind y (λ x, z))
  (at level 20, x pattern, y at level 100, z at level 200, only parsing) : M_scope.
Notation "y ;; z" := (bind y (λ _, z))
  (at level 100, z at level 200, only parsing, right associativity) : M_scope.

(** [for x in l: acc = body(acc, x)] *)
Fixpoint for_each {A B} (l : list A) (body : B → A → M B) (acc : B) : M B :=
  match l with
  | [] => ret acc
  | x :: l' => (acc' ← body acc x; for_each l' body acc')%M
  end.

(** [enumerate(l)] *)
Definition enumerate {A} (l : list A) : list (Z * A) :=
  zip (seqZ 0 (Z.of_nat (length l))) l.

(** ** Primitive effects *)

Definition files_reset : M unit :=
  λ s, (mkState (StoryboardFiles.reset (files s)) (disk s) (requests s), Ok tt).

Definition files_add_image (scene_number : Z) (path : string) : M unit :=
  λ s, (mkState (StoryboardFiles.add_image (files s) scene_number path)
                (disk s) (requests s), Ok tt).

Definition files_add_audio (scene_number : Z) (path : string) : M unit :=
  λ s, (mkState (StoryboardFiles.add_audio (files s) scene_number path)
                (disk s) (requests s), Ok tt).

Definition files_get_image (scene_number : Z) : M (option string) :=
  λ s, (s, Ok (StoryboardFiles.get_image (files s) scene_number)).

Definition files_get_audio (scene_number : Z) : M (option string) :=
  λ s, (s, Ok (StoryboardFiles.get_audio (files s) scene_number)).

Section Effects.
Context (w : World).

(** [os.path.isabs] *)
Definition isabs (p : string) : bool := Str.startswith "/" p.

(** The working directory as a path prefix: empty at the root. *)
Definition cwd_prefix : string := foldr (λ c acc, "/" +:+ c +:+ acc) "" (cwd w).

(** [os.path.abspath]; the program only passes file names without [.] or
    [..] components, so nothing is normalised. *)
Definition abspath (p : string) : string :=
  if isabs p then p else cwd_prefix +:+ "/" +:+ p.

(** [os.path.exists] *)
Definition os_path_exists (p : string) : M bool :=
  λ s, (s, Ok (bool_decide (is_Some (disk s !! abspath p)))).

(** [os.path.getsize]: raises when the file is missing. *)
Definition os_path_getsize (p : string) : M N :=
  λ s, match disk s !! abspath p with
       | Some n => (s, Ok n)
       | None => (s, Raise)
       end.

(** [requests.get(url, timeout=120)]: the request is logged, then the
    response or the exception comes from the world. *)
Definition http_get (url : string) : M (Z * string) :=
  λ s, let s' := mkState (files s) (disk s) (requests s ++ [url]) in
       match requests_get w (requests s) url with
       | Some r => (s', Ok r)
       | None => (s', Raise)
       end.

(** [Image.open(BytesIO(content))] *)
Definition image_open (content : string) : M unit :=
  if Image_open w content then ret tt else raise.

(** [img.save(path)] *)
Definition img_save (img : Picture) (path : string) : M unit :=
  λ s, let '(d, returned) := pil_save w img (abspath path) (disk s) in
       (mkState (files s) d (requests s), if returned then Ok tt else Raise).

(** The event loop running [tts_async(text, output_file, voice)]. *)
Definition tts (text output_file voice : string) : M unit :=
  λ s, let '(d, returned) := tts_save w text (abspath output_file) voice (disk s) in
       (mkState (files s) d (requests s), if returned then Ok tt else Raise).

(** [ImageClip(path)] *)
Definition image_clip (path : string) : M Clip :=
  λ s, if ImageClip_ok w (abspath path) (disk s)
       then (s, Ok (mkClip path None None))
       else (s, Raise).

(** The loaded narration: its path and its duration. *)
Definition audio_file_clip (path : string) : M (string * float) :=
  λ s, match AudioFileClip w (abspath path) (disk s) with
       | Some d => (s, Ok (path, d))
       | None => (s, Raise)
       end.

(** [clip.set_duration(d)] and [clip.set_audio(audio)] *)
Definition set_duration (d : float) (c : Clip) : Clip :=
  mkClip (clip_source c) (Some d) (clip_audio c).

Definition set_audio (audio : string) (c : Clip) : M Clip :=
  if set_audio_ok w (clip_source c) audio
  then ret (mkClip (clip_source c) (clip_duration c) (Some audio))
  else raise.

(** [concatenate_videoclips(clips, method=...).write_videofile(output_path, ...)],
    with the clean-up that follows. *)
Definition export (clips : list Clip) (output_path : string) : M unit :=
  λ s, let '(d, returned) := write_videofile w clips (abspath output_path) (disk s) in
       (mkState (files s) d (requests s), if returned then Ok tt else Raise).

(** ** Story generator *)

Definition dquote : string := String (ascii_of_nat 34) EmptyString.
Definition newline : string := String (ascii_of_nat 10) EmptyString.

(** The user message of the completion request. *)
Definition user_message (user_prompt : string) (num_scenes : Z) : string :=
  "Create a " +:+ str_of_int num_scenes +:+ "-scene storyboard for:" +:+ newline
  +:+ newline +:+ "    " +:+ dquote +:+ user_prompt +:+ dquote +:+ newline
  +:+ "    " +:+ newline +:+ "    Return ONLY valid JSON, no other text.".

(** The "Clean JSON" step; an index out of range is an exception. *)
Definition clean_json (response_text : string) : option string :=
  if Str.contains "```json" response_text then
    part ← Str.split "```json" response_text !! 1%nat;
    Str.split "```" part !! 0%nat
  else if Str.contains "```" response_text then
    part ← Str.split "```" response_text !! 1%nat;
    Str.split "```" part !! 0%nat
  else Some response_text.

(** The whole body is inside [try ... except Exception: return None], so
    the function is an [option]: [None] is Python's [None]. The fixed
    system instruction is part of [chat_completion]. *)
Definition generate_consistent_story (user_prompt : string) (num_scenes : Z)
  : option StoryData :=
  response_text ← chat_completion w (user_message user_prompt num_scenes);
  response_text ← clean_json response_text;
  story_data ← json_loads w (Str.strip response_text);
  Some (enhance_visual_prompts (str_lower w) story_data).

(** ** Image generator *)

Local Open Scope M_scope.

(** The suffix added to every image prompt. *)
Definition consistency_keywords : string :=
  "consistent character design, same art style, high quality, detailed, 4k".

(** [if seed:] on an [int] or [None]. *)
Definition seed_truthy (seed : option Z) : bool :=
  match seed with
  | Some n => bool_decide (n ≠ 0)
  | None => false
  end.

(** [urllib.parse.quote(enhanced_prompt)] returns: it raises
    [UnicodeEncodeError] on a prompt that holds a lone surrogate. *)
Definition quotable (prompt : string) : bool :=
  Str.encodable (prompt +:+ ", " +:+ consistency_keywords).

(** The request URL of [generate_image] for a prompt that can be quoted:
    the seed parameter is present only when [seed] is truthy. *)
Definition image_url (prompt : string) (seed : option Z) : string :=
  let enhanced_prompt := prompt +:+ ", " +:+ consistency_keywords in
  let encoded_prompt := Str.quote enhanced_prompt in
  if seed_truthy seed
  then "https://image.pollinations.ai/prompt/" +:+ encoded_prompt
       +:+ "?width=1024&height=576&seed=" +:+ str_of_int (default 0 seed)
       +:+ "&nologo=true"
  else "https://image.pollinations.ai/prompt/" +:+ encoded_prompt
       +:+ "?width=1024&height=576&nologo=true".

(** The image file of a scene. *)
Definition scene_png (scene_number : Z) : string :=
  "scene_" +:+ str_of_int scene_number +:+ ".png".

(** The word wrapping of [create_placeholder]. *)
Definition wrap_step (st : list string * list string) (word : string)
  : list string * list string :=
  let '(lines, current) := st in
  let current := current ++ [word] in
  if (50 <? Str.len (Str.join " " current))%nat
  then (lines ++ [Str.join " " (removelast current)], [word])
  else (lines, current).

Definition wrap_text (text : string) : list string :=
  let words := take 25 (Str.words text) in
  let '(lines, current) := foldl wrap_step ([], []) words in
  match current with
  | [] => lines
  | _ => lines ++ [Str.join " " current]
  end.

Definition create_placeholder (scene_number : Z) (text : string) : M string :=
  let lines := if Str.truthy text then take 5 (wrap_text text) else [] in
  let img := PlaceholderPic ("Scene " +:+ str_of_int scene_number) lines in
  let image_path := scene_png scene_number in
  img_save img image_path;;
  files_add_image scene_number (abspath image_path);;
  ret (abspath image_path).

(** The call of [urllib.parse.quote] stands before the [try]: when it
    raises, so does [generate_image], with nothing done. *)
Definition generate_image (prompt : string) (scene_number : Z)
    (style_reference : string) (seed : option Z) : M string :=
  if quotable prompt then
    let image_url := image_url prompt seed in
    let image_path := scene_png scene_number in
    try_except
      ('(status_code, content) ← http_get image_url;
       if bool_decide (status_code = 200) then
         image_open content;;
         img_save (Labelled content ("Scene " +:+ str_of_int scene_number)) image_path;;
         found ← os_path_exists image_path;
         if found then
           _ ← os_path_getsize image_path;
           files_add_image scene_number (abspath image_path);;
           ret (abspath image_path)
         else create_placeholder scene_number prompt
       else create_placeholder scene_number prompt)
      (create_placeholder scene_number prompt)
  else raise.

(** ** Text to speech *)

Definition narration_mp3 (scene_number : Z) : string :=
  "narration_" +:+ str_of_int scene_number +:+ ".mp3".

Definition generate_audio (text : string) (scene_number : Z) (voice : string)
  : M (option string) :=
  let audio_path := narration_mp3 scene_number in
  try_except
    (tts text audio_path voice;;
     found ← os_path_exists audio_path;
     if found then
       size ← os_path_getsize audio_path;
       files_add_audio scene_number (abspath audio_path);;
       ret (Some (abspath audio_path))
     else ret None)
    (ret None).

End Effects.

(** ** Video creator *)

Section Video.
Context (w : World).
Local Open Scope M_scope.

Definition create_simple_image (text_lines : list (CardText * bool)) (filename : string)
  : M string :=
  img_save w (CardPic text_lines) filename;;
  ret filename.

(** [path and os.path.exists(path)]: the path when it is truthy and the
    file is on disk. *)
Definition on_disk (path : option string) : M (option string) :=
  match path with
  | Some p =>
      if Str.truthy p
      then found ← os_path_exists w p; ret (if found then Some p else None)
      else ret None
  | None => ret None
  end.

(** The duration and the narration of a scene clip, from the audio path
    that is on disk (if any). *)
Definition scene_audio (audio_path : option string) : M (float * option string) :=
  match audio_path with
  | Some p =>
      try_except
        ('(audio_clip, audio_duration) ← audio_file_clip w p;
         ret ((audio_duration + 1)%float, Some audio_clip))
        (ret (5%float, None))
  | None => ret (5%float, None)
  end.

(** The body of [for scene_num in range(1, num_scenes + 1)]. *)
Definition add_scene (all_clips : list Clip) (scene_num : Z) : M (list Clip) :=
  image_path ← files_get_image scene_num;
  audio_path ← files_get_audio scene_num;
  image_path ← on_disk image_path;
  match image_path with
  | None => ret all_clips
  | Some image_path =>
      try_except
        (img_clip ← image_clip w image_path;
         audio_path ← on_disk audio_path;
         '(duration, audio_clip) ← scene_audio audio_path;
         let img_clip := set_duration duration img_clip in
         img_clip ←
           match audio_clip with
           | Some a => try_except (set_audio w a img_clip) (ret img_clip)
           | None => ret img_clip
           end;
         ret (all_clips ++ [img_clip]))
        (ret all_clips)
  end.

(** The exported file. *)
Definition output_path : string := "final_storyboard.mp4".

(** Step 4 of [make_video_simple]: combine and export. *)
Definition combine_and_export (all_clips : list Clip) : M (option string) :=
  if (length all_clips <? 2)%nat then ret None
  else
    try_except
      (export w all_clips output_path;;
       found ← os_path_exists w output_path;
       if found then
         size ← os_path_getsize w output_path;
         ret (Some (abspath w output_path))
       else ret None)
      (ret None).

(** [story_data.get("title", "My Story")[:40]]: the first forty code
    points of a string, the first forty items of an array; on any other
    value the slice raises [TypeError]. *)
Definition sliced_title (story_data : StoryData) : option CardText :=
  match title story_data with
  | None => Some (Text (Str.take 40 "My Story"))
  | Some (TitleStr s) => Some (Text (Str.take 40 s))
  | Some (TitleArray shown) => Some (Items shown)
  | Some (TitleOther _) => None
  end.

(** Steps 1 to 3 of [make_video_simple]: the clip list. The slice of the
    title and the two calls of [create_simple_image] are outside any
    [try]. *)
Definition collect_clips (story_data : StoryData) (num_scenes : Z) : M (list Clip) :=
  match sliced_title story_data with
  | None => raise
  | Some title =>
      let title_img := "title_card.png" in
      create_simple_image [(title, true); (Text "AI Generated Storyboard", false)]
        title_img;;
      all_clips ←
        try_except
          (title_clip ← image_clip w title_img; ret [set_duration 3%float title_clip])
          (ret []);
      all_clips ← for_each (seqZ 1 num_scenes) add_scene all_clips;
      let end_img := "end_card.png" in
      create_simple_image
        [(Text "The End", true); (Text "Created with AI Storyboard Generator", false)]
        end_img;;
      try_except
        (end_clip ← image_clip w end_img;
         ret (all_clips ++ [set_duration 3%float end_clip]))
        (ret all_clips)
  end.

Definition make_video_simple (story_data : StoryData) (num_scenes : Z)
  : M (option string) :=
  all_clips ← collect_clips story_data num_scenes;
  combine_and_export all_clips.

End Video.

(** ** Main generator *)

Inductive Status := processing | completed | partial | error.

(** The [results] dictionary. *)
Record Results := mkResults {
  res_status : Status;
  res_story : option StoryData;
  res_images : list (option string);
  res_audio : list (option string);
  res_video : option string;
  res_error : option string
}.

Section Main.
Context (w : World).
Local Open Scope M_scope.

(** Step 2: the image loop. *)
Definition generate_images (story_idea : string) (story_data : StoryData)
  : M (list (option string)) :=
  let actual_scenes := get_scenes story_data in
  let visual_bible := get_visual_bible story_data in
  let style_ref :=
    default "" (art_style visual_bible) +:+ ", " +:+
    default "" (color_palette visual_bible) in
  let base_seed := py_hash w story_idea `mod` 100000 in
  for_each (enumerate actual_scenes)
    (λ images '(i, scene),
       let scene_num := i + 1 in
       let prompt := default ("Scene " +:+ str_of_int scene_num) (visual_prompt scene) in
       let seed := base_seed + i in
       image_path ← generate_image w prompt scene_num style_ref (Some seed);
       ret (images ++ [Some image_path]))
    [].

(** Step 3: the narration loop. *)
Definition generate_narrations (voice : string) (story_data : StoryData)
  : M (list (option string)) :=
  let actual_scenes := get_scenes story_data in
  for_each (enumerate actual_scenes)
    (λ audio '(i, scene),
       let scene_num := i + 1 in
       let narration := default "" (narration scene) in
       if Str.truthy narration then
         audio_path ← generate_audio w narration scene_num voice;
         ret (audio ++ [audio_path])
       else ret (audio ++ [None]))
    [].

(** [if video_path:] *)
Definition path_truthy (p : option string) : bool :=
  match p with
  | Some p => Str.truthy p
  | None => false
  end.

(** [if not story_data:] on the value [generate_consistent_story]
    returned. *)
Definition usable_story (story_data : option StoryData) : option StoryData :=
  match story_data with
  | Some d => if story_truthy d then Some d else None
  | None => None
  end.

(** The [results] dictionary at the start of a run. *)
Definition initial_results : Results := mkResults processing None [] [] None None.

(** The printed lines, [time.sleep] and [files.summary()], which only
    prints, leave no trace in the model. *)
Definition generate_storyboard (story_idea : string) (num_scenes : Z) (voice : string)
  : M Results :=
  files_reset;;
  let results := initial_results in
  let story_data := generate_consistent_story w story_idea num_scenes in
  match usable_story story_data with
  | None =>
      ret (mkResults error (res_story results) (res_images results) (res_audio results)
             (res_video results) (Some "Failed to generate story"))
  | Some story_data =>
      let actual_scenes := get_scenes story_data in
      images ← generate_images story_idea story_data;
      audio ← generate_narrations voice story_data;
      video_path ← make_video_simple w story_data (Z.of_nat (length actual_scenes));
      if path_truthy video_path
      then ret (mkResults completed (Some story_data) images audio video_path
                  (res_error results))
      else ret (mkResults partial (Some story_data) images audio video_path
                  (Some "Images generated but video creation failed"))
  end.

End Main.

(** * Specifications *)

(** What the proofs use of [str.lower]: the empty string is kept, and a
    text is lowered part by part around a comma followed by a blank. Both
    hold of [str.lower], which maps code points one by one except for the
    capital sigma, whose form depends on the cased letters next to it,
    case-ignorable code points apart; a comma and a blank are neither. It
    does not hold around every separator: lowering is no morphism. *)
Definition lower_law (lower : string → string) : Prop :=
  lower "" = "" ∧
  ∀ a b, lower (a +:+ ", " +:+ b) = lower a +:+ ", " +:+ lower b.

(** What the enhancement pass guarantees of one scene. *)
Definition consistent_scene (lower : string → string) (visual_bible : VisualBible)
    (scene : Scene) : Prop :=
  ∃ prompt,
    visual_prompt scene = Some prompt ∧
    Str.contains (lower (get_main_character visual_bible)) (lower prompt) = true ∧
    Str.endswith
      (get_art_style visual_bible +:+ ", " +:+ get_color_palette visual_bible
         +:+ ", consistent character design") prompt = true ∧
    style_reference scene =
      Some (get_art_style visual_bible +:+ ", " +:+ get_color_palette visual_bible).

(** [wp m Q E s]: run from [s], [m] either returns a value and a state
    that satisfy [Q] or raises in a state that satisfies [E]. *)
Definition wp {A} (m : M A) (Q : A → State → Prop) (E : State → Prop) (s : State)
  : Prop :=
  match m s with
  | (s', Ok a) => Q a s'
  | (s', Raise) => E s'
  end.

(** What a returning call of [generate_image] or [create_placeholder] has
    done, seen from the state [s0] before the call and the requests [reqs]
    issued since: the scene's file is registered and returned. *)
Definition image_registered (w : World) (n : Z) (s0 : State) (reqs : list string)
    (p : string) (s' : State) : Prop :=
  p = abspath w (scene_png n) ∧
  files s' = StoryboardFiles.add_image (files s0) n p ∧
  requests s' = requests s0 ++ reqs.


(** The download path of [generate_image] goes through: the prompt can
    be quoted, the service answers 200, the body decodes, the labelled
    image is saved and the file is found afterwards. *)
Definition download_succeeds (w : World) (prompt : string) (n : Z) (seed : option Z)
    (s : State) : bool :=
  quotable prompt &&
  match requests_get w (requests s) (image_url prompt seed) with
  | Some (code, content) =>
      bool_decide (code = 200) && Image_open w content &&
      let '(d, returned) :=
        pil_save w (Labelled content ("Scene " +:+ str_of_int n))
          (abspath w (scene_png n)) (disk s) in
      returned && bool_decide (is_Some (d !! abspath w (scene_png n)))
  | None => false
  end.

(** The disk the download attempt leaves: what saving the labelled image
    left when the attempt got that far, the disk as it was otherwise. *)
Definition download_disk (w : World) (prompt : string) (n : Z) (seed : option Z)
    (s : State) : Disk :=
  match requests_get w (requests s) (image_url prompt seed) with
  | Some (code, content) =>
      if bool_decide (code = 200) && Image_open w content
      then (pil_save w (Labelled content ("Scene " +:+ str_of_int n))
              (abspath w (scene_png n)) (disk s)).1
      else disk s
  | None => disk s
  end.

(** The failed download reaches [create_placeholder] inside the [try]
    (the answer is not 200, or the saved file is not found) and not through
    an exception: a placeholder that raises there is caught by the
    [except] branch, which calls [create_placeholder] once more. *)
Definition placeholder_retried (w : World) (prompt : string) (n : Z) (seed : option Z)
    (s : State) : bool :=
  match requests_get w (requests s) (image_url prompt seed) with
  | Some (code, content) =>
      if bool_decide (code = 200)
      then Image_open w content &&
           let '(d, returned) :=
             pil_save w (Labelled content ("Scene " +:+ str_of_int n))
               (abspath w (scene_png n)) (disk s) in
           returned && negb (bool_decide (is_Some (d !! abspath w (scene_png n))))
      else true
  | None => false
  end.

(** The picture [create_placeholder] draws for a prompt. *)
Definition placeholder_of (prompt : string) (n : Z) : Picture :=
  PlaceholderPic ("Scene " +:+ str_of_int n)
    (if Str.truthy prompt then take 5 (wrap_text prompt) else []).

(** Saving the placeholder from the disk [d], a second time when the
    first attempt raised and [retry] is set: the disk that is left, and
    whether the last attempt returned. *)
Definition save_placeholder (w : World) (prompt : string) (n : Z) (retry : bool)
    (d : Disk) : Disk * bool :=
  let '(d1, returned) := pil_save w (placeholder_of prompt n) (abspath w (scene_png n)) d in
  if returned || negb retry then (d1, returned)
  else pil_save w (placeholder_of prompt n) (abspath w (scene_png n)) d1.

(** The placeholder of a call whose download failed. *)
Definition placeholder_outcome (w : World) (prompt : string) (n : Z) (seed : option Z)
    (s : State) : Disk * bool :=
  save_placeholder w prompt n (placeholder_retried w prompt n seed s)
    (download_disk w prompt n seed s).

(** The prompt and the seed the loop passes for the scene at index [i]. *)
Definition scene_prompt (i : Z) (scene : Scene) : string :=
  default ("Scene " +:+ str_of_int (i + 1)) (visual_prompt scene).

(** The URL the loop requests for an item of [enumerate(actual_scenes)]. *)
Definition scene_url (base_seed : Z) (item : Z * Scene) : string :=
  image_url (scene_prompt item.1 item.2) (Some (base_seed + item.1)).

(** The registry after the images of [items] were registered in order. *)
Definition register_images (w : World) (items : list (Z * Scene)) (f : StoryboardFiles)
  : StoryboardFiles :=
  foldl (λ f item, StoryboardFiles.add_image f (item.1 + 1)
                     (abspath w (scene_png (item.1 + 1)))) f items.

(** The image loop after the items [items]: one path per item, each
    registered, one request each. *)
Definition images_done (w : World) (base_seed : Z) (s : State) (items : list (Z * Scene))
    (images : list (option string)) (s' : State) : Prop :=
  images = map (λ item, Some (abspath w (scene_png (item.1 + 1)))) items ∧
  files s' = register_images w items (files s) ∧
  requests s' = requests s ++ map (scene_url base_seed) items.

(** What a call of [generate_audio] for scene [n] from state [s] leaves:
    a returned path is the narration file, found on disk and registered;
    when nothing is returned the registry is as before. *)
Definition audio_outcome (w : World) (n : Z) (s : State) (r : option string) (s' : State)
  : Prop :=
  requests s' = requests s ∧
  match r with
  | Some p =>
      p = abspath w (narration_mp3 n) ∧
      is_Some (disk s' !! p) ∧
      files s' = StoryboardFiles.add_audio (files s) n p
  | None => files s' = files s
  end.

(** The narration loop leaves the images alone and only adds narration
    files under the scene numbers it visited. *)
Definition narrations_done (w : World) (s : State) (items : list (Z * Scene))
    (audio : list (option string)) (s' : State) : Prop :=
  length audio = length items ∧
  requests s' = requests s ∧
  files_images (files s') = files_images (files s) ∧
  ∀ k p, files_audio (files s') !! k = Some p →
         files_audio (files s) !! k = Some p ∨
         (k ∈ (λ item : Z * Scene, item.1 + 1) <$> items) ∧ p = abspath w (narration_mp3 k).

(** A registry entry that can be used: present, not empty, and the file is
    on disk. *)
Definition usable_path (w : World) (s : State) (path : option string) : option string :=
  match path with
  | Some p =>
      if Str.truthy p && bool_decide (is_Some (disk s !! abspath w p))
      then Some p else None
  | None => None
  end.

(** The clip a scene contributes, written after the duration policy: no
    clip when the image is not usable or does not load; the narration's
    duration plus one second, with the narration attached unless attaching
    raises, when the narration is usable and loads; five seconds and no
    narration otherwise. *)
Definition expected_scene_clip (w : World) (s : State) (scene_num : Z) : option Clip :=
  match usable_path w s (StoryboardFiles.get_image (files s) scene_num) with
  | None => None
  | Some image_path =>
      if ImageClip_ok w (abspath w image_path) (disk s) then
        match usable_path w s (StoryboardFiles.get_audio (files s) scene_num) with
        | Some audio_path =>
            match AudioFileClip w (abspath w audio_path) (disk s) with
            | Some audio_duration =>
                Some (mkClip image_path (Some (audio_duration + 1)%float)
                        (if set_audio_ok w image_path audio_path
                         then Some audio_path else None))
            | None => Some (mkClip image_path (Some 5%float) None)
            end
        | None => Some (mkClip image_path (Some 5%float) None)
        end
      else None
  end.

(** The clips of scenes [1..num_scenes], in that order. *)
Definition expected_scene_clips (w : World) (s : State) (num_scenes : Z) : list Clip :=
  flat_map (λ k, option_list (expected_scene_clip w s k)) (seqZ 1 num_scenes).

(** What video assembly leaves untouched, and what it can return. *)
Definition assembly_outcome (w : World) (s : State) (video : option string) (s' : State)
  : Prop :=
  files s' = files s ∧ requests s' = requests s ∧
  (video = None ∨
   video = Some (abspath w output_path) ∧ is_Some (disk s' !! abspath w output_path)).

(** The clip of a card image, when it loads: three seconds, no audio. *)
Definition card_clip (w : World) (d : Disk) (img : string) : list Clip :=
  if ImageClip_ok w (abspath w img) d then [mkClip img (Some 3%float) None] else [].

(** The text of the title card, when the title can be sliced, and of the
    end card. *)
Definition title_lines (story_data : StoryData) : option (list (CardText * bool)) :=
  (λ title, [(title, true); (Text "AI Generated Storyboard", false)])
    <$> sliced_title story_data.

Definition end_lines : list (CardText * bool) :=
  [(Text "The End", true); (Text "Created with AI Storyboard Generator", false)].

(** The clip list [collect_clips] returns: the title clip when the card
    loads, the scene clips in order, the end clip when the card loads;
    [d1] and [d2] are the disk after the title and the end card were
    saved. *)
Definition clips_collected (w : World) (story_data : StoryData) (num_scenes : Z)
    (s : State) (clips : list Clip) (s' : State) : Prop :=
  ∃ lines d1 d2,
    title_lines story_data = Some lines ∧
    pil_save w (CardPic lines) (abspath w "title_card.png") (disk s) = (d1, true) ∧
    pil_save w (CardPic end_lines) (abspath w "end_card.png") d1 = (d2, true) ∧
    s' = mkState (files s) d2 (requests s) ∧
    clips = card_clip w d1 "title_card.png"
            ++ expected_scene_clips w (mkState (files s) d1 (requests s)) num_scenes
            ++ card_clip w d2 "end_card.png".

(** [c in s] for a character. *)
Fixpoint has_char (c : ascii) (s : string) : bool :=
  match s with
  | EmptyString => false
  | String a s' => bool_decide (a = c) || has_char c s'
  end.

(** The URL the image loop requests for the scene at index [item.1] when
    the base seed is 0: unseeded for the first scene, seeded with the index
    for the others. *)
Definition zero_base_url (item : Z * Scene) : string :=
  image_url (scene_prompt item.1 item.2)
    (if decide (item.1 = 0) then None else Some item.1).

(** * Example worlds *)

(** A fresh process: empty registry, empty working directory, no request
    issued. *)
Definition initial_state : State := mkState StoryboardFiles.init ∅ [].

(** The image of scene 1 is registered and on disk; there is no
    narration. *)
Definition one_image_state : State :=
  mkState (StoryboardFiles.add_image StoryboardFiles.init 1 "/work/scene_1.png")
          {["/work/scene_1.png" := 1000%N]} [].

(** A two-scene story as the text service may return it; the second scene
    has no narration and its prompt does not name the main character. *)
Definition robot_story : StoryData :=
  mkStoryData (Some (TitleStr "Robot Garden"))
    (Some (mkVisualBible (Some "watercolor") (Some "soft greens")
             (Some "A small Robot") None None []))
    (Some [mkScene (Some 1) (Some "The robot wakes up") (Some "a small robot wakes up")
             (Some "The robot wakes.") None None None;
           mkScene (Some 2) (Some "The garden") (Some "a garden of flowers")
             None None None None])
    [].

(** The text service returns one scene, numbered 7, whatever was asked. *)
Definition lone_scene_story : StoryData :=
  mkStoryData (Some (TitleStr "Lost")) None
    (Some [mkScene (Some 7) (Some "A cat in the rain") (Some "a cat") (Some "A cat.")
             None None None])
    [].

(** The text service answers with the empty JSON object. *)
Definition empty_story : StoryData := mkStoryData None None None [].

(** A JSON string literal. *)
Definition jstr (s : string) : string := dquote +:+ s +:+ dquote.

(** The JSON text of [robot_story]. *)
Definition robot_story_json : string :=
  "{" +:+ jstr "title" +:+ ": " +:+ jstr "Robot Garden" +:+ ", "
  +:+ jstr "visual_bible" +:+ ": {" +:+ jstr "art_style" +:+ ": " +:+ jstr "watercolor"
  +:+ ", " +:+ jstr "color_palette" +:+ ": " +:+ jstr "soft greens" +:+ ", "
  +:+ jstr "main_character" +:+ ": " +:+ jstr "A small Robot" +:+ "}, "
  +:+ jstr "scenes" +:+ ": [{" +:+ jstr "scene_number" +:+ ": 1, "
  +:+ jstr "description" +:+ ": " +:+ jstr "The robot wakes up" +:+ ", "
  +:+ jstr "visual_prompt" +:+ ": " +:+ jstr "a small robot wakes up" +:+ ", "
  +:+ jstr "narration" +:+ ": " +:+ jstr "The robot wakes." +:+ "}, {"
  +:+ jstr "scene_number" +:+ ": 2, " +:+ jstr "description" +:+ ": "
  +:+ jstr "The garden" +:+ ", " +:+ jstr "visual_prompt" +:+ ": "
  +:+ jstr "a garden of flowers" +:+ "}]}".

(** The JSON text of [lone_scene_story]. *)
Definition lone_scene_json : string :=
  "{" +:+ jstr "title" +:+ ": " +:+ jstr "Lost" +:+ ", " +:+ jstr "scenes" +:+ ": [{"
  +:+ jstr "scene_number" +:+ ": 7, " +:+ jstr "description" +:+ ": "
  +:+ jstr "A cat in the rain" +:+ ", " +:+ jstr "visual_prompt" +:+ ": "
  +:+ jstr "a cat" +:+ ", " +:+ jstr "narration" +:+ ": " +:+ jstr "A cat." +:+ "}]}".

(** A world in which every collaborator works: the text service answers
    with a fenced document that parses to [robot_story], images download
    and save, narrations are written, clips load, the export writes the
    video. The hash of every story idea is a multiple of 100000, and the
    texts are lowered as ASCII. *)
Definition studio : World := {|
  cwd := ["work"];
  py_hash := λ idea, 100000 * Z.of_nat (String.length idea);
  str_lower := Str.ascii_lower;
  chat_completion := λ _, Some ("Here it is: ```json" +:+ newline +:+ robot_story_json
                                +:+ newline +:+ "```");
  json_loads := λ text, if decide (text = robot_story_json) then Some robot_story else None;
  requests_get := λ _ _, Some (200, "PNG");
  Image_open := λ _, true;
  pil_save := λ _ path d, (<[path := 1000%N]> d, true);
  tts_save := λ _ path _ d, (<[path := 2000%N]> d, true);
  ImageClip_ok := λ path d, bool_decide (is_Some (d !! path));
  AudioFileClip := λ path d,
    match d !! path with Some _ => Some 2.5%float | None => None end;
  set_audio_ok := λ _ _, true;
  write_videofile := λ _ path d, (<[path := 5000%N]> d, true)
|}.

(** The image service is unreachable and the working directory cannot be
    written. *)
Definition offline_readonly : World := {|
  cwd := cwd studio;
  py_hash := py_hash studio;
  str_lower := str_lower studio;
  chat_completion := chat_completion studio;
  json_loads := json_loads studio;
  requests_get := λ _ _, None;
  Image_open := Image_open studio;
  pil_save := λ _ _ d, (d, false);
  tts_save := tts_save studio;
  ImageClip_ok := ImageClip_ok studio;
  AudioFileClip := AudioFileClip studio;
  set_audio_ok := set_audio_ok studio;
  write_videofile := write_videofile studio
|}.

(** The image service is unreachable; everything else works. *)
Definition offline_studio : World := {|
  cwd := cwd studio;
  py_hash := py_hash studio;
  str_lower := str_lower studio;
  chat_completion := chat_completion studio;
  json_loads := json_loads studio;
  requests_get := λ _ _, None;
  Image_open := Image_open studio;
  pil_save := pil_save studio;
  tts_save := tts_save studio;
  ImageClip_ok := ImageClip_ok studio;
  AudioFileClip := AudioFileClip studio;
  set_audio_ok := set_audio_ok studio;
  write_videofile := write_videofile studio
|}.

(** The text-to-speech service returns without writing any audio: the
    output file is created empty. *)
Definition silent_tts : World := {|
  cwd := cwd studio;
  py_hash := py_hash studio;
  str_lower := str_lower studio;
  chat_completion := chat_completion studio;
  json_loads := json_loads studio;
  requests_get := requests_get studio;
  Image_open := Image_open studio;
  pil_save := pil_save studio;
  tts_save := λ _ path _ d, (<[path := 0%N]> d, true);
  ImageClip_ok := ImageClip_ok studio;
  AudioFileClip := AudioFileClip studio;
  set_audio_ok := set_audio_ok studio;
  write_videofile := write_videofile studio
|}.

(** The image file of scene 1 is on disk but moviepy cannot load it. *)
Definition corrupt_image : World := {|
  cwd := cwd studio;
  py_hash := py_hash studio;
  str_lower := str_lower studio;
  chat_completion := chat_completion studio;
  json_loads := json_loads studio;
  requests_get := requests_get studio;
  Image_open := Image_open studio;
  pil_save := pil_save studio;
  tts_save := tts_save studio;
  ImageClip_ok := λ path d,
    bool_decide (is_Some (d !! path)) && bool_decide (path ≠ "/work/scene_1.png");
  AudioFileClip := AudioFileClip studio;
  set_audio_ok := set_audio_ok studio;
  write_videofile := write_videofile studio
|}.

(** The encoder returns normally but leaves an empty video file. *)
Definition empty_export : World := {|
  cwd := cwd studio;
  py_hash := py_hash studio;
  str_lower := str_lower studio;
  chat_completion := chat_completion studio;
  json_loads := json_loads studio;
  requests_get := requests_get studio;
  Image_open := Image_open studio;
  pil_save := pil_save studio;
  tts_save := tts_save studio;
  ImageClip_ok := ImageClip_ok studio;
  AudioFileClip := AudioFileClip studio;
  set_audio_ok := set_audio_ok studio;
  write_videofile := λ _ path d, (<[path := 0%N]> d, true)
|}.

(** A studio whose text service sends [lone_scene_story]. *)
Definition sparse_numbering : World := {|
  cwd := cwd studio;
  py_hash := py_hash studio;
  str_lower := str_lower studio;
  chat_completion := λ _, Some lone_scene_json;
  json_loads := λ text,
    if decide (text = lone_scene_json) then Some lone_scene_story else None;
  requests_get := requests_get studio;
  Image_open := Image_open studio;
  pil_save := pil_save studio;
  tts_save := tts_save studio;
  ImageClip_ok := ImageClip_ok studio;
  AudioFileClip := AudioFileClip studio;
  set_audio_ok := set_audio_ok studio;
  write_videofile := write_videofile studio
|}.

(** A studio whose text service sends [{}]. *)
Definition empty_reply : World := {|
  cwd := cwd studio;
  py_hash := py_hash studio;
  str_lower := str_lower studio;
  chat_completion := λ _, Some "{}";
  json_loads := λ text, if decide (text = "{}") then Some empty_story else None;
  requests_get := requests_get studio;
  Image_open := Image_open studio;
  pil_save := pil_save studio;
  tts_save := tts_save studio;
  ImageClip_ok := ImageClip_ok studio;
  AudioFileClip := AudioFileClip studio;
  set_audio_ok := set_audio_ok studio;
  write_videofile := write_videofile studio
|}.


(** A document whose title is null and that has no scene, and its JSON
    text. *)
Definition untitled_story : StoryData :=
  mkStoryData (Some (TitleOther "None")) None (Some []) [].

Definition untitled_json : string :=
  "{" +:+ jstr "title" +:+ ": null, " +:+ jstr "scenes" +:+ ": []}".

(** A studio whose text service sends [untitled_story]. *)
Definition null_title : World := {|
  cwd := cwd studio;
  py_hash := py_hash studio;
  str_lower := str_lower studio;
  chat_completion := λ _, Some untitled_json;
  json_loads := λ text,
    if decide (text = untitled_json) then Some untitled_story else None;
  requests_get := requests_get studio;
  Image_open := Image_open studio;
  pil_save := pil_save studio;
  tts_save := tts_save studio;
  ImageClip_ok := ImageClip_ok studio;
  AudioFileClip := AudioFileClip studio;
  set_audio_ok := set_audio_ok studio;
  write_videofile := write_videofile studio
|}.

(** A prompt that starts with the lone surrogate U+D800. *)
Definition surrogate_prompt : string :=
  String (ascii_of_nat 237) (String (ascii_of_nat 160) (String (ascii_of_nat 128) " cat")).

(** The title and the end clip. *)
Definition title_card_clip : Clip := mkClip "title_card.png" (Some 3%float) None.
Definition end_card_clip : Clip := mkClip "end_card.png" (Some 3%float) None.

(** * Further specifications *)

(** The text before the first occurrence of [sep] (all of it when there is
    none), the text after that occurrence, and [s[n:]]. *)
Fixpoint str_before (sep s : string) : string :=
  match s with
  | EmptyString => EmptyString
  | String c s' => if Str.startswith sep s then EmptyString else String c (str_before sep s')
  end.

Fixpoint str_drop (n : nat) (s : string) : string :=
  match n, s with
  | S n', String _ s' => str_drop n' s'
  | _, _ => s
  end.

Fixpoint str_after (sep s : string) : option string :=
  match s with
  | EmptyString => None
  | String _ s' =>
      if Str.startswith sep s then Some (str_drop (String.length sep) s)
      else str_after sep s'
  end.

(** Every character of [s] satisfies [P]. *)
Fixpoint all_chars (P : ascii → bool) (s : string) : bool :=
  match s with
  | EmptyString => true
  | String c s' => P c && all_chars P s'
  end.

(** The characters [urllib.parse.quote] lets through: the unreserved ones
    and the percent sign of an escape. *)
Definition url_safe_char (c : ascii) : bool :=
  Str.unreserved c || bool_decide (c = "%"%char).

(** The query string of the image request. *)
Definition image_query (seed : option Z) : string :=
  if seed_truthy seed
  then "?width=1024&height=576&seed=" +:+ str_of_int (default 0 seed) +:+ "&nologo=true"
  else "?width=1024&height=576&nologo=true".



(** A scene without narration: the key is absent or the text is empty. *)
Definition silent_scene (scene : Scene) : Prop :=
  Str.truthy (default "" (narration scene)) = false.

(** The entry of the narration list for an item of the scene loop: [None]
    for a silent scene, and never another path than the narration file of
    the scene's position. *)
Definition narration_entry (w : World) (item : Z * Scene) (entry : option string) : Prop :=
  (silent_scene item.2 → entry = None) ∧
  (∀ p, entry = Some p → p = abspath w (narration_mp3 (item.1 + 1))).

(** Both cards are made: the title can be sliced and neither
    [create_simple_image] call of [make_video_simple] raises. *)
Definition cards_made (w : World) (story_data : StoryData) (s : State) : bool :=
  match title_lines story_data with
  | Some lines =>
      let '(d1, saved1) :=
        pil_save w (CardPic lines) (abspath w "title_card.png") (disk s) in
      saved1 && (pil_save w (CardPic end_lines) (abspath w "end_card.png") d1).2
  | None => false
  end.

(** A scene clip taken from the registry: its image is the registered
    path, which is on disk, it has a duration, and its narration, if any,
    is the registered narration path. *)
Definition clip_from_registry (w : World) (s : State) (scene_num : Z) (c : Clip) : Prop :=
  StoryboardFiles.get_image (files s) scene_num = Some (clip_source c) ∧
  is_Some (disk s !! abspath w (clip_source c)) ∧
  is_Some (clip_duration c) ∧
  (∀ a, clip_audio c = Some a →
        StoryboardFiles.get_audio (files s) scene_num = Some a ∧
        is_Some (disk s !! abspath w a)).



(** ** Gradio request handler *)

(** The four values [process_request] hands to the interface: the markdown
    text, the gallery, the video and the status line.  An opened picture of
    the gallery is identified by the path it was opened from. *)
Record Reply := mkReply {
  reply_text : string;
  reply_images : list string;
  reply_video : option string;
  reply_status : string
}.

(** The [voice_map] dictionary. *)
Definition voice_map : list (string * string) :=
  [ ("Female (US) - Aria", "en-US-AriaNeural");
    ("Male (US) - Guy", "en-US-GuyNeural");
    ("Female (UK) - Sonia", "en-GB-SoniaNeural");
    ("Female (Australian) - Natasha", "en-AU-NatashaNeural");
    ("Male (UK) - Ryan", "en-GB-RyanNeural") ].

(** [d.get(key, default)] on a dictionary of strings. *)
Fixpoint dict_get (d : list (string * string)) (key default : string) : string :=
  match d with
  | [] => default
  | (k, v) :: d => if String.eqb k key then v else dict_get d key default
  end.

(** [not story_idea or len(story_idea.strip()) < 10] *)
Definition too_short (story_idea : string) : bool :=
  negb (Str.truthy story_idea) ||
  (Z.of_nat (Str.len (Str.strip story_idea)) <? 10).

(** [if vb:]: a [dict] is falsy exactly when it has no key. *)
Definition bible_truthy (vb : VisualBible) : bool :=
  bool_decide (is_Some (art_style vb)) || bool_decide (is_Some (color_palette vb)) ||
  bool_decide (is_Some (main_character vb)) ||
  bool_decide (is_Some (secondary_characters vb)) ||
  bool_decide (is_Some (world_setting vb)) ||
  bool_decide (bible_extra_keys vb ≠ []).

(** The lines added to [text] for a truthy visual bible. *)
Definition style_block (vb : VisualBible) : string :=
  "## 🎨 Visual Style" +:+ newline +:+
  "**Art Style:** " +:+ default "N/A" (art_style vb) +:+ newline +:+ newline +:+
  "**Colors:** " +:+ default "N/A" (color_palette vb) +:+ newline +:+ newline +:+
  "**Character:** " +:+ default "N/A" (main_character vb) +:+ newline +:+ newline +:+
  "---" +:+ newline +:+ newline.

(** The lines added to [text] for one scene. *)
Definition scene_block (scene : Scene) : string :=
  "### Scene " +:+ from_option str_of_int "?" (scene_number scene) +:+ newline +:+
  "**Description:** " +:+ default "" (description scene) +:+ newline +:+ newline +:+
  "**Narration:** _" +:+ default "" (narration scene) +:+ "_" +:+ newline +:+ newline +:+
  "---" +:+ newline +:+ newline.

(** The markdown text of a story, built up as the source does. *)
Definition format_story (story_data : StoryData) : string :=
  let text :=
    "# 📖 " +:+ from_option title_str "My Story" (title story_data)
    +:+ newline +:+ newline in
  let vb := get_visual_bible story_data in
  let text := if bible_truthy vb then text +:+ style_block vb else text in
  let text := text +:+ "## 🎬 Scenes" +:+ newline +:+ newline in
  foldl (λ text scene, text +:+ scene_block scene) text (get_scenes story_data).

Section Request.
Context (w : World).
(** [Image.open(img_path)]: whether the file at an absolute path opens as a
    picture. *)
Variable Image_open_file : string → Disk → bool.
Local Open Scope M_scope.

Definition image_open_file (path : string) : M unit :=
  λ s, if Image_open_file (abspath w path) (disk s) then (s, Ok tt) else (s, Raise).

(** The gallery loop. *)
Definition load_images (paths : list (option string)) : M (list string) :=
  for_each paths
    (λ images img_path,
       match img_path with
       | Some p =>
           if Str.truthy p then
             present ← os_path_exists w p;
             if present
             then try_except (image_open_file p;; ret (images ++ [p])) (ret images)
             else ret images
           else ret images
       | None => ret images
       end)
    [].

(** [num_scenes] is the slider value, already an integer. *)
Definition process_request (story_idea : string) (num_scenes : Z) (voice_choice : string)
  : M Reply :=
  if too_short story_idea
  then ret (mkReply "❌ Please enter a longer story idea" [] None "Error: Too short")
  else
    let voice := dict_get voice_map voice_choice "en-US-AriaNeural" in
    results ← generate_storyboard w story_idea num_scenes voice;
    match res_status results with
    | completed | partial =>
        match res_story results with
        | Some story_data =>
            let text := format_story story_data in
            images ← load_images (res_images results);
            let status :=
              match res_status results with
              | completed => "✅ Complete!"
              | _ => "⚠️ Partial (check video)"
              end in
            ret (mkReply text images (res_video results) status)
        | None => raise
        end
    | _ =>
        (* the key [error] is always present, so the default of [get] is
           not used; a [None] there is formatted as such *)
        ret (mkReply "❌ Generation failed" [] None
               ("Error: " +:+ default "None" (res_error results)))
    end.

End Request.

(** The scenes the gallery shows at the end of a run: those whose image
    file is on disk and opens. *)
Definition shown (w : World) (Image_open_file : string → Disk → bool) (d : Disk)
    (k : Z) : bool :=
  bool_decide (is_Some (d !! abspath w (scene_png k))) &&
  Image_open_file (abspath w (scene_png k)) d.

(** * Properties *)

(** ** Text lemmas *)

Module StrFacts.
Import Str.

Lemma app_cons c (a b : string) : String c a +:+ b = String c (a +:+ b).
Proof. reflexivity. Qed.

Lemma app_empty_l (a : string) : "" +:+ a = a.
Proof. reflexivity. Qed.

Lemma app_assoc (a b c : string) : (a +:+ b) +:+ c = a +:+ b +:+ c.
Proof. induction a as [|x a IH]; [done|]. by rewrite !app_cons, IH. Qed.

Lemma ascii_lower_app (a b : string) :
  ascii_lower (a +:+ b) = ascii_lower a +:+ ascii_lower b.
Proof. induction a as [|x a IH]; [done|]. rewrite app_cons. simpl. by rewrite IH. Qed.

Lemma startswith_refl_app (p x : string) : startswith p (p +:+ x) = true.
Proof.
  induction p as [|c p IH]; [by destruct x|].
  rewrite app_cons. simpl. by rewrite decide_True.
Qed.

Lemma startswith_app_l (p a b : string) :
  startswith p a = true → startswith p (a +:+ b) = true.
Proof.
  revert a. induction p as [|c p IH]; intros a H; [by destruct (a +:+ b)|].
  destruct a as [|x a]; [done|]. rewrite app_cons. simpl in *.
  destruct (decide (c = x)); [auto|done].
Qed.

Lemma contains_empty (s : string) : contains "" s = true.
Proof. by destruct s. Qed.

Lemma contains_app_l (sub a b : string) :
  contains sub a = true → contains sub (a +:+ b) = true.
Proof.
  induction a as [|x a IH]; intros H.
  - simpl in H. rewrite orb_false_r in H. destruct sub; [|done].
    apply contains_empty.
  - rewrite app_cons. simpl in H. apply orb_true_iff in H as [H|H].
    + apply (startswith_app_l _ _ b) in H. rewrite app_cons in H.
      cbn [contains]. by rewrite H.
    + cbn [contains]. rewrite (IH H). apply orb_true_r.
Qed.

Lemma contains_app_r (sub a b : string) :
  contains sub b = true → contains sub (a +:+ b) = true.
Proof.
  intros H. induction a as [|x a IH]; [done|].
  rewrite app_cons. cbn [contains]. rewrite IH. apply orb_true_r.
Qed.

Lemma contains_refl_app (p x : string) : contains p (p +:+ x) = true.
Proof.
  destruct (p +:+ x) eqn:E; cbn [contains]; rewrite <- E, startswith_refl_app; done.
Qed.

Lemma rev_app_app (s acc t : string) :
  String.rev_app s acc +:+ t = String.rev_app s (acc +:+ t).
Proof. revert acc. induction s as [|c s IH]; intros acc; [done|]. simpl. by rewrite IH. Qed.

Lemma rev_app_append (a b acc : string) :
  String.rev_app (a +:+ b) acc = String.rev_app b (String.rev_app a acc).
Proof. revert acc. induction a as [|c a IH]; intros acc; [done|]. rewrite app_cons. simpl. by rewrite IH. Qed.

Lemma rev_append (a b : string) : String.rev (a +:+ b) = String.rev b +:+ String.rev a.
Proof.
  unfold String.rev. rewrite rev_app_append.
  by rewrite rev_app_app.
Qed.

Lemma endswith_app (pre suf : string) : endswith suf (pre +:+ suf) = true.
Proof. unfold endswith. rewrite rev_append. apply startswith_refl_app. Qed.

End StrFacts.

(** ** The text functions on examples *)

Example split_fence : Str.split "```" "a```b```c" = ["a"; "b"; "c"].
Proof. reflexivity. Qed.

Example split_trailing : Str.split "ab" "xxabyyabab" = ["xx"; "yy"; ""; ""].
Proof. reflexivity. Qed.

Example strip_spaces : Str.strip "  hello world  " = "hello world".
Proof. reflexivity. Qed.

Example quote_prompt : Str.quote "a b,c/d-e=f" = "a%20b%2Cc/d-e%3Df".
Proof. reflexivity. Qed.

Example lower_mixed : Str.ascii_lower "A small Robot, 4K" = "a small robot, 4k".
Proof. reflexivity. Qed.

Example len_code_points : Str.len "ééééé" = 5%nat ∧ String.length "ééééé" = 10%nat.
Proof. split; reflexivity. Qed.

Example take_code_points : Str.take 3 "ééééé" = "ééé" ∧ Str.take 40 "My Story" = "My Story".
Proof. split; reflexivity. Qed.

(** U+00A0 and U+2003 are white space, as U+0020 is. *)
Example strip_wide_spaces :
  Str.strip (String (ascii_of_nat 194) (String (ascii_of_nat 160) " héllo ")
             +:+ String (ascii_of_nat 226) (String (ascii_of_nat 128)
                   (String (ascii_of_nat 131) "")))
  = "héllo".
Proof. reflexivity. Qed.

Example words_wide_space :
  Str.words ("deux" +:+ String (ascii_of_nat 194) (String (ascii_of_nat 160) "mots  là"))
  = ["deux"; "mots"; "là"].
Proof. reflexivity. Qed.

(** U+D800, a lone surrogate, cannot be encoded. *)
Example lone_surrogate :
  Str.encodable (String (ascii_of_nat 237) (String (ascii_of_nat 160)
                   (String (ascii_of_nat 128) " cat"))) = false ∧
  Str.encodable "a cat, très joli" = true.
Proof. split; reflexivity. Qed.

Example clean_json_fenced :
  clean_json ("Here it is: ```json" +:+ newline +:+ "{}" +:+ newline +:+ "``` bye")
  = Some (newline +:+ "{}" +:+ newline).
Proof. reflexivity. Qed.

Example clean_json_plain : clean_json "{}" = Some "{}".
Proof. reflexivity. Qed.

Example wrap_text_lines :
  wrap_text "The quick brown fox jumps over the lazy dog and then keeps running through the forest until night falls over the hills"
  = ["The quick brown fox jumps over the lazy dog and";
     "then keeps running through the forest until night";
     "falls over the hills"].
Proof. reflexivity. Qed.

Example image_url_seed_7 :
  image_url "a cat" (Some 7) =
  "https://image.pollinations.ai/prompt/a%20cat%2C%20consistent%20character%20design%2C%20same%20art%20style%2C%20high%20quality%2C%20detailed%2C%204k?width=1024&height=576&seed=7&nologo=true".
Proof. reflexivity. Qed.

(** ** The registry *)

(** C9. After [reset], [get_image] and [get_audio] return [None] for every
    scene number, also for one that [add_image] or [add_audio] had just
    populated, and resetting twice is the same as resetting once. *)
Theorem C9_reset_clears_registry (self : StoryboardFiles) (n : Z) (path : string) :
  StoryboardFiles.get_image (StoryboardFiles.reset self) n = None ∧
  StoryboardFiles.get_audio (StoryboardFiles.reset self) n = None ∧
  StoryboardFiles.get_image
    (StoryboardFiles.reset (StoryboardFiles.add_image self n path)) n = None ∧
  StoryboardFiles.get_audio
    (StoryboardFiles.reset (StoryboardFiles.add_audio self n path)) n = None ∧
  StoryboardFiles.reset (StoryboardFiles.reset self) = StoryboardFiles.reset self.
Proof.
  unfold StoryboardFiles.get_image, StoryboardFiles.get_audio, StoryboardFiles.reset.
  simpl. by rewrite !lookup_empty.
Qed.

(** The registry contract of [add_image] and [get_image]: insert or
    overwrite, other keys untouched. *)
Lemma get_image_add_image (self : StoryboardFiles) (n m : Z) (path : string) :
  StoryboardFiles.get_image (StoryboardFiles.add_image self n path) m =
  if decide (n = m) then Some path else StoryboardFiles.get_image self m.
Proof.
  unfold StoryboardFiles.get_image, StoryboardFiles.add_image. simpl.
  apply lookup_insert.
Qed.

Lemma get_audio_add_audio (self : StoryboardFiles) (n m : Z) (path : string) :
  StoryboardFiles.get_audio (StoryboardFiles.add_audio self n path) m =
  if decide (n = m) then Some path else StoryboardFiles.get_audio self m.
Proof.
  unfold StoryboardFiles.get_audio, StoryboardFiles.add_audio. simpl.
  apply lookup_insert.
Qed.

(** ** Consistency enhancement *)

Lemma ascii_lower_law : lower_law Str.ascii_lower.
Proof.
  split; [done|]. intros a b. by rewrite !StrFacts.ascii_lower_app.
Qed.

Lemma enhance_scene_consistent (lower : string → string) (visual_bible : VisualBible)
    (scene : Scene) :
  lower_law lower →
  consistent_scene lower visual_bible (enhance_scene lower visual_bible scene).
Proof.
  intros [Hempty Hparts].
  unfold consistent_scene, enhance_scene. eexists. split; [reflexivity|].
  split; [|split; [|reflexivity]].
  - set (mc := get_main_character visual_bible).
    set (orig := default "" (visual_prompt scene)).
    destruct (Str.truthy mc) eqn:Ht; simpl.
    + destruct (Str.contains (lower mc) (lower orig)) eqn:Hc; simpl.
      * rewrite Hparts. by apply StrFacts.contains_app_l.
      * rewrite !StrFacts.app_assoc, Hparts.
        apply StrFacts.contains_refl_app.
    + destruct mc; [|done]. rewrite Hempty. apply StrFacts.contains_empty.
  - unfold consistency_prefix.
    match goal with |- Str.endswith ?suf (?e +:+ ", " +:+ (?a +:+ ?b) +:+ ?c) = true =>
      replace (e +:+ ", " +:+ (a +:+ b) +:+ c) with ((e +:+ ", ") +:+ suf)
    end.
    + apply StrFacts.endswith_app.
    + by rewrite !StrFacts.app_assoc.
Qed.

(** The new prompt holds the old one. *)
Lemma enhance_scene_keeps_prompt (lower : string → string) (visual_bible : VisualBible)
    (scene : Scene) :
  ∃ prompt,
    visual_prompt (enhance_scene lower visual_bible scene) = Some prompt ∧
    Str.contains (default "" (visual_prompt scene)) prompt = true.
Proof.
  unfold enhance_scene. cbn [visual_prompt]. eexists. split; [reflexivity|].
  destruct (_ && _).
  - rewrite !StrFacts.app_assoc.
    do 2 apply StrFacts.contains_app_r. apply StrFacts.contains_refl_app.
  - apply StrFacts.contains_refl_app.
Qed.

Lemma enhance_visual_prompts_bible (lower : string → string) (story_data : StoryData) :
  get_visual_bible (enhance_visual_prompts lower story_data) = get_visual_bible story_data.
Proof. reflexivity. Qed.

Lemma enhance_visual_prompts_scenes (lower : string → string) (story_data : StoryData) :
  get_scenes (enhance_visual_prompts lower story_data) =
  map (enhance_scene lower (get_visual_bible story_data)) (get_scenes story_data).
Proof. unfold get_scenes, enhance_visual_prompts. simpl. by destruct (scenes story_data). Qed.

(** The steps a returned document went through. *)
Lemma generate_consistent_story_steps (w : World) (user_prompt : string)
    (num_scenes : Z) (doc : StoryData) :
  generate_consistent_story w user_prompt num_scenes = Some doc →
  ∃ reply cleaned parsed,
    chat_completion w (user_message user_prompt num_scenes) = Some reply ∧
    clean_json reply = Some cleaned ∧
    json_loads w (Str.strip cleaned) = Some parsed ∧
    doc = enhance_visual_prompts (str_lower w) parsed.
Proof.
  unfold generate_consistent_story. intros H.
  destruct (chat_completion w _) as [t|]; simpl in H; [|done].
  destruct (clean_json t) as [t'|] eqn:Hc; simpl in H; [|done].
  destruct (json_loads w _) as [d|] eqn:Hj; simpl in H; [|done].
  exists t, t', d. split_and!; congruence.
Qed.

Lemma generate_consistent_story_enhanced (w : World) (user_prompt : string)
    (num_scenes : Z) (doc : StoryData) :
  generate_consistent_story w user_prompt num_scenes = Some doc →
  ∃ parsed, doc = enhance_visual_prompts (str_lower w) parsed.
Proof.
  intros (_ & _ & parsed & _ & _ & _ & ->)%generate_consistent_story_steps. eauto.
Qed.

(** C1. Let [str.lower] lower a text part by part around a comma followed
    by a blank, as it does. Then every document
    [generate_consistent_story] returns is the parsed reply with the same
    visual bible and the same scenes, one for one and in order, each with a
    [visual_prompt] that still holds the parsed prompt, contains the visual
    bible's main character (both compared after [lower]), and ends with
    "art_style, color_palette, consistent character design", and with the
    [style_reference] "art_style, color_palette". The bible's entries are
    read as the code reads them, with its defaults for absent keys. *)
Theorem C1_scene_prompts_consistent (w : World) (user_prompt : string)
    (num_scenes : Z) (doc : StoryData) :
  lower_law (str_lower w) →
  generate_consistent_story w user_prompt num_scenes = Some doc →
  ∃ reply cleaned parsed,
    chat_completion w (user_message user_prompt num_scenes) = Some reply ∧
    clean_json reply = Some cleaned ∧
    json_loads w (Str.strip cleaned) = Some parsed ∧
    get_visual_bible doc = get_visual_bible parsed ∧
    Forall2 (λ before after,
               consistent_scene (str_lower w) (get_visual_bible doc) after ∧
               ∃ prompt, visual_prompt after = Some prompt ∧
                         Str.contains (default "" (visual_prompt before)) prompt = true)
            (get_scenes parsed) (get_scenes doc).
Proof.
  intros Hlaw (reply & cleaned & parsed & Hr & Hc & Hj & ->)%generate_consistent_story_steps.
  exists reply, cleaned, parsed. split_and!; [done..|].
  rewrite enhance_visual_prompts_bible, enhance_visual_prompts_scenes.
  induction (get_scenes parsed) as [|sc l IH]; simpl; constructor; [|done].
  split; [by apply enhance_scene_consistent|apply enhance_scene_keeps_prompt].
Qed.

(** C1, at the robot story in the studio: the second prompt does not name
    the robot and gets it in front. *)
Lemma C1_witness :
  lower_law (str_lower studio) ∧
  generate_consistent_story studio "A robot discovers a magical garden" 2 =
    Some (enhance_visual_prompts Str.ascii_lower robot_story) ∧
  length (get_scenes (enhance_visual_prompts Str.ascii_lower robot_story)) = 2%nat ∧
  Forall (consistent_scene Str.ascii_lower (get_visual_bible robot_story))
    (get_scenes (enhance_visual_prompts Str.ascii_lower robot_story)).
Proof.
  assert (generate_consistent_story studio "A robot discovers a magical garden" 2 =
          Some (enhance_visual_prompts Str.ascii_lower robot_story)) as H
    by (vm_compute; reflexivity).
  split; [exact ascii_lower_law|]. split; [exact H|]. split; [reflexivity|].
  destruct (C1_scene_prompts_consistent studio "A robot discovers a magical garden" 2
              (enhance_visual_prompts Str.ascii_lower robot_story) ascii_lower_law H)
    as (reply & cleaned & parsed & _ & _ & _ & _ & HF).
  clear H. induction HF as [|before after l l' [Hc _] _ IH]; constructor; [exact Hc|exact IH].
Defined.

(** ** Reasoning about effectful code *)

Section WpRules.
Context {A B : Type}.
Implicit Types (Q : A → State → Prop) (E : State → Prop) (s : State).

Lemma wp_ret (a : A) Q E s : Q a s → wp (ret a) Q E s.
Proof. done. Qed.

Lemma wp_raise Q E s : E s → wp (@raise A) Q E s.
Proof. done. Qed.

Lemma wp_bind (m : M B) (k : B → M A) Q E s :
  wp m (λ b, wp (k b) Q E) E s → wp (bind m k) Q E s.
Proof. unfold wp, bind. by destruct (m s) as [s' [b|]]. Qed.

Lemma wp_try_except (body handler : M A) Q E s :
  wp body Q (wp handler Q E) s → wp (try_except body handler) Q E s.
Proof. unfold wp, try_except. by destruct (body s) as [s' [a|]]. Qed.

Lemma wp_mono (m : M A) Q Q' E E' s :
  wp m Q E s → (∀ a s', Q a s' → Q' a s') → (∀ s', E s' → E' s') → wp m Q' E' s.
Proof. unfold wp. destruct (m s) as [s' [a|]]; eauto. Qed.

Lemma wp_returns (m : M A) Q E s s' (a : A) :
  wp m Q E s → m s = (s', Ok a) → Q a s'.
Proof. unfold wp. intros H Hrun. by rewrite Hrun in H. Qed.

Lemma wp_raises (m : M A) Q E s s' :
  wp m Q E s → m s = (s', Raise) → E s'.
Proof. unfold wp. intros H Hrun. by rewrite Hrun in H. Qed.

Lemma wp_total (m : M A) Q s :
  wp m Q (λ _, False) s → ∃ s' a, m s = (s', Ok a) ∧ Q a s'.
Proof. unfold wp. destruct (m s) as [s' [a|]]; [eauto|done]. Qed.

(** The loop rule: [I seen acc s] holds after the elements [seen]. *)
Lemma wp_for_each_from (I : list B → A → State → Prop) (body : A → B → M A)
    (l seen : list B) (acc : A) E s :
  I seen acc s →
  (∀ seen x acc s, I seen acc s → wp (body acc x) (I (seen ++ [x])) E s) →
  wp (for_each l body acc) (I (seen ++ l)) E s.
Proof.
  intros HI Hstep. revert seen acc s HI.
  induction l as [|x l IH]; intros seen acc s HI; simpl.
  - apply wp_ret. by rewrite app_nil_r.
  - unfold wp, bind. specialize (Hstep seen x acc s HI). unfold wp in Hstep.
    destruct (body acc x s) as [s1 [acc1|]]; [|done].
    specialize (IH (seen ++ [x]) acc1 s1 Hstep). unfold wp in IH.
    by rewrite <- app_assoc in IH.
Qed.

Lemma wp_for_each (I : list B → A → State → Prop) (body : A → B → M A)
    (l : list B) (acc : A) E s :
  I [] acc s →
  (∀ seen x acc s, I seen acc s → wp (body acc x) (I (seen ++ [x])) E s) →
  wp (for_each l body acc) (I l) E s.
Proof. intros. by apply (wp_for_each_from I body l []). Qed.


End WpRules.

(** The rules of the primitive effects. *)
Section WpPrimitives.
Context (w : World) {A : Type}.
Implicit Types (E : State → Prop) (s : State).

Lemma wp_files_reset (Q : unit → State → Prop) E s :
  Q tt (mkState (StoryboardFiles.reset (files s)) (disk s) (requests s)) →
  wp files_reset Q E s.
Proof. done. Qed.

Lemma wp_files_add_image n path (Q : unit → State → Prop) E s :
  Q tt (mkState (StoryboardFiles.add_image (files s) n path) (disk s) (requests s)) →
  wp (files_add_image n path) Q E s.
Proof. done. Qed.

Lemma wp_files_add_audio n path (Q : unit → State → Prop) E s :
  Q tt (mkState (StoryboardFiles.add_audio (files s) n path) (disk s) (requests s)) →
  wp (files_add_audio n path) Q E s.
Proof. done. Qed.

Lemma wp_files_get_image n (Q : option string → State → Prop) E s :
  Q (StoryboardFiles.get_image (files s) n) s → wp (files_get_image n) Q E s.
Proof. done. Qed.

Lemma wp_files_get_audio n (Q : option string → State → Prop) E s :
  Q (StoryboardFiles.get_audio (files s) n) s → wp (files_get_audio n) Q E s.
Proof. done. Qed.

Lemma wp_os_path_exists path (Q : bool → State → Prop) E s :
  Q (bool_decide (is_Some (disk s !! abspath w path))) s →
  wp (os_path_exists w path) Q E s.
Proof. done. Qed.

Lemma wp_os_path_getsize path (Q : N → State → Prop) E s :
  (∀ size, disk s !! abspath w path = Some size → Q size s) →
  (disk s !! abspath w path = None → E s) →
  wp (os_path_getsize w path) Q E s.
Proof.
  unfold wp, os_path_getsize. destruct (disk s !! abspath w path); eauto.
Qed.

Lemma wp_http_get url (Q : Z * string → State → Prop) E s :
  (∀ r, requests_get w (requests s) url = Some r →
        Q r (mkState (files s) (disk s) (requests s ++ [url]))) →
  (requests_get w (requests s) url = None →
   E (mkState (files s) (disk s) (requests s ++ [url]))) →
  wp (http_get w url) Q E s.
Proof.
  unfold wp, http_get. destruct (requests_get w (requests s) url); eauto.
Qed.

Lemma wp_image_open content (Q : unit → State → Prop) E s :
  (Image_open w content = true → Q tt s) →
  (Image_open w content = false → E s) →
  wp (image_open w content) Q E s.
Proof. unfold wp, image_open. destruct (Image_open w content); simpl; eauto. Qed.

Lemma wp_img_save img path (Q : unit → State → Prop) E s :
  (∀ d, pil_save w img (abspath w path) (disk s) = (d, true) →
        Q tt (mkState (files s) d (requests s))) →
  (∀ d, pil_save w img (abspath w path) (disk s) = (d, false) →
        E (mkState (files s) d (requests s))) →
  wp (img_save w img path) Q E s.
Proof.
  unfold wp, img_save. destruct (pil_save w img _ _) as [d []]; eauto.
Qed.

Lemma wp_tts text path voice (Q : unit → State → Prop) E s :
  (∀ d, tts_save w text (abspath w path) voice (disk s) = (d, true) →
        Q tt (mkState (files s) d (requests s))) →
  (∀ d, tts_save w text (abspath w path) voice (disk s) = (d, false) →
        E (mkState (files s) d (requests s))) →
  wp (tts w text path voice) Q E s.
Proof.
  unfold wp, tts. destruct (tts_save w text _ _ _) as [d []]; eauto.
Qed.

Lemma wp_image_clip path (Q : Clip → State → Prop) E s :
  (ImageClip_ok w (abspath w path) (disk s) = true → Q (mkClip path None None) s) →
  (ImageClip_ok w (abspath w path) (disk s) = false → E s) →
  wp (image_clip w path) Q E s.
Proof.
  unfold wp, image_clip. destruct (ImageClip_ok w _ _); eauto.
Qed.

Lemma wp_audio_file_clip path (Q : string * float → State → Prop) E s :
  (∀ d, AudioFileClip w (abspath w path) (disk s) = Some d → Q (path, d) s) →
  (AudioFileClip w (abspath w path) (disk s) = None → E s) →
  wp (audio_file_clip w path) Q E s.
Proof.
  unfold wp, audio_file_clip. destruct (AudioFileClip w _ _); eauto.
Qed.

Lemma wp_set_audio audio c (Q : Clip → State → Prop) E s :
  (set_audio_ok w (clip_source c) audio = true →
   Q (mkClip (clip_source c) (clip_duration c) (Some audio)) s) →
  (set_audio_ok w (clip_source c) audio = false → E s) →
  wp (set_audio w audio c) Q E s.
Proof.
  unfold wp, set_audio. destruct (set_audio_ok w _ _); simpl; eauto.
Qed.

Lemma wp_export clips path (Q : unit → State → Prop) E s :
  (∀ d, write_videofile w clips (abspath w path) (disk s) = (d, true) →
        Q tt (mkState (files s) d (requests s))) →
  (∀ d, write_videofile w clips (abspath w path) (disk s) = (d, false) →
        E (mkState (files s) d (requests s))) →
  wp (export w clips path) Q E s.
Proof.
  unfold wp, export. destruct (write_videofile w clips _ _) as [d []]; eauto.
Qed.

End WpPrimitives.

(** One step of symbolic execution. *)
Ltac wp_step :=
  lazymatch goal with
  | |- wp (bind _ _) _ _ _ => apply wp_bind
  | |- wp (try_except _ _) _ _ _ => apply wp_try_except
  | |- wp (ret _) _ _ _ => apply wp_ret
  | |- wp raise _ _ _ => apply wp_raise
  | |- wp files_reset _ _ _ => apply wp_files_reset
  | |- wp (files_add_image _ _) _ _ _ => apply wp_files_add_image
  | |- wp (files_add_audio _ _) _ _ _ => apply wp_files_add_audio
  | |- wp (files_get_image _) _ _ _ => apply wp_files_get_image
  | |- wp (files_get_audio _) _ _ _ => apply wp_files_get_audio
  | |- wp (os_path_exists _ _) _ _ _ => apply wp_os_path_exists
  | |- wp (os_path_getsize _ _) _ _ _ => apply wp_os_path_getsize; [intros ? ?|intros ?]
  | |- wp (http_get _ _) _ _ _ => apply wp_http_get; [intros [? ?] ?|intros ?]
  | |- wp (image_open _ _) _ _ _ => apply wp_image_open; intros ?
  | |- wp (img_save _ _ _) _ _ _ => apply wp_img_save; intros ? ?
  | |- wp (tts _ _ _ _) _ _ _ => apply wp_tts; intros ? ?
  | |- wp (image_clip _ _) _ _ _ => apply wp_image_clip; intros ?
  | |- wp (audio_file_clip _ _) _ _ _ => apply wp_audio_file_clip; [intros ? ?|intros ?]
  | |- wp (set_audio _ _ _) _ _ _ => apply wp_set_audio; intros ?
  | |- wp (export _ _ _) _ _ _ => apply wp_export; intros ? ?
  end.

Ltac wp_steps := repeat (wp_step; cbn [files disk requests]).

(** ** Paths *)

Lemma isabs_abspath (w : World) (p : string) : isabs (abspath w p) = true.
Proof.
  unfold abspath. destruct (isabs p) eqn:E; [done|].
  unfold cwd_prefix. by destruct (cwd w).
Qed.

Lemma truthy_abspath (w : World) (p : string) : Str.truthy (abspath w p) = true.
Proof.
  pose proof (isabs_abspath w p) as H. by destruct (abspath w p).
Qed.

Lemma abspath_idemp (w : World) (p : string) : abspath w (abspath w p) = abspath w p.
Proof. unfold abspath at 1. by rewrite isabs_abspath. Qed.

(** ** Image generator *)

Lemma wp_create_placeholder (w : World) (n : Z) (text : string)
    (Q : string → State → Prop) (E : State → Prop) (s : State) :
  (∀ lines d,
     pil_save w (PlaceholderPic ("Scene " +:+ str_of_int n) lines)
       (abspath w (scene_png n)) (disk s) = (d, true) →
     Q (abspath w (scene_png n))
       (mkState (StoryboardFiles.add_image (files s) n (abspath w (scene_png n)))
          d (requests s))) →
  (∀ lines d,
     pil_save w (PlaceholderPic ("Scene " +:+ str_of_int n) lines)
       (abspath w (scene_png n)) (disk s) = (d, false) →
     E (mkState (files s) d (requests s))) →
  wp (create_placeholder w n text) Q E s.
Proof.
  intros HQ HE. unfold create_placeholder. wp_steps; eauto.
Qed.

Ltac wp_placeholder :=
  lazymatch goal with
  | |- wp (create_placeholder _ _ _) _ _ _ =>
      apply wp_create_placeholder; intros ? ? ?; cbn [files disk requests]
  end.

Ltac wp_if :=
  lazymatch goal with
  | |- wp (if ?b then _ else _) _ _ _ => destruct b eqn:?
  | |- wp (match ?x with _ => _ end) _ _ _ => destruct x eqn:?
  end.

Ltac wp_auto :=
  repeat first [wp_step; cbn [files disk requests] | wp_placeholder | wp_if].

Ltac rewrite_hyps :=
  repeat match goal with
         | H : _ = _ |- _ => rewrite H
         end.

(** [create_placeholder] in closed form. *)
Lemma create_placeholder_run (w : World) (n : Z) (text : string) (s : State) :
  create_placeholder w n text s =
  let '(d, returned) :=
    pil_save w (placeholder_of text n) (abspath w (scene_png n)) (disk s) in
  if returned
  then (mkState (StoryboardFiles.add_image (files s) n (abspath w (scene_png n))) d
          (requests s), Ok (abspath w (scene_png n)))
  else (mkState (files s) d (requests s), Raise).
Proof.
  unfold create_placeholder, placeholder_of, bind, img_save, files_add_image, ret.
  by destruct (pil_save w _ _ (disk s)) as [d []].
Qed.

(** [generate_image] in closed form: it raises at once on a prompt that
    cannot be quoted; it keeps the downloaded image when the download goes
    through; otherwise it ends as the placeholder does. *)
Lemma generate_image_run (w : World) (prompt : string) (n : Z) (style : string)
    (seed : option Z) (s : State) :
  generate_image w prompt n style seed s =
  let path := abspath w (scene_png n) in
  let reqs := requests s ++ [image_url prompt seed] in
  if quotable prompt then
    if download_succeeds w prompt n seed s
    then (mkState (StoryboardFiles.add_image (files s) n path)
            (download_disk w prompt n seed s) reqs, Ok path)
    else
      let '(d, returned) := placeholder_outcome w prompt n seed s in
      if returned
      then (mkState (StoryboardFiles.add_image (files s) n path) d reqs, Ok path)
      else (mkState (files s) d reqs, Raise)
  else (s, Raise).
Proof.
  unfold generate_image, download_succeeds, placeholder_outcome, download_disk,
    placeholder_retried, save_placeholder.
  destruct (quotable prompt); [|done]. cbn [andb].
  unfold try_except, bind at 1, http_get.
  destruct (requests_get w (requests s) (image_url prompt seed)) as [[code content]|];
    cycle 1.
  { rewrite create_placeholder_run. cbn [files disk requests negb orb].
    destruct (pil_save w (placeholder_of prompt n) _ (disk s)) as [d1 []]; done. }
  destruct (bool_decide (code = 200)); cbn [andb]; cycle 1.
  { rewrite create_placeholder_run. cbn [files disk requests negb orb].
    destruct (pil_save w (placeholder_of prompt n) _ (disk s)) as [d1 []];
      cbn [orb]; [done|].
    rewrite create_placeholder_run. cbn [files disk requests].
    by destruct (pil_save w (placeholder_of prompt n) _ d1) as [d2 []]. }
  unfold bind at 1, image_open.
  destruct (Image_open w content); cbn [andb]; cycle 1.
  { unfold raise. rewrite create_placeholder_run. cbn [files disk requests negb orb].
    destruct (pil_save w (placeholder_of prompt n) _ (disk s)) as [d1 []]; done. }
  unfold ret at 1. unfold bind at 1, img_save. cbn [files disk requests].
  destruct (pil_save w (Labelled content _) _ (disk s)) as [d returned].
  destruct returned; cbn [andb fst snd]; cycle 1.
  { rewrite create_placeholder_run. cbn [files disk requests negb orb].
    destruct (pil_save w (placeholder_of prompt n) _ d) as [d1 []]; done. }
  unfold bind at 1, os_path_exists. cbn [files disk requests].
  destruct (d !! abspath w (scene_png n)) as [size|] eqn:Hd.
  - rewrite bool_decide_eq_true_2 by eauto.
    unfold bind, os_path_getsize, files_add_image, ret. cbn [files disk requests].
    by rewrite Hd.
  - rewrite bool_decide_eq_false_2 by (by intros [? ?]). cbn [negb].
    rewrite create_placeholder_run. cbn [files disk requests negb orb].
    destruct (pil_save w (placeholder_of prompt n) _ d) as [d1 []]; cbn [orb]; [done|].
    rewrite create_placeholder_run. cbn [files disk requests].
    by destruct (pil_save w (placeholder_of prompt n) _ d1) as [d2 []].
Qed.

Lemma wp_generate_image (w : World) (prompt : string) (n : Z) (style : string)
    (seed : option Z) (s : State) :
  wp (generate_image w prompt n style seed)
     (image_registered w n s [image_url prompt seed]) (λ _, True) s.
Proof.
  unfold wp, image_registered. rewrite generate_image_run. cbv zeta.
  destruct (quotable prompt); [|done].
  destruct (download_succeeds w prompt n seed s); [done|].
  by destruct (placeholder_outcome w prompt n seed s) as [d []].
Qed.



(** The image loop of [generate_storyboard]. *)

Lemma wp_generate_images (w : World) (story_idea : string) (story_data : StoryData)
    (s : State) :
  wp (generate_images w story_idea story_data)
     (images_done w (py_hash w story_idea `mod` 100000) s
        (enumerate (get_scenes story_data)))
     (λ _, True) s.
Proof.
  unfold generate_images. apply wp_for_each.
  - unfold images_done, register_images. simpl. by rewrite app_nil_r.
  - intros seen [i scene] images s1 (Himg & Hfiles & Hreq).
    wp_step. eapply wp_mono; [apply wp_generate_image| |done].
    intros p s2 (-> & Hf2 & Hr2). wp_step.
    unfold images_done, register_images. rewrite !map_app, foldl_app. simpl.
    rewrite Himg, Hf2, Hr2, Hfiles, Hreq. by rewrite <- app_assoc.
Qed.

(** ** Text to speech *)

Lemma wp_generate_audio (w : World) (text : string) (n : Z) (voice : string) (s : State) :
  wp (generate_audio w text n voice) (audio_outcome w n s) (λ _, False) s.
Proof.
  unfold generate_audio, audio_outcome.
  wp_auto; cbn [files disk requests] in *; done.
Qed.

Lemma wp_generate_narrations (w : World) (voice : string) (story_data : StoryData)
    (s : State) :
  wp (generate_narrations w voice story_data)
     (narrations_done w s (enumerate (get_scenes story_data)))
     (λ _, False) s.
Proof.
  unfold generate_narrations. apply wp_for_each.
  - unfold narrations_done. simpl. auto.
  - intros seen [i scene] audio s1 (Hlen & Hreq & Himg & Haud).
    unfold narrations_done. cbn [fst snd].
    destruct (Str.truthy (default "" (narration scene))).
    + wp_step. eapply wp_mono; [apply wp_generate_audio| |done].
      intros r s2 [Hr2 Hout]. wp_step.
      rewrite !length_app, Hlen, Hr2, Hreq. simpl. split_and!; [done|done| |].
      * destruct r as [p|]; [destruct Hout as (_ & _ & ->)|rewrite Hout]; done.
      * intros k p Hk. rewrite fmap_app, elem_of_app. simpl.
        destruct r as [q|].
        -- destruct Hout as (-> & _ & Hf). rewrite Hf in Hk. simpl in Hk.
           destruct (decide (i + 1 = k)) as [<-|Hne].
           ++ rewrite lookup_insert_eq in Hk. simplify_eq. right.
              split; [right; apply list_elem_of_singleton; done|done].
           ++ rewrite lookup_insert_ne in Hk by done.
              destruct (Haud k p Hk) as [?|[? ?]]; auto.
        -- rewrite Hout in Hk. destruct (Haud k p Hk) as [?|[? ?]]; auto.
    + wp_step. rewrite !length_app, Hlen. simpl. split_and!; [done..|].
      intros k p Hk. rewrite fmap_app, elem_of_app.
      destruct (Haud k p Hk) as [?|[? ?]]; auto.
Qed.

(** ** Video creator *)

Lemma wp_on_disk (w : World) (path : option string) (Q : option string → State → Prop)
    (E : State → Prop) (s : State) :
  Q (usable_path w s path) s → wp (on_disk w path) Q E s.
Proof.
  unfold on_disk, usable_path. destruct path as [p|]; [|by intros; wp_step].
  destruct (Str.truthy p); simpl; [|by intros; wp_step].
  intros HQ. wp_steps. by destruct (bool_decide _).
Qed.

Lemma wp_add_scene (w : World) (all_clips : list Clip) (scene_num : Z) (s : State) :
  wp (add_scene w all_clips scene_num)
     (λ clips s', s' = s ∧
                  clips = all_clips ++ option_list (expected_scene_clip w s scene_num))
     (λ _, False) s.
Proof.
  unfold add_scene, expected_scene_clip.
  wp_steps. apply wp_on_disk.
  destruct (usable_path w s (StoryboardFiles.get_image (files s) scene_num))
    as [image_path|]; [|wp_step; by rewrite app_nil_r].
  wp_steps; [|by rewrite H, app_nil_r].
  rewrite H. apply wp_on_disk.
  destruct (usable_path w s (StoryboardFiles.get_audio (files s) scene_num))
    as [audio_path|]; unfold scene_audio.
  - wp_steps; unfold set_duration in *; simpl in *; rewrite_hyps; simpl; done.
  - wp_steps. done.
Qed.

Lemma wp_scene_loop (w : World) (all_clips : list Clip) (num_scenes : Z) (s : State) :
  wp (for_each (seqZ 1 num_scenes) (add_scene w) all_clips)
     (λ clips s', s' = s ∧ clips = all_clips ++ expected_scene_clips w s num_scenes)
     (λ _, False) s.
Proof.
  unfold expected_scene_clips.
  apply (wp_for_each
           (λ seen clips s', s' = s ∧
              clips = all_clips ++ flat_map (λ k, option_list (expected_scene_clip w s k)) seen)).
  - by rewrite app_nil_r.
  - intros seen k clips s1 [-> ->].
    eapply wp_mono; [apply wp_add_scene| |done].
    intros clips' s' [-> ->]. split; [done|].
    rewrite flat_map_app. simpl. by rewrite app_nil_r, app_assoc.
Qed.

(** Step 4 in closed form: below two clips nothing is exported; otherwise
    the path is returned exactly when the export call returns and the
    file is then on disk. *)
Lemma combine_and_export_run (w : World) (all_clips : list Clip) (s : State) :
  combine_and_export w all_clips s =
  if (length all_clips <? 2)%nat then (s, Ok None)
  else
    let '(d, returned) :=
      write_videofile w all_clips (abspath w output_path) (disk s) in
    (mkState (files s) d (requests s),
     Ok (if returned && bool_decide (is_Some (d !! abspath w output_path))
         then Some (abspath w output_path) else None)).
Proof.
  unfold combine_and_export. destruct (length all_clips <? 2)%nat; [done|].
  unfold try_except, bind, export, os_path_exists, os_path_getsize, ret.
  destruct (write_videofile w all_clips _ _) as [d []]; simpl; [|done].
  destruct (d !! abspath w output_path) as [size|] eqn:Hd; simpl; [|done].
  by rewrite Hd.
Qed.

Lemma wp_combine_and_export (w : World) (all_clips : list Clip) (s : State) :
  wp (combine_and_export w all_clips) (assembly_outcome w s) (λ _, False) s.
Proof.
  unfold wp, assembly_outcome. rewrite combine_and_export_run.
  destruct (length all_clips <? 2)%nat; [auto|].
  destruct (write_videofile w all_clips _ _) as [d []]; simpl; [|auto].
  destruct (bool_decide (is_Some (d !! abspath w output_path))) eqn:Hd; [|auto].
  apply bool_decide_eq_true in Hd. auto.
Qed.

Lemma wp_collect_clips (w : World) (story_data : StoryData) (num_scenes : Z) (s : State) :
  wp (collect_clips w story_data num_scenes)
     (λ _ s', files s' = files s ∧ requests s' = requests s) (λ _, True) s.
Proof.
  unfold collect_clips, create_simple_image.
  destruct (sliced_title story_data) as [title|]; [|by wp_step].
  wp_steps; try done.
  all: eapply wp_mono; [apply wp_scene_loop| |done].
  all: intros clips s' [-> ->]; wp_steps; done.
Qed.

Lemma wp_make_video_simple (w : World) (story_data : StoryData) (num_scenes : Z)
    (s : State) :
  wp (make_video_simple w story_data num_scenes) (assembly_outcome w s) (λ _, True) s.
Proof.
  unfold make_video_simple. wp_step.
  eapply wp_mono; [apply wp_collect_clips| |done].
  intros clips s1 [Hf Hr]. simpl.
  eapply wp_mono; [apply wp_combine_and_export| |done].
  unfold assembly_outcome. intros v s2 (-> & -> & Hv). auto.
Qed.

(** ** Main generator *)

(** The stages a returning run of [generate_storyboard] went through. *)
Lemma generate_storyboard_stages (w : World) (story_idea : string) (num_scenes : Z)
    (voice : string) (s s' : State) (r : Results) :
  generate_storyboard w story_idea num_scenes voice s = (s', Ok r) →
  let s0 := mkState (StoryboardFiles.reset (files s)) (disk s) (requests s) in
  match usable_story (generate_consistent_story w story_idea num_scenes) with
  | None =>
      s' = s0 ∧
      r = mkResults error None [] [] None (Some "Failed to generate story")
  | Some story_data =>
      ∃ s1 s2 images audio video_path,
        generate_images w story_idea story_data s0 = (s1, Ok images) ∧
        generate_narrations w voice story_data s1 = (s2, Ok audio) ∧
        make_video_simple w story_data
          (Z.of_nat (length (get_scenes story_data))) s2 = (s', Ok video_path) ∧
        r = mkResults (if path_truthy video_path then completed else partial)
              (Some story_data) images audio video_path
              (if path_truthy video_path then None
               else Some "Images generated but video creation failed")
  end.
Proof.
  unfold generate_storyboard. unfold bind at 1. unfold files_reset. simpl.
  destruct (usable_story _) as [story_data|]; [|unfold ret; intros; by simplify_eq].
  unfold bind.
  destruct (generate_images w story_idea story_data _) as [s1 [images|]] eqn:H1; [|done].
  destruct (generate_narrations w voice story_data s1) as [s2 [audio|]] eqn:H2; [|done].
  destruct (make_video_simple w story_data _ s2) as [s3 [video_path|]] eqn:H3; [|done].
  intros Hr. exists s1, s2, images, audio, video_path.
  destruct (path_truthy video_path); unfold ret in Hr; simplify_eq; done.
Qed.

(** ** Image fallback *)

(** C2 (as amended). Let the prompt be one that [urllib.parse.quote]
    accepts, and let the download fail in any way: the request raises, the
    answer is not 200, the body does not decode, the save raises, or the
    saved file is not found. Then, provided the save of the placeholder
    returns, [generate_image] returns the absolute path of the scene's
    file, has registered it under the scene number as a success does, and
    the disk is what saving the placeholder left. A returned run of
    [generate_storyboard] holds no null entry in its image list. *)
Theorem C2_image_fallback (w : World) (prompt : string) (n : Z) (style : string)
    (seed : option Z) (s : State) :
  quotable prompt = true →
  download_succeeds w prompt n seed s = false →
  (placeholder_outcome w prompt n seed s).2 = true →
  (∃ s', generate_image w prompt n style seed s = (s', Ok (abspath w (scene_png n))) ∧
         isabs (abspath w (scene_png n)) = true ∧
         StoryboardFiles.get_image (files s') n = Some (abspath w (scene_png n)) ∧
         files s' = StoryboardFiles.add_image (files s) n (abspath w (scene_png n)) ∧
         disk s' = (placeholder_outcome w prompt n seed s).1) ∧
  (∀ story_idea num_scenes voice s0 s1 r,
     generate_storyboard w story_idea num_scenes voice s0 = (s1, Ok r) →
     Forall is_Some (res_images r)).
Proof.
  intros Hq Hfail Hsave. split.
  - rewrite generate_image_run, Hq, Hfail. cbv zeta.
    destruct (placeholder_outcome w prompt n seed s) as [d returned].
    simpl in Hsave. subst returned.
    eexists. split_and!; [reflexivity|apply isabs_abspath| |reflexivity..].
    unfold StoryboardFiles.get_image, StoryboardFiles.add_image. simpl.
    apply lookup_insert_eq.
  - intros story_idea num_scenes voice s0 s1 r Hrun.
    apply generate_storyboard_stages in Hrun. simpl in Hrun.
    destruct (usable_story _) as [story_data|].
    + destruct Hrun as (s2 & s3 & images & audio & video & Hi & _ & _ & ->). simpl.
      pose proof (wp_returns _ _ _ _ _ _ (wp_generate_images w story_idea story_data _) Hi)
        as (-> & _).
      clear Hi. induction (enumerate (get_scenes story_data)); simpl; constructor; eauto.
    + destruct Hrun as [_ ->]. constructor.
Qed.

(** C2, with the image service unreachable: the first scene of the robot
    story gets its placeholder. *)
Lemma C2_witness :
  quotable "a small robot wakes up" = true ∧
  download_succeeds offline_studio "a small robot wakes up" 1 (Some 7) initial_state
    = false ∧
  ∃ s', generate_image offline_studio "a small robot wakes up" 1 "" (Some 7)
          initial_state = (s', Ok "/work/scene_1.png") ∧
        StoryboardFiles.get_image (files s') 1 = Some "/work/scene_1.png" ∧
        disk s' = {["/work/scene_1.png" := 1000%N]}.
Proof.
  assert (quotable "a small robot wakes up" = true) as Hq by (vm_compute; reflexivity).
  assert (download_succeeds offline_studio "a small robot wakes up" 1 (Some 7)
            initial_state = false) as Hfail by (vm_compute; reflexivity).
  split; [exact Hq|]. split; [exact Hfail|].
  destruct (C2_image_fallback offline_studio "a small robot wakes up" 1 "" (Some 7)
              initial_state Hq Hfail eq_refl) as [(s' & Hrun & _ & Hreg & _ & Hdisk) _].
  exists s'. split; [exact Hrun|]. split; [exact Hreg|exact Hdisk].
Defined.

(** C2 as stated fails: with the service unreachable and the directory
    read-only, the placeholder cannot be written either and the call
    raises instead of returning a path. *)
Lemma C2_counterexample :
  quotable "a small robot wakes up" = true ∧
  (generate_image offline_readonly "a small robot wakes up" 1 "" (Some 7)
     initial_state).2 = Raise.
Proof. split; vm_compute; reflexivity. Qed.

(** ** The clip list *)

Lemma wp_collect_clips_structure (w : World) (story_data : StoryData) (num_scenes : Z)
    (s : State) :
  wp (collect_clips w story_data num_scenes)
     (clips_collected w story_data num_scenes s) (λ _, True) s.
Proof.
  unfold collect_clips, create_simple_image, clips_collected, card_clip, title_lines,
    end_lines.
  destruct (sliced_title story_data) as [title|]; [|by wp_step].
  wp_steps; try done.
  all: eapply wp_mono; [apply wp_scene_loop| |done].
  all: intros clips s' [-> ->]; wp_steps; try done.
  all: eexists _, _, _; split_and!; [reflexivity|eassumption|eassumption|reflexivity|].
  all: cbn [disk] in *; rewrite_hyps; simpl; by rewrite ?app_nil_r, <- ?app_assoc.
Qed.

(** ** Assembly precondition *)

(** C3 (as amended). Whenever the clip list has fewer than two clips,
    [make_video_simple] returns no path. With two clips or more it goes on
    to the export and returns the path when the export call returns and the
    file is on disk. The list has at least two clips as soon as the title
    and the end card load, also when every scene is skipped. *)
Theorem C3_assembly_precondition (w : World) (story_data : StoryData) (num_scenes : Z)
    (s s1 : State) (clips : list Clip) :
  collect_clips w story_data num_scenes s = (s1, Ok clips) →
  ((length clips < 2)%nat →
   make_video_simple w story_data num_scenes s = (s1, Ok None)) ∧
  ((2 ≤ length clips)%nat →
   ∀ d, write_videofile w clips (abspath w output_path) (disk s1) = (d, true) →
        is_Some (d !! abspath w output_path) →
        make_video_simple w story_data num_scenes s =
          (mkState (files s1) d (requests s1), Ok (Some (abspath w output_path)))) ∧
  (∃ lines d1 d2,
     title_lines story_data = Some lines ∧
     pil_save w (CardPic lines) (abspath w "title_card.png") (disk s) = (d1, true) ∧
     pil_save w (CardPic end_lines) (abspath w "end_card.png") d1 = (d2, true) ∧
     clips = card_clip w d1 "title_card.png"
             ++ expected_scene_clips w (mkState (files s) d1 (requests s)) num_scenes
             ++ card_clip w d2 "end_card.png" ∧
     (ImageClip_ok w (abspath w "title_card.png") d1 = true →
      ImageClip_ok w (abspath w "end_card.png") d2 = true →
      (2 ≤ length clips)%nat)).
Proof.
  intros Hc. unfold make_video_simple, bind. rewrite Hc, combine_and_export_run.
  split_and!.
  - intros Hlt. apply Nat.ltb_lt in Hlt. by rewrite Hlt.
  - intros Hge d Hd Hex. apply Nat.ltb_ge in Hge. rewrite Hge, Hd. simpl.
    by rewrite bool_decide_eq_true_2.
  - pose proof (wp_returns _ _ _ _ _ _
                  (wp_collect_clips_structure w story_data num_scenes s) Hc)
      as (lines & d1 & d2 & Hlines & Hs1 & Hs2 & _ & ->).
    exists lines, d1, d2. split_and!; [done..|].
    unfold card_clip. intros -> ->. rewrite !length_app. simpl. lia.
Qed.

(** C3, in the studio: scene 1 has its image, title and end card load, the
    three clips are exported. *)
Lemma C3_witness :
  ∃ s1 clips,
    collect_clips studio robot_story 1 one_image_state = (s1, Ok clips) ∧
    length clips = 3%nat ∧
    (make_video_simple studio robot_story 1 one_image_state).2 =
      Ok (Some "/work/final_storyboard.mp4").
Proof.
  destruct (collect_clips studio robot_story 1 one_image_state) as [s1 [clips|]] eqn:Hc;
    [|vm_compute in Hc; discriminate].
  exists s1, clips. split; [reflexivity|].
  assert (length clips = 3%nat) as Hlen
    by (vm_compute in Hc; injection Hc as _ <-; reflexivity).
  split; [exact Hlen|].
  destruct (C3_assembly_precondition studio robot_story 1 one_image_state s1 clips Hc)
    as (_ & Hexport & _).
  rewrite (Hexport ltac:(lia) (<[abspath studio output_path := 5000%N]> (disk s1))
             eq_refl ltac:(rewrite lookup_insert_eq; eauto)).
  reflexivity.
Defined.

(** C3 as stated fails: with an empty registry every scene is skipped, yet
    the title and the end card make two clips and the assembly returns a
    path. *)
Lemma C3_counterexample :
  expected_scene_clips studio initial_state 2 = [] ∧
  (collect_clips studio robot_story 2 initial_state).2 =
    Ok [title_card_clip; end_card_clip] ∧
  (make_video_simple studio robot_story 2 initial_state).2 =
    Ok (Some "/work/final_storyboard.mp4").
Proof. split_and!; vm_compute; reflexivity. Qed.

(** ** Narration *)

(** [generate_audio] in closed form. *)
Lemma generate_audio_run (w : World) (text : string) (n : Z) (voice : string) (s : State) :
  generate_audio w text n voice s =
  let path := abspath w (narration_mp3 n) in
  let '(d, returned) := tts_save w text path voice (disk s) in
  if returned && bool_decide (is_Some (d !! path))
  then (mkState (StoryboardFiles.add_audio (files s) n path) d (requests s),
        Ok (Some path))
  else (mkState (files s) d (requests s), Ok None).
Proof.
  unfold generate_audio, try_except, bind, tts, os_path_exists, os_path_getsize,
    files_add_audio, ret.
  destruct (tts_save w text _ voice (disk s)) as [d []]; simpl; [|done].
  destruct (d !! abspath w (narration_mp3 n)) as [size|] eqn:Hd; simpl; [|done].
  by rewrite Hd.
Qed.

(** C4 (as amended). [generate_audio] never raises. It returns and
    registers the narration path exactly when the speech call returned and
    the output file is then on disk (its size is read but not checked);
    when the speech call raised or left no file it returns [None] and the
    registry is as it was. *)
Theorem C4_audio_registration (w : World) (text : string) (n : Z) (voice : string)
    (s : State) :
  ∃ s' r,
    generate_audio w text n voice s = (s', Ok r) ∧
    match r with
    | Some p =>
        p = abspath w (narration_mp3 n) ∧
        (∃ d, tts_save w text p voice (disk s) = (d, true) ∧ disk s' = d) ∧
        is_Some (disk s' !! p) ∧
        StoryboardFiles.get_audio (files s') n = Some p
    | None =>
        files s' = files s ∧
        ∃ d returned, tts_save w text (abspath w (narration_mp3 n)) voice (disk s)
                        = (d, returned) ∧
                      (returned = false ∨ d !! abspath w (narration_mp3 n) = None)
    end.
Proof.
  rewrite generate_audio_run. cbv zeta.
  destruct (tts_save w text _ voice (disk s)) as [d returned] eqn:Htts.
  destruct returned; simpl.
  - destruct (bool_decide (is_Some (d !! abspath w (narration_mp3 n)))) eqn:Hd.
    + apply bool_decide_eq_true in Hd. eexists _, _. split; [reflexivity|]. simpl.
      split_and!; [done|by eauto|done|].
      unfold StoryboardFiles.get_audio, StoryboardFiles.add_audio. simpl.
      apply lookup_insert_eq.
    + apply bool_decide_eq_false in Hd. eexists _, _. split; [reflexivity|]. simpl.
      split; [done|]. exists d, true. split; [done|]. right.
      by apply eq_None_not_Some.
  - eexists _, _. split; [reflexivity|]. simpl. split; [done|]. eauto.
Qed.

(** C4 as stated fails: the speech call returns after creating an empty
    file, and the path is registered and returned all the same. *)
Lemma C4_counterexample :
  ∃ s',
    generate_audio silent_tts "The robot wakes." 1 "en-US-AriaNeural" initial_state =
      (s', Ok (Some "/work/narration_1.mp3")) ∧
    disk s' !! "/work/narration_1.mp3" = Some 0%N ∧
    StoryboardFiles.get_audio (files s') 1 = Some "/work/narration_1.mp3".
Proof. eexists. split_and!; vm_compute; reflexivity. Qed.

(** ** Scene clips *)

(** C5 (as amended). The scene loop visits the scene numbers
    [1..num_scenes] in order, changes nothing and never raises; each scene
    adds the clip [expected_scene_clip] describes: none when the registry
    has no usable image or the image does not load, otherwise a still of
    the narration's duration plus one second with the narration attached
    (unless attaching raises), or of five seconds without narration when
    there is no usable narration or it does not load. *)
Theorem C5_scene_clips (w : World) (all_clips : list Clip) (scene_num num_scenes : Z)
    (s : State) :
  add_scene w all_clips scene_num s =
    (s, Ok (all_clips ++ option_list (expected_scene_clip w s scene_num))) ∧
  for_each (seqZ 1 num_scenes) (add_scene w) all_clips s =
    (s, Ok (all_clips ++ expected_scene_clips w s num_scenes)).
Proof.
  split.
  - destruct (wp_total _ _ _ (wp_add_scene w all_clips scene_num s))
      as (s' & clips & Hrun & -> & ->). exact Hrun.
  - destruct (wp_total _ _ _ (wp_scene_loop w all_clips num_scenes s))
      as (s' & clips & Hrun & -> & ->). exact Hrun.
Qed.

(** The cases of [expected_scene_clip], one by one. *)
Lemma expected_scene_clip_skipped (w : World) (s : State) (n : Z) :
  usable_path w s (StoryboardFiles.get_image (files s) n) = None →
  expected_scene_clip w s n = None.
Proof. unfold expected_scene_clip. by intros ->. Qed.

Lemma expected_scene_clip_narrated (w : World) (s : State) (n : Z)
    (image_path audio_path : string) (audio_duration : float) :
  usable_path w s (StoryboardFiles.get_image (files s) n) = Some image_path →
  ImageClip_ok w (abspath w image_path) (disk s) = true →
  usable_path w s (StoryboardFiles.get_audio (files s) n) = Some audio_path →
  AudioFileClip w (abspath w audio_path) (disk s) = Some audio_duration →
  set_audio_ok w image_path audio_path = true →
  expected_scene_clip w s n =
    Some (mkClip image_path (Some (audio_duration + 1)%float) (Some audio_path)).
Proof. unfold expected_scene_clip. by intros -> -> -> -> ->. Qed.

Lemma expected_scene_clip_silent (w : World) (s : State) (n : Z) (image_path : string) :
  usable_path w s (StoryboardFiles.get_image (files s) n) = Some image_path →
  ImageClip_ok w (abspath w image_path) (disk s) = true →
  (usable_path w s (StoryboardFiles.get_audio (files s) n) = None ∨
   ∃ audio_path,
     usable_path w s (StoryboardFiles.get_audio (files s) n) = Some audio_path ∧
     AudioFileClip w (abspath w audio_path) (disk s) = None) →
  expected_scene_clip w s n = Some (mkClip image_path (Some 5%float) None).
Proof.
  unfold expected_scene_clip. intros -> -> [->|(audio_path & -> & ->)]; done.
Qed.

(** C5 as stated fails: the image of scene 1 is registered and on disk,
    but it does not load as a clip, and the scene adds no clip. *)
Lemma C5_counterexample :
  StoryboardFiles.get_image (files one_image_state) 1 = Some "/work/scene_1.png" ∧
  disk one_image_state !! "/work/scene_1.png" = Some 1000%N ∧
  add_scene corrupt_image [] 1 one_image_state = (one_image_state, Ok []).
Proof. split_and!; vm_compute; reflexivity. Qed.

(** ** Export *)

(** C8 (as amended). With two clips or more, the assembler returns the
    path exactly when the export call returned and the exported file is
    then on disk; the size of the file is read but takes no part in the
    decision. *)
Theorem C8_export_postcondition (w : World) (all_clips : list Clip) (s : State)
    (d : Disk) (returned : bool) :
  (2 ≤ length all_clips)%nat →
  write_videofile w all_clips (abspath w output_path) (disk s) = (d, returned) →
  combine_and_export w all_clips s =
    (mkState (files s) d (requests s),
     Ok (if returned && bool_decide (is_Some (d !! abspath w output_path))
         then Some (abspath w output_path) else None)).
Proof.
  intros Hge Hw. rewrite combine_and_export_run.
  apply Nat.ltb_ge in Hge. by rewrite Hge, Hw.
Qed.

(** C8, in the studio: title and end card are exported. *)
Lemma C8_witness :
  combine_and_export studio [title_card_clip; end_card_clip] initial_state =
    (mkState (files initial_state) {["/work/final_storyboard.mp4" := 5000%N]} [],
     Ok (Some "/work/final_storyboard.mp4")).
Proof.
  exact (C8_export_postcondition studio [title_card_clip; end_card_clip] initial_state
           {["/work/final_storyboard.mp4" := 5000%N]} true
           ltac:(simpl; lia) eq_refl).
Defined.

(** C8 as stated fails: the encoder returns after leaving an empty file,
    and the assembler returns its path. *)
Lemma C8_counterexample :
  ∃ s',
    combine_and_export empty_export [title_card_clip; end_card_clip] initial_state =
      (s', Ok (Some "/work/final_storyboard.mp4")) ∧
    disk s' !! "/work/final_storyboard.mp4" = Some 0%N.
Proof. eexists. split; vm_compute; reflexivity. Qed.

(** ** Registry keys *)

Lemma enumerate_keys {A} (l : list A) :
  (λ item : Z * A, item.1 + 1) <$> enumerate l = seqZ 1 (Z.of_nat (length l)).
Proof.
  unfold enumerate.
  rewrite <- (fmap_add_seqZ 1 0).
  rewrite <- (fst_zip (seqZ 0 (Z.of_nat (length l))) l) at 2
    by (rewrite length_seqZ; lia).
  rewrite <- list_fmap_compose. apply list_fmap_ext. intros _ [i x] _. simpl. lia.
Qed.

Lemma register_images_lookup (w : World) (items : list (Z * Scene)) (f : StoryboardFiles)
    (k : Z) :
  files_images (register_images w items f) !! k =
  if decide (k ∈ (λ item : Z * Scene, item.1 + 1) <$> items)
  then Some (abspath w (scene_png k))
  else files_images f !! k.
Proof.
  unfold register_images. revert f.
  induction items as [|[i sc] items IH]; intros f; simpl; [done|].
  rewrite IH. simpl.
  destruct (decide (k ∈ _ <$> items)) as [Hin|Hnin].
  - rewrite decide_True; [done|]. by right.
  - destruct (decide (i + 1 = k)) as [<-|Hne].
    + rewrite decide_True by left. apply lookup_insert_eq.
    + rewrite decide_False; [by apply lookup_insert_ne|].
      intros [?|?]%elem_of_cons; done.
Qed.

Lemma register_images_audio (w : World) (items : list (Z * Scene)) (f : StoryboardFiles) :
  files_audio (register_images w items f) = files_audio f.
Proof.
  unfold register_images. revert f.
  induction items as [|[i sc] items IH]; intros f; simpl; [done|]. by rewrite IH.
Qed.

Lemma enhance_keeps_scene_numbers (lower : string → string) (parsed : StoryData) :
  map scene_number (get_scenes (enhance_visual_prompts lower parsed)) =
  map scene_number (get_scenes parsed).
Proof.
  rewrite enhance_visual_prompts_scenes, map_map. done.
Qed.

Lemma usable_story_Some (o : option StoryData) (d : StoryData) :
  usable_story o = Some d ↔ o = Some d ∧ story_truthy d = true.
Proof.
  unfold usable_story. destruct o as [d'|]; [|split; [done|by intros [? _]]].
  destruct (story_truthy d') eqn:Ht; split.
  - intros [= ->]. done.
  - intros [[= ->] _]. done.
  - done.
  - intros [[= ->] Ht']. congruence.
Qed.

Lemma usable_story_None (o : option StoryData) :
  usable_story o = None ↔ o = None ∨ ∃ d, o = Some d ∧ story_truthy d = false.
Proof.
  unfold usable_story. destruct o as [d'|]; [|split; [by left|done]].
  destruct (story_truthy d') eqn:Ht; split.
  - done.
  - intros [?|(d & [= ->] & Ht')]; [done|congruence].
  - intros _. right. eauto.
  - done.
Qed.

(** C6 (as amended). The [scene_number] fields of a generated document
    are those of the parsed reply, unchecked, and no stage reads them. The
    registry is keyed by position: after a run over a document of [M]
    scenes an image is registered under exactly the keys [1..M], each at
    the path of that key, narrations only under keys in [1..M], and the
    assembler is called with the count [M]. *)
Theorem C6_scene_keys (w : World) (story_idea : string) (num_scenes : Z) (voice : string)
    (s s' : State) (r : Results) (doc : StoryData) :
  generate_storyboard w story_idea num_scenes voice s = (s', Ok r) →
  res_story r = Some doc →
  let M := Z.of_nat (length (get_scenes doc)) in
  (∃ parsed, generate_consistent_story w story_idea num_scenes = Some doc ∧
             doc = enhance_visual_prompts (str_lower w) parsed ∧
             map scene_number (get_scenes doc) = map scene_number (get_scenes parsed)) ∧
  (∀ k, StoryboardFiles.get_image (files s') k =
        if decide (1 ≤ k ≤ M) then Some (abspath w (scene_png k)) else None) ∧
  (∀ k p, StoryboardFiles.get_audio (files s') k = Some p →
          1 ≤ k ≤ M ∧ p = abspath w (narration_mp3 k)) ∧
  res_images r = map (λ k, Some (abspath w (scene_png k))) (seqZ 1 M) ∧
  length (res_audio r) = length (get_scenes doc) ∧
  (∃ s2, make_video_simple w doc M s2 = (s', Ok (res_video r))).
Proof.
  intros Hrun Hdoc M. apply generate_storyboard_stages in Hrun. simpl in Hrun.
  destruct (usable_story _) as [story_data|] eqn:Hus;
    [|destruct Hrun as [_ ->]; done].
  destruct Hrun as (s1 & s2 & images & audio & video & Hi & Ha & Hv & ->).
  simpl in Hdoc. simplify_eq. simpl.
  apply usable_story_Some in Hus as [Hgen _].
  pose proof (wp_returns _ _ _ _ _ _ (wp_generate_images w story_idea doc _) Hi)
    as (-> & Hf1 & _).
  pose proof (wp_returns _ _ _ _ _ _ (wp_generate_narrations w voice doc _) Ha)
    as (Hlen & _ & Himg2 & Haud2).
  pose proof (wp_returns _ _ _ _ _ _ (wp_make_video_simple w doc M _) Hv)
    as (Hf3 & _ & _).
  assert (Hkeys : ∀ k, k ∈ (λ item : Z * Scene, item.1 + 1) <$> enumerate (get_scenes doc)
                       ↔ 1 ≤ k ≤ M).
  { intros k. rewrite enumerate_keys, elem_of_seqZ. unfold M. lia. }
  split_and!.
  - destruct (generate_consistent_story_enhanced _ _ _ _ Hgen) as [parsed ->].
    exists parsed. split_and!; [done|done|apply enhance_keeps_scene_numbers].
  - intros k. unfold StoryboardFiles.get_image. rewrite Hf3, Himg2, Hf1.
    rewrite register_images_lookup. simpl. rewrite lookup_empty.
    destruct (decide (k ∈ _)) as [Hin|Hnin].
    + rewrite decide_True; [done|]. by apply Hkeys.
    + rewrite decide_False; [done|]. by rewrite <- Hkeys.
  - intros k p. unfold StoryboardFiles.get_audio. rewrite Hf3. intros Hk.
    destruct (Haud2 k p Hk) as [Hold|[Hin ->]].
    + rewrite Hf1, register_images_audio in Hold. simpl in Hold.
      by rewrite lookup_empty in Hold.
    + split; [by apply Hkeys|done].
  - unfold M. rewrite <- enumerate_keys.
    change (map ?f ?l) with (f <$> l). by rewrite <- list_fmap_compose.
  - rewrite Hlen. unfold enumerate. rewrite length_zip, length_seqZ. lia.
  - eauto.
Qed.

(** C6, in the studio: the robot story has two scenes, keys 1 and 2. *)
Lemma C6_witness :
  ∃ s' r,
    generate_storyboard studio "A robot discovers a magical garden" 2
      "en-US-AriaNeural" initial_state = (s', Ok r) ∧
    res_story r = Some (enhance_visual_prompts Str.ascii_lower robot_story) ∧
    res_images r = [Some "/work/scene_1.png"; Some "/work/scene_2.png"] ∧
    StoryboardFiles.get_image (files s') 2 = Some "/work/scene_2.png" ∧
    StoryboardFiles.get_image (files s') 3 = None.
Proof.
  destruct (generate_storyboard studio "A robot discovers a magical garden" 2
              "en-US-AriaNeural" initial_state) as [s' [r|]] eqn:Hrun;
    [|vm_compute in Hrun; discriminate].
  assert (res_story r = Some (enhance_visual_prompts Str.ascii_lower robot_story)) as Hdoc
    by (vm_compute in Hrun; injection Hrun as _ <-; reflexivity).
  exists s', r. split; [reflexivity|]. split; [exact Hdoc|].
  destruct (C6_scene_keys studio _ _ _ _ _ _ _ Hrun Hdoc)
    as (_ & Himg & _ & Hres & _ & _).
  split; [exact Hres|]. split; [exact (Himg 2)|exact (Himg 3)].
Defined.

(** C6 as stated fails: three scenes were asked for, the document that
    comes back has one scene, numbered 7, and its image is registered
    under key 1, its position, not under 7. *)
Lemma C6_counterexample :
  ∃ doc s' r,
    generate_consistent_story sparse_numbering "A cat gets lost in the city" 3 = Some doc ∧
    map scene_number (get_scenes doc) = [Some 7] ∧
    generate_storyboard sparse_numbering "A cat gets lost in the city" 3
      "en-US-AriaNeural" initial_state = (s', Ok r) ∧
    res_story r = Some doc ∧
    StoryboardFiles.get_image (files s') 7 = None ∧
    StoryboardFiles.get_image (files s') 1 = Some "/work/scene_1.png".
Proof. eexists _, _, _. split_and!; vm_compute; reflexivity. Qed.

(** ** Run status *)

(** C7. A run that returns has status [error], [partial] or [completed]:
    [error] exactly when [generate_consistent_story] returned no document,
    that is [None] or the empty object, which [if not story_data] reads as
    no document, and then no story is recorded; [partial] exactly when a
    story was recorded and [make_video_simple] returned no path;
    [completed] exactly when [make_video_simple] returned a path. *)
Theorem C7_run_status (w : World) (story_idea : string) (num_scenes : Z) (voice : string)
    (s s' : State) (r : Results) :
  generate_storyboard w story_idea num_scenes voice s = (s', Ok r) →
  let compiled := generate_consistent_story w story_idea num_scenes in
  res_status r ≠ processing ∧
  (res_status r = error ↔
     compiled = None ∨ ∃ d, compiled = Some d ∧ story_truthy d = false) ∧
  (res_status r = error ↔ res_story r = None) ∧
  (res_status r = partial ↔ is_Some (res_story r) ∧ res_video r = None) ∧
  (res_status r = completed ↔ is_Some (res_video r)) ∧
  (∀ d, res_story r = Some d →
        compiled = Some d ∧
        ∃ s2, make_video_simple w d (Z.of_nat (length (get_scenes d))) s2 =
                (s', Ok (res_video r))).
Proof.
  intros Hrun compiled. apply generate_storyboard_stages in Hrun. simpl in Hrun.
  fold compiled in Hrun. rewrite <- usable_story_None.
  destruct (usable_story compiled) as [story_data|] eqn:Hus.
  - destruct Hrun as (s1 & s2 & images & audio & video & _ & _ & Hv & ->).
    pose proof (wp_returns _ _ _ _ _ _ (wp_make_video_simple w story_data _ _) Hv)
      as (_ & _ & Hvideo).
    apply usable_story_Some in Hus as [Hgen _].
    assert (path_truthy video = true ↔ is_Some video) as Htruthy.
    { destruct Hvideo as [->|[-> _]]; simpl.
      - split; [done|by intros [? ?]].
      - rewrite truthy_abspath. split; eauto. }
    simpl. destruct (path_truthy video) eqn:Hp; simpl.
    + assert (is_Some video) as [p ->] by by apply Htruthy.
      split_and!; try done.
      all: try (split; [done|]; intros [_ ?]; done).
      all: try (split; eauto; done).
      intros d [= <-]. eauto.
    + assert (video = None) as ->.
      { destruct video; [|done]. destruct Htruthy as [_ Ht].
        by specialize (Ht ltac:(eauto)). }
      split_and!; try done.
      all: try (split; [done|]; intros [? ?]; done).
      all: try (split; eauto; done).
      intros d [= <-]. eauto.
  - destruct Hrun as [_ ->]. simpl. split_and!; try done.
    all: split; [done|]; intros H; by destruct H as [[? ?] ?] || destruct H as [? ?].
Qed.

(** C7, in the studio: the run completes. *)
Lemma C7_witness :
  ∃ s' r,
    generate_storyboard studio "A robot discovers a magical garden" 2
      "en-US-AriaNeural" initial_state = (s', Ok r) ∧
    res_status r = completed ∧
    is_Some (res_video r).
Proof.
  destruct (generate_storyboard studio "A robot discovers a magical garden" 2
              "en-US-AriaNeural" initial_state) as [s' [r|]] eqn:Hrun;
    [|vm_compute in Hrun; discriminate].
  exists s', r. split; [reflexivity|].
  assert (res_status r = completed) as Hst
    by (vm_compute in Hrun; injection Hrun as _ <-; reflexivity).
  split; [exact Hst|].
  destruct (C7_run_status studio _ _ _ _ _ _ Hrun) as (_ & _ & _ & _ & Hc & _).
  apply Hc, Hst.
Defined.

(** ** Seeds *)

Lemma has_char_app (c : ascii) (a b : string) :
  has_char c (a +:+ b) = has_char c a || has_char c b.
Proof.
  induction a as [|x a IH]; [done|].
  rewrite StrFacts.app_cons. simpl. by rewrite IH, orb_assoc.
Qed.

(** A word cannot start inside [x] and run past the character [q] when one
    of its characters is missing from [x] and [q] is not one of them. *)
Lemma startswith_blocked (sub x y : string) (c q : ascii) :
  has_char c sub = true → has_char c x = false → has_char q sub = false →
  Str.startswith sub (x +:+ String q y) = false.
Proof.
  revert x. induction sub as [|a sub IH]; intros x Hc Hx Hq; [done|].
  simpl in Hc, Hq. apply orb_false_iff in Hq as [Hqa Hqs].
  apply bool_decide_eq_false in Hqa.
  destruct x as [|b x].
  - simpl. by rewrite decide_False.
  - rewrite StrFacts.app_cons. simpl.
    destruct (decide (a = b)) as [->|]; [|done].
    simpl in Hx. apply orb_false_iff in Hx as [Hbc Hx].
    rewrite Hbc in Hc. simpl in Hc. by apply IH.
Qed.

Lemma contains_blocked (sub x y : string) (c q : ascii) :
  has_char c sub = true → has_char c x = false → has_char q sub = false →
  Str.contains sub (x +:+ String q y) = Str.contains sub y.
Proof.
  intros Hc Hx Hq. induction x as [|b x IH].
  - pose proof (startswith_blocked sub "" y c q Hc eq_refl Hq) as H.
    change ("" +:+ String q y) with (String q y) in *. cbn [Str.contains].
    by rewrite H.
  - pose proof (startswith_blocked sub (String b x) y c q Hc Hx Hq) as H.
    rewrite StrFacts.app_cons in *. cbn [Str.contains]. rewrite H.
    simpl in Hx. apply orb_false_iff in Hx as [_ Hx]. by rewrite IH.
Qed.

Lemma quote_cons (c : ascii) (s : string) :
  Str.quote (String c s) = Str.quote (String c "") +:+ Str.quote s.
Proof. simpl. by destruct (Str.unreserved c). Qed.

Lemma quote_char_no_equals (c : ascii) : has_char "=" (Str.quote (String c "")) = false.
Proof. destruct c as [[] [] [] [] [] [] [] []]; vm_compute; reflexivity. Qed.

(** A quoted text holds no equals sign. *)
Lemma quote_no_equals (s : string) : has_char "=" (Str.quote s) = false.
Proof.
  induction s as [|c s IH]; [done|].
  by rewrite quote_cons, has_char_app, quote_char_no_equals, IH.
Qed.

Lemma image_url_unseeded (prompt : string) :
  Str.contains "seed=" (image_url prompt None) = false.
Proof.
  unfold image_url. simpl.
  rewrite <- StrFacts.app_assoc.
  change "?width=1024&height=576&nologo=true"
    with (String "?" "width=1024&height=576&nologo=true").
  rewrite (contains_blocked "seed=" _ _ "=" "?"); [done|done| |done].
  by rewrite has_char_app, quote_no_equals.
Qed.

Lemma image_url_seeded (prompt : string) (n : Z) :
  n ≠ 0 →
  Str.contains ("&seed=" +:+ str_of_int n +:+ "&") (image_url prompt (Some n)) = true.
Proof.
  intros Hn. unfold image_url. simpl. rewrite bool_decide_eq_true_2 by done.
  change "?width=1024&height=576&seed=" with ("?width=1024&height=576" +:+ "&seed=").
  change "&nologo=true" with ("&" +:+ "nologo=true").
  rewrite <- !StrFacts.app_assoc.
  rewrite !StrFacts.app_assoc.
  do 3 apply StrFacts.contains_app_r.
  rewrite <- !StrFacts.app_assoc. rewrite (StrFacts.app_assoc "&seed=").
  rewrite !StrFacts.app_assoc.
  replace ("&seed=" +:+ str_of_int n +:+ "&" +:+ "nologo=true")
    with (("&seed=" +:+ str_of_int n +:+ "&") +:+ "nologo=true")
    by (by rewrite !StrFacts.app_assoc).
  apply StrFacts.contains_refl_app.
Qed.

(** C10. A seed of 0 is treated like no seed: the URL of [generate_image]
    for seed 0 is the URL without the seed parameter, which holds no
    "seed=" at all, while every other seed appears as "&seed=n&". So when
    the hash of the story idea is a multiple of 100000, the image loop
    requests the first scene without a seed and the scene at each later
    index [i] with seed [i]. *)
Theorem C10_zero_seed_is_absent (w : World) (story_idea : string) (story_data : StoryData)
    (s s' : State) (images : list (option string)) :
  py_hash w story_idea `mod` 100000 = 0 →
  generate_images w story_idea story_data s = (s', Ok images) →
  requests s' = requests s ++ map zero_base_url (enumerate (get_scenes story_data)) ∧
  (∀ prompt, image_url prompt (Some 0) = image_url prompt None ∧
             Str.contains "seed=" (image_url prompt (Some 0)) = false) ∧
  (∀ prompt n, n ≠ 0 →
     Str.contains ("&seed=" +:+ str_of_int n +:+ "&") (image_url prompt (Some n)) = true).
Proof.
  intros Hhash Hrun. split_and!.
  - pose proof (wp_returns _ _ _ _ _ _ (wp_generate_images w story_idea story_data s) Hrun)
      as (_ & _ & ->).
    f_equal. rewrite Hhash. apply map_ext. intros [i sc].
    unfold scene_url, zero_base_url. simpl.
    rewrite Z.add_0_l. by destruct (decide (i = 0)) as [->|Hi].
  - intros prompt. split; [done|]. apply image_url_unseeded.
  - apply image_url_seeded.
Qed.

(** C10, in the studio: the hash of the idea is a multiple of 100000; the
    first request carries no seed, the second carries seed 1. *)
Lemma C10_witness :
  py_hash studio "A robot discovers a magical garden" `mod` 100000 = 0 ∧
  ∃ s' images first second,
    generate_images studio "A robot discovers a magical garden"
      (enhance_visual_prompts Str.ascii_lower robot_story) initial_state = (s', Ok images) ∧
    requests s' = [first; second] ∧
    Str.contains "seed=" first = false ∧
    Str.endswith "&seed=1&nologo=true" second = true.
Proof.
  assert (py_hash studio "A robot discovers a magical garden" `mod` 100000 = 0) as Hhash
    by reflexivity.
  split; [exact Hhash|].
  destruct (generate_images studio "A robot discovers a magical garden"
              (enhance_visual_prompts Str.ascii_lower robot_story) initial_state)
    as [s' [images|]] eqn:Hrun; [|vm_compute in Hrun; discriminate].
  destruct (C10_zero_seed_is_absent studio _ _ _ _ _ Hhash Hrun) as (Hreq & _ & _).
  exists s', images. eexists _, _. split; [reflexivity|].
  split; [exact Hreq|]. split; vm_compute; reflexivity.
Defined.

(** * Further properties *)

(** ** The registry, insert and lookup *)

(** X1. A path stored with [add_image] is what [get_image] returns for
    that scene number, a second [add_image] overwrites it, every other
    scene number and the whole audio map are untouched; the same holds with
    images and audio exchanged. *)
Theorem X1_registry_insert_lookup (self : StoryboardFiles) (n m : Z) (p q : string) :
  StoryboardFiles.get_image (StoryboardFiles.add_image self n p) m =
    (if decide (n = m) then Some p else StoryboardFiles.get_image self m) ∧
  StoryboardFiles.get_audio (StoryboardFiles.add_audio self n p) m =
    (if decide (n = m) then Some p else StoryboardFiles.get_audio self m) ∧
  StoryboardFiles.get_image
    (StoryboardFiles.add_image (StoryboardFiles.add_image self n p) n q) n = Some q ∧
  StoryboardFiles.get_audio
    (StoryboardFiles.add_audio (StoryboardFiles.add_audio self n p) n q) n = Some q ∧
  StoryboardFiles.get_audio (StoryboardFiles.add_image self n p) m =
    StoryboardFiles.get_audio self m ∧
  StoryboardFiles.get_image (StoryboardFiles.add_audio self n p) m =
    StoryboardFiles.get_image self m.
Proof.
  unfold StoryboardFiles.get_image, StoryboardFiles.get_audio,
    StoryboardFiles.add_image, StoryboardFiles.add_audio. simpl.
  split_and!; try done.
  - apply lookup_insert.
  - apply lookup_insert.
  - apply lookup_insert_eq.
  - apply lookup_insert_eq.
Qed.

(** ** The "Clean JSON" step *)

Lemma str_app_empty_r (a : string) : a +:+ "" = a.
Proof. induction a as [|c a IH]; [done|]. by rewrite StrFacts.app_cons, IH. Qed.

Lemma str_rev_cons (c : ascii) (a : string) :
  String.rev (String c a) = String.rev a +:+ String c "".
Proof. change (String c a) with (String c "" +:+ a). apply StrFacts.rev_append. Qed.

Lemma split_go_first (sep cur s : string) :
  Str.split_go sep 0 cur s !! 0%nat = Some (String.rev cur +:+ str_before sep s).
Proof.
  revert cur. induction s as [|c s IH]; intros cur.
  - simpl. by rewrite str_app_empty_r.
  - cbn [Str.split_go str_before]. destruct (Str.startswith sep (String c s)).
    + simpl. by rewrite str_app_empty_r.
    + rewrite IH, str_rev_cons, StrFacts.app_assoc. done.
Qed.

Lemma split_go_skip (sep cur s : string) (k : nat) :
  Str.split_go sep k cur s = Str.split_go sep 0 cur (str_drop k s).
Proof.
  revert k. induction s as [|c s IH]; intros k; [by destruct k|].
  destruct k as [|k]; [done|]. simpl. apply IH.
Qed.

Lemma split_go_second (sep cur s : string) :
  sep ≠ "" →
  Str.split_go sep 0 cur s !! 1%nat = str_before sep <$> str_after sep s.
Proof.
  intros Hsep. revert cur. induction s as [|c s IH]; intros cur; [done|].
  cbn [Str.split_go str_after]. destruct (Str.startswith sep (String c s)).
  - simpl. rewrite split_go_skip, split_go_first. simpl.
    destruct sep as [|a sep]; [done|]. simpl. by rewrite Nat.sub_0_r.
  - apply IH.
Qed.

Lemma contains_str_after (sep s : string) :
  sep ≠ "" → Str.contains sep s = true → is_Some (str_after sep s).
Proof.
  intros Hsep. induction s as [|c s IH]; intros H.
  - destruct sep; done.
  - cbn [Str.contains] in H. cbn [str_after].
    destruct (Str.startswith sep (String c s)); [eauto|]. by apply IH.
Qed.

Lemma str_before_prefix (sep s : string) : ∃ rest, s = str_before sep s +:+ rest.
Proof.
  induction s as [|c s [rest IH]]; [by exists ""|].
  cbn [str_before]. destruct (Str.startswith sep (String c s)).
  - by exists (String c s).
  - exists rest. by rewrite StrFacts.app_cons, <- IH.
Qed.

Lemma startswith_str_before (sep s : string) :
  sep ≠ "" → Str.startswith sep (str_before sep s) = false.
Proof.
  intros Hsep. destruct s as [|c s]; [by destruct sep|].
  cbn [str_before]. destruct (Str.startswith sep (String c s)) eqn:Hs; [by destruct sep|].
  destruct (Str.startswith sep (String c (str_before sep s))) eqn:Hb; [|done].
  destruct (str_before_prefix sep s) as [rest Hrest].
  apply (StrFacts.startswith_app_l _ _ rest) in Hb.
  rewrite StrFacts.app_cons, <- Hrest in Hb. congruence.
Qed.

(** The first part of a split holds no separator. *)
Lemma contains_str_before (sep s : string) :
  sep ≠ "" → Str.contains sep (str_before sep s) = false.
Proof.
  intros Hsep. induction s as [|c s IH]; [by destruct sep|].
  pose proof (startswith_str_before sep (String c s) Hsep) as Hs.
  cbn [str_before] in *. destruct (Str.startswith sep (String c s)); [by destruct sep|].
  cbn [Str.contains]. by rewrite Hs, IH.
Qed.

Lemma startswith_prefix_of (p q s : string) :
  Str.startswith (p +:+ q) s = true → Str.startswith p s = true.
Proof.
  revert s. induction p as [|a p IH]; intros s H; [by destruct s|].
  rewrite StrFacts.app_cons in H. destruct s as [|b s]; [done|]. simpl in *.
  destruct (decide (a = b)); [auto|done].
Qed.

Lemma contains_prefix_of (p q s : string) :
  Str.contains (p +:+ q) s = true → Str.contains p s = true.
Proof.
  induction s as [|c s IH]; cbn [Str.contains]; intros H.
  - rewrite orb_false_r in *. by apply startswith_prefix_of in H as ->.
  - apply orb_true_iff in H as [H|H].
    + by apply startswith_prefix_of in H as ->.
    + rewrite (IH H). apply orb_true_r.
Qed.

(** X2. The clean-up of the reply never fails: whenever a fence is found
    the indexes [1] and [0] into the split parts exist. The text it hands
    to the parser holds no fence delimiter. *)
Theorem X2_clean_json_total_and_fence_free (response_text : string) :
  ∃ cleaned,
    clean_json response_text = Some cleaned ∧
    Str.contains "```" cleaned = false.
Proof.
  unfold clean_json, Str.split.
  destruct (Str.contains "```json" response_text) eqn:Hj.
  - rewrite split_go_second by done.
    destruct (contains_str_after "```json" response_text ltac:(done) Hj) as [rest ->].
    simpl. rewrite split_go_first. eexists. split; [reflexivity|].
    change (String.rev "" +:+ ?x) with x. by apply contains_str_before.
  - destruct (Str.contains "```" response_text) eqn:Hf; [|eauto].
    rewrite split_go_second by done.
    destruct (contains_str_after "```" response_text ltac:(done) Hf) as [rest ->].
    simpl. rewrite split_go_first. eexists. split; [reflexivity|].
    change (String.rev "" +:+ ?x) with x. by apply contains_str_before.
Qed.

(** X3. A reply without any fence goes to the parser unchanged. *)
Theorem X3_clean_json_plain (response_text : string) :
  Str.contains "```" response_text = false →
  clean_json response_text = Some response_text.
Proof.
  intros Hf. unfold clean_json. rewrite Hf.
  destruct (Str.contains "```json" response_text) eqn:Hj; [|done].
  change "```json" with ("```" +:+ "json") in Hj.
  apply contains_prefix_of in Hj. congruence.
Qed.

(** X3, on a bare JSON object. *)
Lemma X3_witness :
  Str.contains "```" robot_story_json = false ∧
  clean_json robot_story_json = Some robot_story_json.
Proof.
  assert (Str.contains "```" robot_story_json = false) as H by (vm_compute; reflexivity).
  split; [exact H|]. exact (X3_clean_json_plain robot_story_json H).
Defined.

Lemma str_before_skip (q : ascii) (sep x y : string) :
  has_char q x = false →
  str_before (String q sep) (x +:+ y) = x +:+ str_before (String q sep) y.
Proof.
  intros Hx. induction x as [|c x IH]; [done|].
  simpl in Hx. apply orb_false_iff in Hx as [Hc Hx]. apply bool_decide_eq_false in Hc.
  rewrite !StrFacts.app_cons. cbn [str_before Str.startswith].
  rewrite decide_False by done. by rewrite IH.
Qed.

Lemma str_after_skip (q : ascii) (sep x y : string) :
  has_char q x = false →
  str_after (String q sep) (x +:+ y) = str_after (String q sep) y.
Proof.
  intros Hx. induction x as [|c x IH]; [done|].
  simpl in Hx. apply orb_false_iff in Hx as [Hc Hx]. apply bool_decide_eq_false in Hc.
  rewrite !StrFacts.app_cons. cbn [str_after Str.startswith].
  rewrite decide_False by done. by apply IH.
Qed.

Lemma str_drop_app (a b : string) : str_drop (String.length a) (a +:+ b) = b.
Proof. induction a as [|c a IH]; [by destruct b|]. rewrite StrFacts.app_cons. apply IH. Qed.

Lemma str_after_here (sep rest : string) :
  sep ≠ "" → str_after sep (sep +:+ rest) = Some rest.
Proof.
  intros Hsep. pose proof (StrFacts.startswith_refl_app sep rest) as Hs.
  pose proof (str_drop_app sep rest) as Hd.
  destruct (sep +:+ rest) as [|c s] eqn:E; [by destruct sep|].
  cbn [str_after]. by rewrite Hs, Hd.
Qed.

Lemma str_before_here (sep rest : string) :
  sep ≠ "" → str_before sep (sep +:+ rest) = "".
Proof.
  intros Hsep. pose proof (StrFacts.startswith_refl_app sep rest) as Hs.
  destruct (sep +:+ rest) as [|c s] eqn:E; [done|].
  cbn [str_before]. by rewrite Hs.
Qed.

(** What is left of "```" followed by [post] when it is cut at the first
    "```json": nothing, or a text that starts with the three backticks. *)
Lemma fence_tail (post : string) :
  has_char "`" post = false →
  str_before "```" (str_before "```json" ("```" +:+ post)) = "".
Proof.
  intros Hpost. destruct post as [|c post]; [vm_compute; reflexivity|].
  simpl in Hpost. apply orb_false_iff in Hpost as [Hc _].
  apply bool_decide_eq_false in Hc.
  change ("```" +:+ String c post)
    with (String "`" (String "`" (String "`" (String c post)))).
  cbn [str_before]. destruct (Str.startswith "```json" _); [done|].
  assert (Str.startswith "```json" (String "`" (String "`" (String c post))) = false) as ->.
  { simpl. by rewrite decide_False. }
  assert (Str.startswith "```json" (String "`" (String c post)) = false) as ->.
  { simpl. by rewrite decide_False. }
  done.
Qed.

(** X4. A reply that wraps the document in a "```json" fence, with no
    other backtick before, inside or after it, is cut down to exactly the
    text between the fences. *)
Theorem X4_clean_json_fenced (pre body post : string) :
  has_char "`" pre = false →
  has_char "`" body = false →
  has_char "`" post = false →
  clean_json (pre +:+ "```json" +:+ body +:+ "```" +:+ post) = Some body.
Proof.
  intros Hpre Hbody Hpost. unfold clean_json, Str.split.
  rewrite StrFacts.contains_app_r by apply StrFacts.contains_refl_app.
  rewrite split_go_second by done.
  rewrite (str_after_skip "`" "``json") by done.
  rewrite str_after_here by done. simpl.
  rewrite split_go_first. change (String.rev "" +:+ ?x) with x.
  rewrite (str_before_skip "`" "``json") by done.
  rewrite (str_before_skip "`" "``") by done.
  by rewrite fence_tail, str_app_empty_r.
Qed.

(** X4, on the reply of the studio. *)
Lemma X4_witness :
  clean_json ("Here it is: " +:+ "```json" +:+ (newline +:+ robot_story_json +:+ newline)
              +:+ "```" +:+ " Enjoy!")
  = Some (newline +:+ robot_story_json +:+ newline).
Proof.
  exact (X4_clean_json_fenced "Here it is: " (newline +:+ robot_story_json +:+ newline)
           " Enjoy!" eq_refl ltac:(vm_compute; reflexivity) eq_refl).
Defined.

(** ** What the enhancement pass keeps *)

(** X5. The enhancement pass rewrites [visual_prompt] and
    [style_reference] only: title, visual bible, the other keys and the
    truthiness of the document are as parsed, the scenes keep their number
    and order, and each scene keeps its [scene_number], [description],
    [narration], [camera_angle] and [mood]. *)
Theorem X5_enhance_keeps_the_rest (lower : string → string) (story_data : StoryData) :
  title (enhance_visual_prompts lower story_data) = title story_data ∧
  visual_bible (enhance_visual_prompts lower story_data) = visual_bible story_data ∧
  extra_keys (enhance_visual_prompts lower story_data) = extra_keys story_data ∧
  story_truthy (enhance_visual_prompts lower story_data) = story_truthy story_data ∧
  Forall2 (λ scene scene',
             scene_number scene' = scene_number scene ∧
             description scene' = description scene ∧
             narration scene' = narration scene ∧
             camera_angle scene' = camera_angle scene ∧
             mood scene' = mood scene)
          (get_scenes story_data) (get_scenes (enhance_visual_prompts lower story_data)).
Proof.
  split_and!; try done.
  - unfold story_truthy, enhance_visual_prompts. simpl.
    by destruct (scenes story_data).
  - rewrite enhance_visual_prompts_scenes.
    induction (get_scenes story_data) as [|sc l IH]; simpl; constructor; done.
Qed.

(** X6. Let [str.lower] lower a text part by part around a comma followed
    by a blank. Then the new prompt of a scene still holds the original
    prompt, and a second pass over an enhanced scene appends the style
    suffix again but does not put the main character in front a second
    time. *)
Theorem X6_enhance_twice (lower : string → string) (visual_bible : VisualBible)
    (scene : Scene) :
  lower_law lower →
  ∃ prompt,
    visual_prompt (enhance_scene lower visual_bible scene) = Some prompt ∧
    Str.contains (default "" (visual_prompt scene)) prompt = true ∧
    visual_prompt
      (enhance_scene lower visual_bible (enhance_scene lower visual_bible scene)) =
      Some (prompt +:+ ", " +:+ consistency_prefix visual_bible
              +:+ ", consistent character design").
Proof.
  intros Hlaw.
  destruct (enhance_scene_consistent lower visual_bible scene Hlaw)
    as (prompt & Hp & Hmc & _ & _).
  destruct (enhance_scene_keeps_prompt lower visual_bible scene) as (prompt' & Hp' & Hk).
  assert (prompt' = prompt) as -> by congruence.
  exists prompt. split; [done|]. split; [done|].
  unfold enhance_scene at 1. cbn [visual_prompt]. rewrite Hp. simpl.
  rewrite Hmc. simpl. by rewrite andb_false_r.
Qed.

(** X6, on the garden scene of the robot story, whose prompt does not name
    the robot. *)
Lemma X6_witness :
  lower_law Str.ascii_lower ∧
  ∃ prompt,
    Str.startswith "A small Robot, a garden of flowers, " prompt = true ∧
    visual_prompt
      (enhance_scene Str.ascii_lower (get_visual_bible robot_story)
         (enhance_scene Str.ascii_lower (get_visual_bible robot_story)
            (mkScene (Some 2) (Some "The garden") (Some "a garden of flowers")
               None None None None))) =
      Some (prompt +:+ ", " +:+ consistency_prefix (get_visual_bible robot_story)
              +:+ ", consistent character design").
Proof.
  split; [exact ascii_lower_law|].
  destruct (X6_enhance_twice Str.ascii_lower (get_visual_bible robot_story)
              (mkScene (Some 2) (Some "The garden") (Some "a garden of flowers")
                 None None None None) ascii_lower_law) as (prompt & H1 & _ & H2).
  exists prompt. split; [|exact H2].
  vm_compute in H1. injection H1 as <-. vm_compute. reflexivity.
Defined.

(** ** The request URL *)

Lemma all_chars_app (P : ascii → bool) (a b : string) :
  all_chars P (a +:+ b) = all_chars P a && all_chars P b.
Proof.
  induction a as [|c a IH]; [done|].
  rewrite StrFacts.app_cons. simpl. by rewrite IH, andb_assoc.
Qed.

Lemma all_chars_has_char (P : ascii → bool) (c : ascii) (s : string) :
  all_chars P s = true → P c = false → has_char c s = false.
Proof.
  intros Hs Hc. induction s as [|a s IH]; [done|].
  simpl in *. apply andb_true_iff in Hs as [Ha Hs].
  rewrite IH by done. rewrite orb_false_r. apply bool_decide_eq_false.
  intros ->. congruence.
Qed.

Lemma quote_char_url_safe (c : ascii) :
  all_chars url_safe_char (Str.quote (String c "")) = true.
Proof. destruct c as [[] [] [] [] [] [] [] []]; vm_compute; reflexivity. Qed.

Lemma quote_url_safe (s : string) : all_chars url_safe_char (Str.quote s) = true.
Proof.
  induction s as [|c s IH]; [done|].
  by rewrite quote_cons, all_chars_app, quote_char_url_safe, IH.
Qed.

(** X7. Whatever the prompt holds, it cannot reach into the query string:
    the URL is the fixed prefix, a path made of unreserved characters and
    percent escapes only (so without [?], [&], [=], [#] or a space), and one
    of the two fixed query strings. *)
Theorem X7_image_url_shape (prompt : string) (seed : option Z) :
  ∃ path,
    image_url prompt seed =
      "https://image.pollinations.ai/prompt/" +:+ path +:+ image_query seed ∧
    path = Str.quote (prompt +:+ ", " +:+ consistency_keywords) ∧
    all_chars url_safe_char path = true ∧
    has_char "?" path = false ∧ has_char "&" path = false ∧
    has_char "=" path = false ∧ has_char "#" path = false ∧
    has_char " " path = false.
Proof.
  eexists. split_and!; [|reflexivity|apply quote_url_safe|..].
  - unfold image_url, image_query. by destruct (seed_truthy seed).
  - by apply (all_chars_has_char url_safe_char); [apply quote_url_safe|].
  - by apply (all_chars_has_char url_safe_char); [apply quote_url_safe|].
  - by apply (all_chars_has_char url_safe_char); [apply quote_url_safe|].
  - by apply (all_chars_has_char url_safe_char); [apply quote_url_safe|].
  - by apply (all_chars_has_char url_safe_char); [apply quote_url_safe|].
Qed.

Lemma str_rev_involutive (s : string) : String.rev (String.rev s) = s.
Proof.
  induction s as [|c s IH]; [done|].
  rewrite str_rev_cons, StrFacts.rev_append, IH. done.
Qed.

Lemma str_app_inj_r (a b c : string) : a +:+ c = b +:+ c → a = b.
Proof.
  intros H. apply (f_equal String.rev) in H. rewrite !StrFacts.rev_append in H.
  apply (inj (String.app _)) in H. apply (f_equal String.rev) in H.
  by rewrite !str_rev_involutive in H.
Qed.

(** X8. For one prompt, two seeds give the same request URL only when
    they are the same seed, a seed of 0 counting as no seed. *)
Theorem X8_image_url_seed_injective (prompt : string) (seed1 seed2 : option Z) :
  image_url prompt seed1 = image_url prompt seed2 →
  (seed_truthy seed1 = false ∧ seed_truthy seed2 = false) ∨
  (seed_truthy seed1 = true ∧ seed1 = seed2).
Proof.
  unfold image_url. intros H.
  destruct (seed_truthy seed1) eqn:H1, (seed_truthy seed2) eqn:H2; [|exfalso..|by left].
  - right. split; [done|].
    destruct seed1 as [a|], seed2 as [b|]; try done. simpl in H.
    do 2 apply (inj (String.app _)) in H.
    change "?width=1024&height=576&seed=" with ("?width=1024&height=576&seed=" +:+ "") in H.
    rewrite !StrFacts.app_assoc in H. apply (inj (String.app _)) in H.
    rewrite !StrFacts.app_empty_l in H. apply str_app_inj_r in H. unfold str_of_int in H. apply (inj pretty) in H. by subst.
  - do 2 apply (inj (String.app _)) in H. simpl in H. discriminate.
  - do 2 apply (inj (String.app _)) in H. simpl in H. discriminate.
Qed.

(** X8, at seeds 5 and 5. *)
Lemma X8_witness :
  seed_truthy (Some 5) = true ∧ Some 5 = Some 5 :> option Z.
Proof.
  destruct (X8_image_url_seed_injective "a cat" (Some 5) (Some 5) eq_refl)
    as [[H _]|H]; [discriminate H|exact H].
Defined.

(** ** One call of the image generator *)

(** X9. A prompt that [urllib.parse.quote] refuses makes [generate_image]
    raise at once, before any request and with nothing changed. For any
    other prompt, whether the call returns or raises, it issues exactly one
    request. In every case it leaves the narrations and the images of the
    other scenes as they were, and registers nothing when it raises. *)
Theorem X9_generate_image_frame (w : World) (prompt : string) (n : Z) (style : string)
    (seed : option Z) (s : State) :
  match generate_image w prompt n style seed s with
  | (s', r) =>
      (if quotable prompt
       then requests s' = requests s ++ [image_url prompt seed]
       else s' = s ∧ r = Raise) ∧
      files_audio (files s') = files_audio (files s) ∧
      (∀ m, m ≠ n → StoryboardFiles.get_image (files s') m =
                    StoryboardFiles.get_image (files s) m) ∧
      (r = Raise → files s' = files s)
  end.
Proof.
  rewrite generate_image_run. cbv zeta.
  destruct (quotable prompt); [|done].
  assert (∀ m, m ≠ n →
            StoryboardFiles.get_image
              (StoryboardFiles.add_image (files s) n (abspath w (scene_png n))) m =
            StoryboardFiles.get_image (files s) m) as Hother.
  { intros m Hm. unfold StoryboardFiles.get_image, StoryboardFiles.add_image. simpl.
    by apply lookup_insert_ne. }
  destruct (download_succeeds w prompt n seed s); [done|].
  destruct (placeholder_outcome w prompt n seed s) as [d []]; done.
Qed.

(** A prompt with a lone surrogate: the call raises with nothing done. *)
Example surrogate_prompt_raises :
  generate_image studio surrogate_prompt 1 "" (Some 7) initial_state =
    (initial_state, Raise).
Proof. vm_compute. reflexivity. Qed.

(** X10. When the download path goes through (the prompt is quoted, the
    answer is 200, the body decodes, the labelled image is saved and
    found), [generate_image] returns without ever writing a placeholder:
    the disk is what saving the labelled image left, and the scene's path
    is registered once. *)
Theorem X10_download_kept (w : World) (prompt : string) (n : Z) (style : string)
    (seed : option Z) (s : State) :
  download_succeeds w prompt n seed s = true →
  ∃ code content d,
    requests_get w (requests s) (image_url prompt seed) = Some (code, content) ∧
    pil_save w (Labelled content ("Scene " +:+ str_of_int n))
      (abspath w (scene_png n)) (disk s) = (d, true) ∧
    generate_image w prompt n style seed s =
      (mkState (StoryboardFiles.add_image (files s) n (abspath w (scene_png n))) d
         (requests s ++ [image_url prompt seed]),
       Ok (abspath w (scene_png n))).
Proof.
  intros H. pose proof H as H0. unfold download_succeeds in H.
  apply andb_true_iff in H as [Hq H].
  destruct (requests_get w (requests s) (image_url prompt seed))
    as [[code content]|] eqn:Hget; [|done].
  destruct (pil_save w (Labelled content _) _ (disk s)) as [d returned] eqn:Hsave.
  apply andb_true_iff in H as [H Hfound]. apply andb_true_iff in H as [Hcode Hopen].
  apply andb_true_iff in Hfound as [-> Hfound].
  exists code, content, d. split_and!; [done..|].
  rewrite generate_image_run, Hq, H0. cbv zeta.
  unfold download_disk. by rewrite Hget, Hcode, Hopen, Hsave.
Qed.

(** X10, in the studio. *)
Lemma X10_witness :
  download_succeeds studio "a small robot wakes up" 1 (Some 7) initial_state = true ∧
  (generate_image studio "a small robot wakes up" 1 "" (Some 7) initial_state).2 =
    Ok "/work/scene_1.png".
Proof.
  assert (download_succeeds studio "a small robot wakes up" 1 (Some 7) initial_state = true)
    as H by (vm_compute; reflexivity).
  split; [exact H|].
  destruct (X10_download_kept studio "a small robot wakes up" 1 "" (Some 7) initial_state H)
    as (code & content & d & _ & _ & ->).
  reflexivity.
Defined.

(** ** The text of the placeholder *)





(** ** The narration loop *)

(** X12. The narration loop never raises and returns one entry per scene,
    in order: [None] for a scene without narration, for which the speech
    service is not called, and otherwise [None] or the narration file named
    after the scene's position. When no scene has a narration, nothing at
    all is changed. *)
Theorem X12_narration_loop (w : World) (voice : string) (story_data : StoryData)
    (s : State) :
  ∃ s' audio,
    generate_narrations w voice story_data s = (s', Ok audio) ∧
    Forall2 (narration_entry w) (enumerate (get_scenes story_data)) audio ∧
    (Forall silent_scene (get_scenes story_data) → s' = s).
Proof.
  assert (wp (generate_narrations w voice story_data)
            (λ audio s',
               Forall2 (narration_entry w) (enumerate (get_scenes story_data)) audio ∧
               (Forall (λ item : Z * Scene, silent_scene item.2)
                  (enumerate (get_scenes story_data)) → s' = s))
            (λ _, False) s) as H.
  { unfold generate_narrations.
    apply (wp_for_each
             (λ seen audio s',
                Forall2 (narration_entry w) seen audio ∧
                (Forall (λ item : Z * Scene, silent_scene item.2) seen → s' = s)));
      [by split; [constructor|]|].
    intros seen [i scene] audio s1 [HF Hs]. cbn [fst snd].
    destruct (Str.truthy (default "" (narration scene))) eqn:Ht.
    - wp_step. eapply wp_mono; [apply wp_generate_audio| |done].
      intros r s2 [_ Hout]. wp_step. split.
      + apply Forall2_app; [done|]. constructor; [|constructor]. split.
        * unfold silent_scene. simpl. congruence.
        * intros p ->. simpl. by destruct Hout as (-> & _).
      + intros [_ Hx]%Forall_app. inversion Hx as [|? ? Hsil _]; subst.
        unfold silent_scene in Hsil. simpl in Hsil. congruence.
    - wp_step. split.
      + apply Forall2_app; [done|]. constructor; [|constructor]. by split.
      + intros [Hseen _]%Forall_app. auto. }
  destruct (wp_total _ _ _ H) as (s' & audio & Hrun & HF & Hs).
  exists s', audio. split_and!; [done..|].
  intros Hsilent. apply Hs. apply Forall_forall. intros [i scene] Hin.
  unfold enumerate in Hin. apply elem_of_zip_r in Hin.
  by apply (proj1 (Forall_forall _ _) Hsilent).
Qed.

(** ** The clip list and the assembler *)

Lemma usable_path_Some (w : World) (s : State) (path : option string) (p : string) :
  usable_path w s path = Some p →
  path = Some p ∧ is_Some (disk s !! abspath w p).
Proof.
  unfold usable_path. destruct path as [q|]; [|done].
  destruct (Str.truthy q); simpl; [|done].
  destruct (bool_decide _) eqn:Hd; [|done].
  intros [= ->]. by apply bool_decide_eq_true in Hd.
Qed.

Lemma expected_scene_clip_from_registry (w : World) (s : State) (n : Z) (c : Clip) :
  expected_scene_clip w s n = Some c → clip_from_registry w s n c.
Proof.
  unfold expected_scene_clip, clip_from_registry.
  destruct (usable_path w s (StoryboardFiles.get_image _ _)) as [img|] eqn:Hi; [|done].
  apply usable_path_Some in Hi as [Hi Himg].
  destruct (ImageClip_ok w _ _); [|done].
  destruct (usable_path w s (StoryboardFiles.get_audio _ _)) as [aud|] eqn:Ha.
  - apply usable_path_Some in Ha as [Ha Haud].
    destruct (AudioFileClip w _ _); intros [= <-]; simpl; split_and!; eauto.
    + intros a Hset. destruct (set_audio_ok w img aud); by simplify_eq.
    + done.
  - intros [= <-]; simpl; split_and!; eauto. done.
Qed.

(** X13. A scene adds at most one clip, behind the clips already there,
    and never raises or changes the state. The clip shows the image
    registered for that scene number, which is on disk, has a duration, and
    carries no other narration than the one registered for the scene. *)
Theorem X13_add_scene_from_registry (w : World) (all_clips : list Clip) (scene_num : Z)
    (s : State) :
  ∃ added,
    add_scene w all_clips scene_num s = (s, Ok (all_clips ++ added)) ∧
    (added = [] ∨ ∃ c, added = [c] ∧ clip_from_registry w s scene_num c).
Proof.
  destruct (wp_total _ _ _ (wp_add_scene w all_clips scene_num s))
    as (s' & clips & Hrun & -> & ->).
  exists (option_list (expected_scene_clip w s scene_num)). split; [done|].
  destruct (expected_scene_clip w s scene_num) as [c|] eqn:Hc; [|by left].
  right. exists c. split; [done|]. by apply expected_scene_clip_from_registry.
Qed.

Lemma expected_scene_clips_length (w : World) (s : State) (num_scenes : Z) :
  (length (expected_scene_clips w s num_scenes) ≤ Z.to_nat num_scenes)%nat.
Proof.
  unfold expected_scene_clips. rewrite <- (length_seqZ 1 num_scenes).
  induction (seqZ 1 num_scenes) as [|k l IH]; simpl; [done|].
  rewrite length_app. destruct (expected_scene_clip w s k); simpl; lia.
Qed.

Lemma expected_scene_clips_duration (w : World) (s : State) (num_scenes : Z) :
  Forall (λ c, is_Some (clip_duration c)) (expected_scene_clips w s num_scenes).
Proof.
  unfold expected_scene_clips.
  induction (seqZ 1 num_scenes) as [|k l IH]; simpl; [done|].
  apply Forall_app. split; [|done].
  destruct (expected_scene_clip w s k) as [c|] eqn:Hc; simpl; [|done].
  constructor; [|done]. by apply expected_scene_clip_from_registry in Hc as (_ & _ & ? & _).
Qed.

Lemma collect_clips_raises (w : World) (story_data : StoryData) (num_scenes : Z)
    (s s' : State) :
  collect_clips w story_data num_scenes s = (s', Raise) →
  files s' = files s ∧ requests s' = requests s ∧ cards_made w story_data s = false ∧
  (title_lines story_data = None → s' = s).
Proof.
  unfold collect_clips, create_simple_image, cards_made, title_lines, end_lines.
  destruct (sliced_title story_data) as [title|]; cbn [fmap option_fmap option_map];
    [|by intros [= <-]].
  unfold bind at 1. unfold bind at 1. unfold img_save at 1.
  destruct (pil_save w (CardPic _) (abspath w "title_card.png") (disk s))
    as [d1 saved1] eqn:H1.
  destruct saved1; [|intros [= <-]; done].
  unfold ret at 1. unfold bind at 1.
  set (s1 := mkState (files s) d1 (requests s)).
  destruct (try_except _ _ s1) as [s2 [clips1|]] eqn:Ht; cycle 1.
  { unfold try_except, bind, image_clip, ret in Ht.
    destruct (ImageClip_ok w _ _); simplify_eq. }
  assert (s2 = s1) as ->.
  { unfold try_except, bind, image_clip, ret in Ht.
    destruct (ImageClip_ok w _ _); by simplify_eq. }
  unfold bind at 1.
  pose proof (wp_scene_loop w clips1 num_scenes s1) as Hloop. unfold wp in Hloop.
  destruct (for_each (seqZ 1 num_scenes) (add_scene w) clips1 s1) as [s3 [clips2|]];
    [|done].
  destruct Hloop as [-> _].
  unfold bind at 1. unfold bind at 1. unfold img_save at 1. cbn [disk files requests s1].
  destruct (pil_save w (CardPic _) (abspath w "end_card.png") d1) as [d2 saved2] eqn:H2.
  destruct saved2; [|intros [= <-]; done].
  unfold ret at 1. unfold try_except, bind, image_clip, ret.
  destruct (ImageClip_ok w _ _); discriminate.
Qed.

(** X14. [make_video_simple] never touches the registry and issues no
    request. It raises exactly when no card can be made: the title is
    neither a string nor an array, so that slicing it raises before
    anything is done, or drawing and saving the title card or the end card
    raises; every other failure ends in [None]. When it returns a path,
    that path is the absolute path of the exported file and the file is on
    disk. *)
Theorem X14_make_video_simple_outcome (w : World) (story_data : StoryData)
    (num_scenes : Z) (s : State) :
  match make_video_simple w story_data num_scenes s with
  | (s', r) =>
      files s' = files s ∧ requests s' = requests s ∧
      match r with
      | Raise =>
          cards_made w story_data s = false ∧
          (sliced_title story_data = None → s' = s)
      | Ok video =>
          cards_made w story_data s = true ∧
          is_Some (sliced_title story_data) ∧
          (video = None ∨
           video = Some (abspath w output_path) ∧
           is_Some (disk s' !! abspath w output_path))
      end
  end.
Proof.
  unfold make_video_simple, bind.
  pose proof (wp_collect_clips_structure w story_data num_scenes s) as Hc.
  unfold wp in Hc.
  destruct (collect_clips w story_data num_scenes s) as [s1 [clips|]] eqn:Hrun.
  - destruct Hc as (lines & d1 & d2 & Hlines & H1 & H2 & -> & _).
    pose proof (wp_combine_and_export w clips
                  (mkState (files s) d2 (requests s))) as He.
    unfold wp, assembly_outcome in He.
    destruct (combine_and_export w clips _) as [s2 [video|]]; [|done].
    destruct He as (-> & -> & Hv). split_and!; [done..| | |done].
    + unfold cards_made. by rewrite Hlines, H1, H2.
    + unfold title_lines in Hlines. by destruct (sliced_title story_data).
  - apply collect_clips_raises in Hrun as (? & ? & ? & Hnone).
    split_and!; [done..|]. intros Hs. apply Hnone. unfold title_lines. by rewrite Hs.
Qed.

(** A null title stops the assembler before anything is written, and with
    it the whole run, although every save would succeed. *)
Example null_title_raises :
  make_video_simple studio untitled_story 0 initial_state = (initial_state, Raise) ∧
  (generate_storyboard null_title "A robot discovers a magical garden" 2
     "en-US-AriaNeural" initial_state).2 = Raise.
Proof. split; vm_compute; reflexivity. Qed.

(** X15. The clip list is made of the title clip (if its card loads), at
    most [num_scenes] scene clips, and the end clip (if its card loads), in
    that order; every clip has a duration, and the two card clips last
    three seconds without audio. *)
Theorem X15_clip_list_shape (w : World) (story_data : StoryData) (num_scenes : Z)
    (s s' : State) (clips : list Clip) :
  collect_clips w story_data num_scenes s = (s', Ok clips) →
  ∃ title_part scene_part end_part,
    clips = title_part ++ scene_part ++ end_part ∧
    (title_part = [] ∨ title_part = [title_card_clip]) ∧
    (end_part = [] ∨ end_part = [end_card_clip]) ∧
    (length scene_part ≤ Z.to_nat num_scenes)%nat ∧
    (length clips ≤ Z.to_nat num_scenes + 2)%nat ∧
    Forall (λ c, is_Some (clip_duration c)) clips.
Proof.
  intros Hrun.
  pose proof (wp_returns _ _ _ _ _ _
                (wp_collect_clips_structure w story_data num_scenes s) Hrun)
    as (lines & d1 & d2 & _ & _ & _ & _ & ->).
  eexists _, _, _. split; [reflexivity|].
  pose proof (expected_scene_clips_length w (mkState (files s) d1 (requests s)) num_scenes).
  pose proof (expected_scene_clips_duration w (mkState (files s) d1 (requests s))
                num_scenes).
  assert (∀ d img, Forall (λ c, is_Some (clip_duration c)) (card_clip w d img)) as Hcard.
  { intros d img. unfold card_clip.
    destruct (ImageClip_ok w _ d); repeat constructor; simpl; eauto. }
  assert (∀ d img, (length (card_clip w d img) ≤ 1)%nat) as Hlen.
  { intros d img. unfold card_clip. destruct (ImageClip_ok w _ d); simpl; lia. }
  split_and!.
  - unfold card_clip, title_card_clip. destruct (ImageClip_ok w _ d1); auto.
  - unfold card_clip, end_card_clip. destruct (ImageClip_ok w _ d2); auto.
  - done.
  - rewrite !length_app.
    pose proof (Hlen d1 "title_card.png"). pose proof (Hlen d2 "end_card.png"). lia.
  - repeat apply Forall_app_2; auto.
Qed.

(** X15, in the studio with the image of scene 1. *)
Lemma X15_witness :
  ∃ s' clips,
    collect_clips studio robot_story 1 one_image_state = (s', Ok clips) ∧
    (length clips ≤ 3)%nat.
Proof.
  destruct (collect_clips studio robot_story 1 one_image_state) as [s' [clips|]] eqn:Hrun;
    [|vm_compute in Hrun; discriminate].
  exists s', clips. split; [reflexivity|].
  destruct (X15_clip_list_shape studio robot_story 1 one_image_state s' clips Hrun)
    as (_ & _ & _ & _ & _ & _ & _ & Hlen & _).
  exact Hlen.
Defined.

(** ** Whole runs *)

(** X16. When the story generator hands back nothing usable, the run stops
    at once: the registry has been reset, the disk and the request log are
    as before, and the result is the error record with no story, no
    images, no audio and no video. *)
Theorem X16_error_run (w : World) (story_idea : string) (num_scenes : Z) (voice : string)
    (s : State) :
  usable_story (generate_consistent_story w story_idea num_scenes) = None →
  generate_storyboard w story_idea num_scenes voice s =
    (mkState StoryboardFiles.init (disk s) (requests s),
     Ok (mkResults error None [] [] None (Some "Failed to generate story"))).
Proof.
  intros H. unfold generate_storyboard. unfold bind at 1. unfold files_reset.
  by rewrite H.
Qed.

(** X16, when the text service answers with the empty object. *)
Lemma X16_witness :
  usable_story (generate_consistent_story empty_reply "A robot discovers a garden" 2)
    = None ∧
  generate_storyboard empty_reply "A robot discovers a garden" 2 "en-US-GuyNeural"
    one_image_state =
    (mkState StoryboardFiles.init (disk one_image_state) [],
     Ok (mkResults error None [] [] None (Some "Failed to generate story"))).
Proof.
  assert (usable_story (generate_consistent_story empty_reply
                          "A robot discovers a garden" 2) = None) as H
    by (vm_compute; reflexivity).
  split; [exact H|].
  exact (X16_error_run empty_reply "A robot discovers a garden" 2 "en-US-GuyNeural"
           one_image_state H).
Defined.

(** X17. A run does not depend on what the registry held before: from two
    states that differ in the registry only, [generate_storyboard] behaves
    the same and ends in the same state. *)
Theorem X17_run_ignores_old_registry (w : World) (story_idea : string) (num_scenes : Z)
    (voice : string) (f1 f2 : StoryboardFiles) (d : Disk) (reqs : list string) :
  generate_storyboard w story_idea num_scenes voice (mkState f1 d reqs) =
  generate_storyboard w story_idea num_scenes voice (mkState f2 d reqs).
Proof. unfold generate_storyboard. unfold bind at 1 3. reflexivity. Qed.






(** X19. A run that gets a story issues exactly one image request per
    scene, in scene order and before anything else, the request of the
    scene at index [i] carrying the seed [base + i] for a base seed between
    0 and 99999; narration and assembly issue none. *)
Theorem X19_requests_of_a_run (w : World) (story_idea : string) (num_scenes : Z)
    (voice : string) (s s' : State) (r : Results) (doc : StoryData) :
  generate_storyboard w story_idea num_scenes voice s = (s', Ok r) →
  res_story r = Some doc →
  0 ≤ py_hash w story_idea `mod` 100000 < 100000 ∧
  requests s' =
    requests s ++ map (scene_url (py_hash w story_idea `mod` 100000))
                      (enumerate (get_scenes doc)) ∧
  length (requests s') = (length (requests s) + length (get_scenes doc))%nat.
Proof.
  intros Hrun Hdoc. apply generate_storyboard_stages in Hrun. simpl in Hrun.
  destruct (usable_story _) as [story_data|]; [|destruct Hrun as [_ ->]; done].
  destruct Hrun as (s1 & s2 & images & audio & video & Hi & Ha & Hv & ->).
  simpl in Hdoc. simplify_eq.
  pose proof (wp_returns _ _ _ _ _ _ (wp_generate_images w story_idea doc _) Hi)
    as (_ & _ & Hr1).
  pose proof (wp_returns _ _ _ _ _ _ (wp_generate_narrations w voice doc _) Ha)
    as (_ & Hr2 & _).
  pose proof (wp_returns _ _ _ _ _ _ (wp_make_video_simple w doc _ _) Hv)
    as (_ & Hr3 & _).
  assert (requests s' = requests s ++ map (scene_url (py_hash w story_idea `mod` 100000))
                                          (enumerate (get_scenes doc))) as Hreq
    by (by rewrite Hr3, Hr2, Hr1).
  pose proof (Z.mod_pos_bound (py_hash w story_idea) 100000 eq_refl) as Hbase.
  split; [exact Hbase|]. split; [exact Hreq|].
  rewrite Hreq, length_app, length_map. unfold enumerate.
  rewrite length_zip, length_seqZ. lia.
Qed.

(** X19, in the studio. *)
Lemma X19_witness :
  ∃ s' r,
    generate_storyboard studio "A robot discovers a magical garden" 2
      "en-US-AriaNeural" initial_state = (s', Ok r) ∧
    length (requests s') = 2%nat.
Proof.
  destruct (generate_storyboard studio "A robot discovers a magical garden" 2
              "en-US-AriaNeural" initial_state) as [s' [r|]] eqn:Hrun;
    [|vm_compute in Hrun; discriminate].
  assert (res_story r = Some (enhance_visual_prompts Str.ascii_lower robot_story)) as Hdoc
    by (vm_compute in Hrun; injection Hrun as _ <-; reflexivity).
  exists s', r. split; [reflexivity|].
  destruct (X19_requests_of_a_run studio _ _ _ _ _ _ _ Hrun Hdoc) as (_ & _ & Hlen).
  exact Hlen.
Defined.

Lemma generate_storyboard_result (w : World) (story_idea : string) (num_scenes : Z)
    (voice : string) (s s' : State) (r : Results) :
  generate_storyboard w story_idea num_scenes voice s = (s', Ok r) →
  match res_status r with
  | completed =>
      res_video r = Some (abspath w output_path) ∧
      is_Some (disk s' !! abspath w output_path) ∧
      res_error r = None ∧ is_Some (res_story r)
  | partial =>
      res_video r = None ∧
      res_error r = Some "Images generated but video creation failed" ∧
      is_Some (res_story r)
  | error =>
      res_video r = None ∧ res_story r = None ∧ res_images r = [] ∧ res_audio r = [] ∧
      res_error r = Some "Failed to generate story"
  | processing => False
  end.
Proof.
  intros Hrun. apply generate_storyboard_stages in Hrun. simpl in Hrun.
  destruct (usable_story _) as [story_data|]; [|destruct Hrun as [_ ->]; done].
  destruct Hrun as (s1 & s2 & images & audio & video & _ & _ & Hv & ->).
  pose proof (wp_returns _ _ _ _ _ _ (wp_make_video_simple w story_data _ _) Hv)
    as (_ & _ & Hvideo).
  destruct Hvideo as [->|[-> Hdisk]]; simpl.
  - split_and!; eauto.
  - rewrite truthy_abspath. simpl. split_and!; eauto.
Qed.

(** X20. What the result of a run holds besides its status: when
    [completed], the video is the absolute path of the exported file, that
    file is on disk, and there is no error message; when [partial], there
    is no video and the message says that video creation failed. *)
Theorem X20_result_fields (w : World) (story_idea : string) (num_scenes : Z)
    (voice : string) (s s' : State) (r : Results) :
  generate_storyboard w story_idea num_scenes voice s = (s', Ok r) →
  match res_status r with
  | completed =>
      res_video r = Some (abspath w output_path) ∧
      is_Some (disk s' !! abspath w output_path) ∧
      res_error r = None ∧ is_Some (res_story r)
  | partial =>
      res_video r = None ∧
      res_error r = Some "Images generated but video creation failed" ∧
      is_Some (res_story r)
  | error =>
      res_video r = None ∧ res_story r = None ∧ res_images r = [] ∧ res_audio r = [] ∧
      res_error r = Some "Failed to generate story"
  | processing => False
  end.
Proof. apply generate_storyboard_result. Qed.

(** X20, in the studio. *)
Lemma X20_witness :
  ∃ s' r,
    generate_storyboard studio "A robot discovers a magical garden" 2
      "en-US-AriaNeural" initial_state = (s', Ok r) ∧
    res_status r = completed ∧
    res_video r = Some "/work/final_storyboard.mp4".
Proof.
  destruct (generate_storyboard studio "A robot discovers a magical garden" 2
              "en-US-AriaNeural" initial_state) as [s' [r|]] eqn:Hrun;
    [|vm_compute in Hrun; discriminate].
  assert (res_status r = completed) as Hst
    by (vm_compute in Hrun; injection Hrun as _ <-; reflexivity).
  exists s', r. split; [reflexivity|]. split; [exact Hst|].
  pose proof (X20_result_fields studio _ _ _ _ _ _ Hrun) as H.
  rewrite Hst in H. exact (proj1 H).
Defined.

(** ** Request handler *)

(** X21. An idea of fewer than ten characters after stripping is turned
    down before anything happens: in every world the reply is the fixed
    message with an empty gallery and no video, and the state, registry
    included, is left as it was. *)
Theorem X21_short_idea_rejected (w : World) (Image_open_file : string → Disk → bool)
    (story_idea : string) (num_scenes : Z) (voice_choice : string) (s : State) :
  (Str.len (Str.strip story_idea) < 10)%nat →
  process_request w Image_open_file story_idea num_scenes voice_choice s =
    (s, Ok (mkReply "❌ Please enter a longer story idea" [] None "Error: Too short")).
Proof.
  intros Hlen. unfold process_request, too_short.
  replace (Z.of_nat (Str.len (Str.strip story_idea)) <? 10) with true
    by (symmetry; apply Z.ltb_lt; lia).
  by rewrite orb_true_r.
Qed.

(** X21, on an idea of seven letters, which make more than ten bytes,
    padded with blanks, from a state with a registered image. *)
Lemma X21_witness :
  (Str.len (Str.strip "   éléphant   ") < 10)%nat ∧
  process_request studio (λ _ _, true) "   éléphant   " 4 "Male (US) - Guy"
    one_image_state =
    (one_image_state,
     Ok (mkReply "❌ Please enter a longer story idea" [] None "Error: Too short")).
Proof.
  assert (Str.len (Str.strip "   éléphant   ") < 10)%nat as H
    by (vm_compute; lia).
  split; [exact H|].
  exact (X21_short_idea_rejected studio (λ _ _, true) "   éléphant   " 4
           "Male (US) - Guy" one_image_state H).
Defined.

Lemma load_images_run (w : World) (Image_open_file : string → Disk → bool)
    (paths : list (option string)) (s : State) :
  load_images w Image_open_file paths s =
    (s, Ok (List.filter
              (λ p, Str.truthy p && bool_decide (is_Some (disk s !! abspath w p)) &&
                    Image_open_file (abspath w p) (disk s))
              (omap id paths))).
Proof.
  unfold load_images.
  set (P := λ p, Str.truthy p && bool_decide (is_Some (disk s !! abspath w p)) &&
                 Image_open_file (abspath w p) (disk s)).
  assert (∀ acc, for_each paths
            (λ images img_path,
               match img_path with
               | Some p =>
                   if Str.truthy p then
                     bind (os_path_exists w p) (λ present,
                       if present
                       then try_except
                              (bind (image_open_file w Image_open_file p)
                                 (λ _, ret (images ++ [p])))
                              (ret images)
                       else ret images)
                   else ret images
               | None => ret images
               end) acc s = (s, Ok (acc ++ List.filter P (omap id paths)))) as H.
  { induction paths as [|[p|] paths IH]; intros acc; simpl.
    - by rewrite app_nil_r.
    - unfold bind at 1. unfold P at 1.
      destruct (Str.truthy p); simpl; [|apply IH].
      unfold bind, os_path_exists.
      destruct (bool_decide (is_Some (disk s !! abspath w p))); simpl; [|apply IH].
      unfold try_except, bind, image_open_file.
      destruct (Image_open_file (abspath w p) (disk s)); simpl; [|apply IH].
      rewrite IH. by rewrite <- app_assoc.
    - unfold bind at 1. simpl. apply IH. }
  apply (H []).
Qed.

Lemma filter_map_bool {A B} (f : A → B) (P : B → bool) (l : list A) :
  List.filter P (map f l) = map f (List.filter (λ x, P (f x)) l).
Proof.
  induction l as [|x l IH]; simpl; [done|].
  destruct (P (f x)); simpl; by rewrite IH.
Qed.

Lemma omap_id_map_Some {A B} (f : A → B) (l : list A) :
  omap id (map (λ x, Some (f x)) l) = map f l.
Proof. induction l as [|x l IH]; [done|]. csimpl. by f_equal. Qed.

(** What the handler makes of a result of the generator. *)
Lemma process_request_stages (w : World) (Image_open_file : string → Disk → bool)
    (story_idea : string) (num_scenes : Z) (voice_choice : string) (s s' : State)
    (r : Results) :
  too_short story_idea = false →
  generate_storyboard w story_idea num_scenes
    (dict_get voice_map voice_choice "en-US-AriaNeural") s = (s', Ok r) →
  process_request w Image_open_file story_idea num_scenes voice_choice s =
    match res_story r with
    | Some doc =>
        (s', Ok (mkReply (format_story doc)
                   (map (λ k, abspath w (scene_png k))
                      (List.filter (shown w Image_open_file (disk s'))
                         (seqZ 1 (Z.of_nat (length (get_scenes doc))))))
                   (res_video r)
                   (match res_status r with
                    | completed => "✅ Complete!"
                    | _ => "⚠️ Partial (check video)"
                    end)))
    | None =>
        (s', Ok (mkReply "❌ Generation failed" [] None "Error: Failed to generate story"))
    end.
Proof.
  intros Hlong Hrun. unfold process_request. rewrite Hlong.
  unfold bind at 1. rewrite Hrun.
  pose proof (generate_storyboard_result _ _ _ _ _ _ _ Hrun) as Hfields.
  apply generate_storyboard_stages in Hrun. simpl in Hrun.
  destruct (usable_story _) as [story_data|]; [|by destruct Hrun as [_ ->]].
  destruct Hrun as (s1 & s2 & images & audio & video & Hi & _ & _ & ->).
  pose proof (wp_returns _ _ _ _ _ _ (wp_generate_images w story_idea story_data _) Hi)
    as (-> & _ & _).
  assert (∀ st,
    bind (load_images w Image_open_file
            (map (λ item : Z * Scene, Some (abspath w (scene_png (item.1 + 1))))
               (enumerate (get_scenes story_data))))
      (λ images, ret (mkReply (format_story story_data) images video
                        (match st with
                         | completed => "✅ Complete!"
                         | _ => "⚠️ Partial (check video)"
                         end))) s' =
    (s', Ok (mkReply (format_story story_data)
               (map (λ k, abspath w (scene_png k))
                  (List.filter (shown w Image_open_file (disk s'))
                     (seqZ 1 (Z.of_nat (length (get_scenes story_data))))))
               video
               (match st with
                | completed => "✅ Complete!"
                | _ => "⚠️ Partial (check video)"
                end)))) as Hgallery.
  { intros st. unfold bind. rewrite load_images_run. unfold ret. do 3 f_equal.
    rewrite (omap_id_map_Some (λ item : Z * Scene, abspath w (scene_png (item.1 + 1)))).
    assert (map (λ item : Z * Scene, item.1 + 1) (enumerate (get_scenes story_data)) =
            seqZ 1 (Z.of_nat (length (get_scenes story_data)))) as <-
      by (rewrite <- enumerate_keys; clear; induction (enumerate _); simpl; by f_equal).
    rewrite !filter_map_bool, map_map. f_equal. apply List.filter_ext. intros item.
    unfold shown. by rewrite truthy_abspath, abspath_idemp. }
  destruct (path_truthy video); simpl;
    [exact (Hgallery completed)|exact (Hgallery partial)].
Qed.

(** X22. Every reply of the handler is of one of four kinds, told apart by
    the status line: the idea was too short and nothing was touched; the
    generator had no story, and the status reads that story generation
    failed; the run completed, and the video is the exported file, found
    on disk; or the run is partial and there is no video.  No other status
    line is ever shown. *)
Theorem X22_reply_kinds (w : World) (Image_open_file : string → Disk → bool)
    (story_idea : string) (num_scenes : Z) (voice_choice : string) (s s' : State)
    (reply : Reply) :
  process_request w Image_open_file story_idea num_scenes voice_choice s =
    (s', Ok reply) →
  (too_short story_idea = true ∧ s' = s ∧
   reply = mkReply "❌ Please enter a longer story idea" [] None "Error: Too short") ∨
  (too_short story_idea = false ∧
   reply = mkReply "❌ Generation failed" [] None "Error: Failed to generate story") ∨
  (too_short story_idea = false ∧ reply_status reply = "✅ Complete!" ∧
   reply_video reply = Some (abspath w output_path) ∧
   is_Some (disk s' !! abspath w output_path)) ∨
  (too_short story_idea = false ∧ reply_status reply = "⚠️ Partial (check video)" ∧
   reply_video reply = None).
Proof.
  intros Hrun. destruct (too_short story_idea) eqn:Hshort.
  - left. unfold process_request in Hrun. rewrite Hshort in Hrun.
    unfold ret in Hrun. by simplify_eq.
  - right.
    destruct (generate_storyboard w story_idea num_scenes
                (dict_get voice_map voice_choice "en-US-AriaNeural") s)
      as [s1 [r|]] eqn:Hgen.
    + rewrite (process_request_stages _ _ _ _ _ _ _ _ Hshort Hgen) in Hrun.
      pose proof (generate_storyboard_result _ _ _ _ _ _ _ Hgen) as Hfields.
      destruct (res_status r) eqn:Hst; [done| | |].
      * destruct Hfields as (Hv & Hd & _ & [doc Hdoc]). rewrite Hdoc in Hrun.
        simplify_eq. right. left. simpl. by rewrite Hv.
      * destruct Hfields as (Hv & _ & [doc Hdoc]). rewrite Hdoc in Hrun.
        simplify_eq. right. right. simpl. by rewrite Hv.
      * destruct Hfields as (_ & Hdoc & _). rewrite Hdoc in Hrun.
        simplify_eq. by left.
    + unfold process_request in Hrun. rewrite Hshort in Hrun.
      unfold bind at 1 in Hrun. by rewrite Hgen in Hrun.
Qed.

(** X22, on a run of the studio. *)
Lemma X22_witness :
  ∃ s' reply,
    process_request studio (λ _ _, true) "A robot discovers a magical garden" 2
      "Male (US) - Guy" initial_state = (s', Ok reply) ∧
    reply_status reply = "✅ Complete!".
Proof.
  destruct (process_request studio (λ _ _, true) "A robot discovers a magical garden" 2
              "Male (US) - Guy" initial_state) as [s' [reply|]] eqn:Hrun;
    [|vm_compute in Hrun; discriminate].
  assert (reply_status reply = "✅ Complete!") as Hst
    by (vm_compute in Hrun; injection Hrun as _ <-; reflexivity).
  exists s', reply. split; [reflexivity|].
  destruct (X22_reply_kinds studio _ _ _ _ _ _ _ Hrun) as [H|[H|[H|H]]].
  - exact Hst.
  - exact Hst.
  - exact (proj1 (proj2 H)).
  - exact Hst.
Defined.

(** X23. The handler adds no failure and no effect of its own: when the
    generator returns for a long enough idea, the handler returns in the
    same final state; for a story, the text is the formatted story and the
    gallery holds, in scene order, the image files of exactly the scenes
    whose file is on disk and opens as a picture. *)
Theorem X23_gallery (w : World) (Image_open_file : string → Disk → bool)
    (story_idea : string) (num_scenes : Z) (voice_choice : string) (s s' : State)
    (r : Results) :
  too_short story_idea = false →
  generate_storyboard w story_idea num_scenes
    (dict_get voice_map voice_choice "en-US-AriaNeural") s = (s', Ok r) →
  ∃ reply,
    process_request w Image_open_file story_idea num_scenes voice_choice s =
      (s', Ok reply) ∧
    ∀ doc, res_story r = Some doc →
      reply_text reply = format_story doc ∧
      reply_images reply =
        map (λ k, abspath w (scene_png k))
          (List.filter (shown w Image_open_file (disk s'))
             (seqZ 1 (Z.of_nat (length (get_scenes doc))))) ∧
      (length (reply_images reply) ≤ length (get_scenes doc))%nat.
Proof.
  intros Hlong Hgen.
  rewrite (process_request_stages _ _ _ _ _ _ _ _ Hlong Hgen).
  destruct (res_story r) as [doc|]; eexists; (split; [reflexivity|]);
    intros doc' Hdoc; simplify_eq.
  simpl. split_and!; [done..|].
  rewrite length_map.
  etransitivity; [apply List.filter_length_le|]. rewrite length_seqZ. lia.
Qed.

(** X23, in a studio whose pictures never open: the gallery is empty. *)
Lemma X23_witness :
  ∃ s' reply,
    process_request studio (λ _ _, false) "A robot discovers a magical garden" 2
      "Male (US) - Guy" initial_state = (s', Ok reply) ∧
    reply_images reply = [].
Proof.
  assert (too_short "A robot discovers a magical garden" = false) as Hlong
    by (vm_compute; reflexivity).
  destruct (generate_storyboard studio "A robot discovers a magical garden" 2
              (dict_get voice_map "Male (US) - Guy" "en-US-AriaNeural") initial_state)
    as [s' [r|]] eqn:Hgen; [|vm_compute in Hgen; discriminate].
  assert (res_story r = Some (enhance_visual_prompts Str.ascii_lower robot_story)) as Hdoc
    by (vm_compute in Hgen; injection Hgen as _ <-; reflexivity).
  destruct (X23_gallery studio (λ _ _, false) _ 2 "Male (US) - Guy" _ _ _ Hlong Hgen)
    as (reply & Hrun & Hreply).
  exists s', reply. split; [exact Hrun|].
  destruct (Hreply _ Hdoc) as (_ & -> & _).
  match goal with |- context [List.filter _ ?ks] => induction ks as [|k l IH] end;
    simpl; [reflexivity|].
  unfold shown at 1. rewrite andb_false_r. exact IH.
Defined.

Lemma dict_get_absent (d : list (string * string)) (key default : string) :
  key ∉ d.*1 → dict_get d key default = default.
Proof.
  induction d as [|[k v] d IH]; simpl; [done|].
  intros Hn. apply not_elem_of_cons in Hn as [Hk Hd].
  destruct (String.eqb_spec k key); [congruence|auto].
Qed.

Lemma dict_get_present (d : list (string * string)) (key v default : string) :
  NoDup d.*1 → (key, v) ∈ d → dict_get d key default = v.
Proof.
  induction d as [|[k v'] d IH]; simpl; intros Hnd Hin.
  - by apply elem_of_nil in Hin.
  - apply NoDup_cons in Hnd as [Hk Hnd].
    apply elem_of_cons in Hin as [Heq|Hin].
    + simplify_eq. by rewrite String.eqb_refl.
    + destruct (String.eqb_spec k key) as [->|_]; [|auto].
      destruct Hk. by apply (list_elem_of_fmap_2 fst d (key, v)).
Qed.

Lemma dict_get_in (d : list (string * string)) (key default : string) :
  dict_get d key default = default ∨ dict_get d key default ∈ d.*2.
Proof.
  induction d as [|[k v] d IH]; simpl; [by left|].
  destruct (String.eqb k key); [right; apply list_elem_of_here|].
  destruct IH as [IH|IH]; [by left|right; by apply list_elem_of_further].
Qed.

(** X24. The voice handed to the generator is always one of the five
    voices of the table, whatever the interface sends: a label of the
    table gives its own voice, any other string the first one. *)
Theorem X24_voice_of_the_table (voice_choice : string) :
  dict_get voice_map voice_choice "en-US-AriaNeural" ∈ voice_map.*2 ∧
  (voice_choice ∉ voice_map.*1 →
   dict_get voice_map voice_choice "en-US-AriaNeural" = "en-US-AriaNeural") ∧
  (∀ voice, (voice_choice, voice) ∈ voice_map →
            dict_get voice_map voice_choice "en-US-AriaNeural" = voice).
Proof.
  split_and!.
  - destruct (dict_get_in voice_map voice_choice "en-US-AriaNeural") as [->|H];
      [apply list_elem_of_here|exact H].
  - apply dict_get_absent.
  - intros voice. apply dict_get_present.
    apply (bool_decide_unpack _). by vm_compute.
Qed.

Lemma contains_self (p : string) : Str.contains p p = true.
Proof.
  pose proof (StrFacts.contains_refl_app p "") as H. by rewrite str_app_empty_r in H.
Qed.

Lemma scene_blocks_keep (sub : string) (l : list Scene) (text : string) :
  Str.contains sub text = true →
  Str.contains sub (foldl (λ text scene, text +:+ scene_block scene) text l) = true.
Proof.
  revert text. induction l as [|x l IH]; intros text H; simpl; [done|].
  by apply IH, StrFacts.contains_app_l.
Qed.

Lemma scene_blocks_start (p : string) (l : list Scene) (text : string) :
  Str.startswith p text = true →
  Str.startswith p (foldl (λ text scene, text +:+ scene_block scene) text l) = true.
Proof.
  revert text. induction l as [|x l IH]; intros text H; simpl; [done|].
  by apply IH, StrFacts.startswith_app_l.
Qed.

(** X25. The text of a story opens with the title heading, with the title
    of the story as [str()] shows it or [My Story] for want of one, and
    holds the block of every scene of the story. *)
Theorem X25_text_of_a_story (story_data : StoryData) :
  Str.startswith ("# 📖 " +:+ from_option title_str "My Story" (title story_data))
    (format_story story_data) = true ∧
  Forall (λ scene, Str.contains (scene_block scene) (format_story story_data) = true)
    (get_scenes story_data).
Proof.
  unfold format_story. split.
  - apply scene_blocks_start.
    destruct (bible_truthy _); rewrite ?StrFacts.app_assoc;
      rewrite <- (StrFacts.app_assoc "# 📖 " (from_option title_str "My Story" (title story_data)));
      apply StrFacts.startswith_refl_app.
  - generalize (((if bible_truthy (get_visual_bible story_data)
                  then ("# 📖 " +:+ from_option title_str "My Story" (title story_data) +:+ newline
                        +:+ newline) +:+ style_block (get_visual_bible story_data)
                  else "# 📖 " +:+ from_option title_str "My Story" (title story_data) +:+ newline
                       +:+ newline) +:+ "## 🎬 Scenes" +:+ newline +:+ newline)).
    induction (get_scenes story_data) as [|x l IH]; intros text; simpl;
      constructor.
    + apply scene_blocks_keep, StrFacts.contains_app_r, contains_self.
    + apply IH.
Qed.
